(** * The XIM BLE protocol engine of the lighting gateway

    A shallow embedding of the parts of [lighting-server/xim/ble_xim.py],
    [lighting-server/xim/ximGateway.py] and [lighting-server/xim/LogHandler.py]
    that carry the security engine, the chunked attribute write, the
    group-membership resolver, the disconnection handler, the persisted
    files and the gateway command queue, with the properties proved about
    them.

    Python integers are [Z]; Python lists of byte values are [list Z];
    Python 2 byte strings ([str]) are [list byte]. *)

From Stdlib Require Import ZArith Lia Bool.
From Stdlib.Strings Require Import Byte.
From stdpp Require Import base list strings gmap pretty.

Local Open Scope Z_scope.

(** ** Python list operations used by the source *)

Module Py.

(** Normalisation of a slice bound against a list of length [len]:
    negative bounds count from the end, everything is clipped. *)
Definition norm (len i : Z) : nat :=
  Z.to_nat (if i <? 0 then Z.max 0 (len + i) else Z.min i len).

(** [l[a:b]] *)
Definition slice {A} (l : list A) (a b : Z) : list A :=
  let n := Z.of_nat (length l) in
  take (norm n b - norm n a)%nat (drop (norm n a) l).

(** [l[a:]] *)
Definition slice_from {A} (l : list A) (a : Z) : list A :=
  drop (norm (Z.of_nat (length l)) a) l.

(** [l[:b]] *)
Definition slice_to {A} (l : list A) (b : Z) : list A :=
  take (norm (Z.of_nat (length l)) b) l.

(** [l[a:b] = v] *)
Definition slice_assign {A} (l : list A) (a b : Z) (v : list A) : list A :=
  let n := Z.of_nat (length l) in
  take (norm n a) l ++ v ++ drop (Nat.max (norm n a) (norm n b)) l.

(** [l[a:] = v] *)
Definition slice_assign_from {A} (l : list A) (a : Z) (v : list A) : list A :=
  take (norm (Z.of_nat (length l)) a) l ++ v.

(** [l[:b] = v] *)
Definition slice_assign_to {A} (l : list A) (b : Z) (v : list A) : list A :=
  v ++ drop (norm (Z.of_nat (length l)) b) l.

(** [[x] * n]; a non-positive [n] gives the empty list. *)
Definition repeat {A} (x : A) (n : Z) : list A := replicate (Z.to_nat n) x.

(** [len(l)] *)
Definition len {A} (l : list A) : Z := Z.of_nat (length l).

(** [l[i] = x] for [0 <= i]; [None] stands for [IndexError]. *)
Definition set_item {A} (l : list A) (i : Z) (x : A) : option (list A) :=
  if (0 <=? i) && (i <? len l) then Some (<[Z.to_nat i := x]> l) else None.

(** The values [chr] accepts, the byte values of a Python 2 string. *)
Definition is_byte (z : Z) : Prop := 0 <= z < 256.

End Py.

(** ** The AES block cipher (FIPS-197), 128-bit keys

    [ble_xim.py] obtains its cipher from the third-party package
    [Crypto.Cipher.AES]; the block function that package computes is the one
    standardised in FIPS-197, transcribed here on byte values in [Z]. *)

Module AES.

Definition sbox : list Z :=
[ 0x63; 0x7c; 0x77; 0x7b; 0xf2; 0x6b; 0x6f; 0xc5; 0x30; 0x01; 0x67; 0x2b; 0xfe; 0xd7; 0xab; 0x76;
  0xca; 0x82; 0xc9; 0x7d; 0xfa; 0x59; 0x47; 0xf0; 0xad; 0xd4; 0xa2; 0xaf; 0x9c; 0xa4; 0x72; 0xc0;
  0xb7; 0xfd; 0x93; 0x26; 0x36; 0x3f; 0xf7; 0xcc; 0x34; 0xa5; 0xe5; 0xf1; 0x71; 0xd8; 0x31; 0x15;
  0x04; 0xc7; 0x23; 0xc3; 0x18; 0x96; 0x05; 0x9a; 0x07; 0x12; 0x80; 0xe2; 0xeb; 0x27; 0xb2; 0x75;
  0x09; 0x83; 0x2c; 0x1a; 0x1b; 0x6e; 0x5a; 0xa0; 0x52; 0x3b; 0xd6; 0xb3; 0x29; 0xe3; 0x2f; 0x84;
  0x53; 0xd1; 0x00; 0xed; 0x20; 0xfc; 0xb1; 0x5b; 0x6a; 0xcb; 0xbe; 0x39; 0x4a; 0x4c; 0x58; 0xcf;
  0xd0; 0xef; 0xaa; 0xfb; 0x43; 0x4d; 0x33; 0x85; 0x45; 0xf9; 0x02; 0x7f; 0x50; 0x3c; 0x9f; 0xa8;
  0x51; 0xa3; 0x40; 0x8f; 0x92; 0x9d; 0x38; 0xf5; 0xbc; 0xb6; 0xda; 0x21; 0x10; 0xff; 0xf3; 0xd2;
  0xcd; 0x0c; 0x13; 0xec; 0x5f; 0x97; 0x44; 0x17; 0xc4; 0xa7; 0x7e; 0x3d; 0x64; 0x5d; 0x19; 0x73;
  0x60; 0x81; 0x4f; 0xdc; 0x22; 0x2a; 0x90; 0x88; 0x46; 0xee; 0xb8; 0x14; 0xde; 0x5e; 0x0b; 0xdb;
  0xe0; 0x32; 0x3a; 0x0a; 0x49; 0x06; 0x24; 0x5c; 0xc2; 0xd3; 0xac; 0x62; 0x91; 0x95; 0xe4; 0x79;
  0xe7; 0xc8; 0x37; 0x6d; 0x8d; 0xd5; 0x4e; 0xa9; 0x6c; 0x56; 0xf4; 0xea; 0x65; 0x7a; 0xae; 0x08;
  0xba; 0x78; 0x25; 0x2e; 0x1c; 0xa6; 0xb4; 0xc6; 0xe8; 0xdd; 0x74; 0x1f; 0x4b; 0xbd; 0x8b; 0x8a;
  0x70; 0x3e; 0xb5; 0x66; 0x48; 0x03; 0xf6; 0x0e; 0x61; 0x35; 0x57; 0xb9; 0x86; 0xc1; 0x1d; 0x9e;
  0xe1; 0xf8; 0x98; 0x11; 0x69; 0xd9; 0x8e; 0x94; 0x9b; 0x1e; 0x87; 0xe9; 0xce; 0x55; 0x28; 0xdf;
  0x8c; 0xa1; 0x89; 0x0d; 0xbf; 0xe6; 0x42; 0x68; 0x41; 0x99; 0x2d; 0x0f; 0xb0; 0x54; 0xbb; 0x16 ].

Definition SubByte (b : Z) : Z := nth (Z.to_nat b) sbox 0.

(** Multiplication by [x] in GF(2^8) modulo [x^8 + x^4 + x^3 + x + 1]. *)
Definition xtime (b : Z) : Z :=
  let s := Z.land (Z.shiftl b 1) 0xff in
  if Z.testbit b 7 then Z.lxor s 0x1b else s.

Definition xor_bytes (a b : list Z) : list Z := zip_with Z.lxor a b.

(** The state is kept in the order of the input block: byte [r + 4c] is
    row [r] of column [c]. *)
Definition at_ (s : list Z) (i : nat) : Z := nth i s 0.

Definition SubBytes (s : list Z) : list Z := map SubByte s.

Definition ShiftRows (s : list Z) : list Z :=
  map (fun i => at_ s (i mod 4 + 4 * ((i / 4 + i mod 4) mod 4)))%nat (seq 0 16).

Definition mix_column (a0 a1 a2 a3 : Z) : list Z :=
  [ Z.lxor (Z.lxor (xtime a0) (Z.lxor (xtime a1) a1)) (Z.lxor a2 a3);
    Z.lxor (Z.lxor a0 (xtime a1)) (Z.lxor (Z.lxor (xtime a2) a2) a3);
    Z.lxor (Z.lxor a0 a1) (Z.lxor (xtime a2) (Z.lxor (xtime a3) a3));
    Z.lxor (Z.lxor (Z.lxor (xtime a0) a0) a1) (Z.lxor a2 (xtime a3)) ].

Definition MixColumns (s : list Z) : list Z :=
  flat_map (fun c => mix_column (at_ s (4 * c)) (at_ s (4 * c + 1))
                                (at_ s (4 * c + 2)) (at_ s (4 * c + 3)))%nat
           (seq 0 4).

(** One step of the key schedule: the next round key from the current one
    and the round constant. *)
Definition next_round_key (rk : list Z) (rc : Z) : list Z :=
  let t := [ Z.lxor (SubByte (at_ rk 13)) rc; SubByte (at_ rk 14);
             SubByte (at_ rk 15); SubByte (at_ rk 12) ] in
  let w0 := xor_bytes (take 4 rk) t in
  let w1 := xor_bytes (take 4 (drop 4 rk)) w0 in
  let w2 := xor_bytes (take 4 (drop 8 rk)) w1 in
  let w3 := xor_bytes (take 4 (drop 12 rk)) w2 in
  w0 ++ w1 ++ w2 ++ w3.

Definition rcon : list Z := [0x01; 0x02; 0x04; 0x08; 0x10; 0x20; 0x40; 0x80; 0x1b; 0x36].

Definition round (s rk : list Z) : list Z :=
  xor_bytes (MixColumns (ShiftRows (SubBytes s))) rk.

Definition final_round (s rk : list Z) : list Z :=
  xor_bytes (ShiftRows (SubBytes s)) rk.

(** Rounds 1 to 10, the key schedule advanced alongside. *)
Fixpoint rounds (rcs : list Z) (s rk : list Z) : list Z :=
  match rcs with
  | [] => s
  | [rc] => final_round s (next_round_key rk rc)
  | rc :: rcs' =>
      let rk' := next_round_key rk rc in
      rounds rcs' (round s rk') rk'
  end.

(** [Cipher(in, key)] for a 16-byte key and a 16-byte block. *)
Definition encrypt_block (key block : list Z) : list Z :=
  rounds rcon (xor_bytes block key) key.

End AES.

(** ** The CCM mode of [Crypto.Cipher.AES] (NIST SP 800-38C, RFC 3610)

    The cipher object returned by [AES.new(key, AES.MODE_CCM, nonce,
    mac_len = n)], with the methods [ble_xim.py] calls on it: [update],
    [encrypt], [decrypt], [digest] and [verify]. The mode is written over an
    arbitrary block function [E], the cipher already keyed. *)

Module CCM.

#[global] Instance byte_eq_decision : EqDecision byte := Byte.byte_eq_dec.

Definition byte_of_Z (z : Z) : byte :=
  match Byte.of_N (Z.to_N z) with Some b => b | None => x00 end.

Definition Z_of_byte (b : byte) : Z := Z.of_N (Byte.to_N b).

Definition bxor (a b : byte) : byte :=
  let '(a0, (a1, (a2, (a3, (a4, (a5, (a6, a7))))))) := Byte.to_bits a in
  let '(b0, (b1, (b2, (b3, (b4, (b5, (b6, b7))))))) := Byte.to_bits b in
  Byte.of_bits (xorb a0 b0, (xorb a1 b1, (xorb a2 b2, (xorb a3 b3,
               (xorb a4 b4, (xorb a5 b5, (xorb a6 b6, xorb a7 b7))))))).

(** Byte-wise exclusive or, as long as the shorter argument. *)
Definition strxor (a b : list byte) : list byte := zip_with bxor a b.

(** [n] as [q] bytes, most significant first. *)
Fixpoint long_to_bytes (n : Z) (q : nat) : list byte :=
  match q with
  | O => []
  | S q' => long_to_bytes (n / 256) q' ++ [byte_of_Z (n mod 256)]
  end.

Definition zero_pad (s : list byte) : list byte :=
  s ++ replicate ((16 - length s mod 16) mod 16)%nat x00.

(** The consecutive 16-byte blocks of [s]; [fuel] bounds their number. *)
Fixpoint blocks (fuel : nat) (s : list byte) : list (list byte) :=
  match fuel, s with
  | O, _ | _, [] => []
  | S fuel', _ => take 16 s :: blocks fuel' (drop 16 s)
  end.

Section Mode.

Variable E : list byte -> list byte.
Variable nonce : list byte.
Variable mac_len : Z.

(** The width of the length field and of the block counter. *)
Definition q : nat := (15 - length nonce)%nat.

(** The first block of the authenticated data (SP 800-38C, A.2.1). *)
Definition b_0 (assoc_len msg_len : Z) : list byte :=
  byte_of_Z (64 * (if 0 <? assoc_len then 1 else 0)
             + 8 * ((mac_len - 2) / 2) + (Z.of_nat q - 1))
  :: nonce ++ long_to_bytes msg_len q.

(** The length prefix of the associated data (A.2.2). *)
Definition assoc_len_encoded (assoc_len : Z) : list byte :=
  if assoc_len =? 0 then []
  else if assoc_len <? 0xFF00 then long_to_bytes assoc_len 2
  else if assoc_len <? 2 ^ 32 then xff :: xfe :: long_to_bytes assoc_len 4
  else xff :: xff :: long_to_bytes assoc_len 8.

Definition cbc_mac (data : list byte) : list byte :=
  foldl (fun x b => E (strxor x b)) (replicate 16 x00) (blocks (length data) data).

(** The counter block number [i] (A.3). *)
Definition ctr_block (i : Z) : list byte :=
  byte_of_Z (Z.of_nat q - 1) :: nonce ++ long_to_bytes i q.

Definition keystream (n : nat) : list byte :=
  take n (flat_map (fun i => E (ctr_block (Z.of_nat i))) (seq 1 (n / 16 + 1))).

Definition ctr (data : list byte) : list byte :=
  strxor data (keystream (length data)).

(** The tag over associated data [assoc] and message [msg]. *)
Definition tag (assoc msg : list byte) : list byte :=
  let authenticated :=
    b_0 (Py.len assoc) (Py.len msg)
    ++ zero_pad (assoc_len_encoded (Py.len assoc) ++ assoc)
    ++ zero_pad msg in
  strxor (take (Z.to_nat mac_len) (cbc_mac authenticated))
         (take (Z.to_nat mac_len) (E (ctr_block 0))).

End Mode.

(** The cipher object: the keyed block function, the parameters given to
    [new], the associated data passed to [update] so far and, once
    [encrypt] or [decrypt] has run, the plaintext the tag covers. *)
Record cipher := {
  block_fn : list byte -> list byte;
  c_nonce : list byte;
  c_mac_len : Z;
  c_assoc : list byte;
  c_msg : list byte
}.

Definition update (c : cipher) (data : list byte) : cipher :=
  {| block_fn := block_fn c; c_nonce := c_nonce c; c_mac_len := c_mac_len c;
     c_assoc := c_assoc c ++ data; c_msg := c_msg c |}.

Definition with_msg (c : cipher) (msg : list byte) : cipher :=
  {| block_fn := block_fn c; c_nonce := c_nonce c; c_mac_len := c_mac_len c;
     c_assoc := c_assoc c; c_msg := msg |}.

(** A message fits when its length can be written in the [q]-byte length
    field; a longer one is outside the mode's domain ([None]). *)
Definition fits (c : cipher) (data : list byte) : bool :=
  Py.len data <? 256 ^ Z.of_nat (q (c_nonce c)).

Definition encrypt (c : cipher) (plaintext : list byte) : option (cipher * list byte) :=
  if fits c plaintext
  then Some (with_msg c plaintext, ctr (block_fn c) (c_nonce c) plaintext)
  else None.

Definition decrypt (c : cipher) (ciphertext : list byte) : option (cipher * list byte) :=
  if fits c ciphertext
  then let plaintext := ctr (block_fn c) (c_nonce c) ciphertext in
       Some (with_msg c plaintext, plaintext)
  else None.

Definition digest (c : cipher) : list byte :=
  tag (block_fn c) (c_nonce c) (c_mac_len c) (c_assoc c) (c_msg c).

(** [verify] raises [ValueError] unless the received tag is the computed
    one; [false] stands for the exception. *)
Definition verify (c : cipher) (received : list byte) : bool :=
  bool_decide (digest c = received).

(** AES with a 128-bit key as the block function. *)
Definition aes (key : list byte) (block : list byte) : list byte :=
  map byte_of_Z (AES.encrypt_block (map Z_of_byte key) (map Z_of_byte block)).

(** [AES.new(key, AES.MODE_CCM, nonce, mac_len = mac_len)]; [None] stands
    for the [ValueError] raised on a nonce outside 7..13 bytes or a tag
    length outside 4, 6, ..., 16. Only 16-byte keys are modelled. *)
Definition new (key nonce : list byte) (mac_len : Z) : option cipher :=
  if (length key =? 16)%nat
     && (7 <=? length nonce)%nat && (length nonce <=? 13)%nat
     && (4 <=? mac_len) && (mac_len <=? 16) && (mac_len mod 2 =? 0)
  then Some {| block_fn := aes key; c_nonce := nonce; c_mac_len := mac_len;
               c_assoc := []; c_msg := [] |}
  else None.

End CCM.

(** ** [ble_xim.py]: constants, conversions and the AES-CCM wrappers *)

Module BleXim.

Definition NUM_GROUPS : Z := 16.
Definition GROUP_MEMBER_LENGTH : Z := 2.
Definition XGROUP_LAST_PACKET_FLAG : Z := 0x80.
Definition GROUP_MEMBER_UNASSIGNED : Z := 0xFFFF.
Definition XBGROUP_HEADER_LENGTH : Z := 1.
Definition XBGROUP_HEADER_OFFSET : Z := 0.
Definition XBGROUP_MEMBERS_OFFSET : Z := 1.

Definition AD1_LENGTH : Z := 2.
Definition AD1_TYPE : Z := 1.
Definition AD1_VALUE : Z := 6.
Definition BLEX_GROUP_ADDRESS_MIN : Z := 0xC000.
Definition BLEX_GROUP_ADDRESS_MAX : Z := 0xFFFE.
Definition BLEX_BROADCAST_ADDRESS : Z := 0xFFFF.
Definition ASSIGNED_ADDRESS_LENGTH : Z := 2.
Definition ADV_COMPANY_ID_XICATO : list Z := [0x53; 0x02].
Definition XB_TYPE_UNENCRYPTED : Z := 0x05.
Definition XB_TYPE_ENCRYPTED_FLAG : Z := 0x80.

Definition XBX_NETWORK_ID_LENGTH : Z := 1.
Definition XBX_SEQUENCE_ID_LENGTH : Z := 4.
Definition XBX_SOURCE_ADDR_LENGTH : Z := 2.
Definition XBX_RFU_LENGTH : Z := 1.
Definition XBX_RFU_VALUE : Z := 0.
Definition XBX_MIC_LENGTH : Z := 4.
Definition NONCE_LENGTH : Z := 13.
Definition NONCE_SOURCE_ADDR_OFFSET : Z := 0.
Definition NONCE_SQN_OFFSET : Z := NONCE_SOURCE_ADDR_OFFSET + ASSIGNED_ADDRESS_LENGTH.
Definition XBX_COMPANY_ID_OFFSET : Z := 0.
Definition XBX_NETWORK_ID_OFFSET : Z := XBX_COMPANY_ID_OFFSET + Py.len ADV_COMPANY_ID_XICATO.
Definition XBX_SOURCE_ADDR_OFFSET : Z := XBX_NETWORK_ID_OFFSET + XBX_NETWORK_ID_LENGTH.
Definition XBX_SEQUENCE_ID_OFFSET : Z := XBX_SOURCE_ADDR_OFFSET + XBX_SOURCE_ADDR_LENGTH.
Definition XBX_RFU_OFFSET : Z := XBX_SEQUENCE_ID_OFFSET + XBX_SEQUENCE_ID_LENGTH.
Definition XBX_PAYLOAD_AND_MIC_OFFSET : Z := XBX_RFU_OFFSET + XBX_RFU_LENGTH.
Definition XBX_NETWORK_ID_PARTIAL_ID_MASK : Z := 0x1F.
Definition XBX_SEQUENCE_ID_MAX_VALUE : Z := 2 ^ 32.
Definition NETWORK_KEY_LENGTH : Z := 16.
Definition NETWORK_KEY_NONE : list Z := Py.repeat 0 16.
Definition MAX_UNEXPECTED_DISCONNECTIONS : Z := 3.
Definition MAX_GATT_WRITE_SIZE : Z := 20.
Definition MAX_GATT_CHUNK_WRITE_SIZE : Z := 18.
Definition DEVICE_TYPE_XIM : Z := 1.
Definition DEVICE_TYPE_XSENSOR : Z := 2.

(** [ConvertListToInt(thisList)], little-endian (the default). *)
Definition ConvertListToInt (thisList : list Z) : Z :=
  fst (foldl (fun '(total, multiplier) value =>
                (total + value * multiplier, multiplier * 256))
             (0, 1) thisList).

(** The [while(length > 0)] loop of [ConvertIntToList]; the divisions are
    Python 2 integer divisions. *)
Fixpoint ConvertIntToList_loop (length : nat) (value divisor : Z) (outList : list Z)
  : list Z :=
  match length with
  | O => outList
  | S length' =>
      let valueItem := value / divisor in
      ConvertIntToList_loop length' (value - valueItem * divisor) (divisor / 256)
                            (outList ++ [valueItem])
  end.

(** [ConvertIntToList(value, length)], little-endian (the default). *)
Definition ConvertIntToList (value length : Z) : list Z :=
  rev (ConvertIntToList_loop (Z.to_nat length) value (256 ^ (length - 1)) []).

(** [BytesToString]: [chr] raises [ValueError] outside [range(256)]. *)
Definition BytesToString (bytes : list Z) : option (list byte) :=
  mapM (fun val => if (0 <=? val) && (val <? 256)
                   then Byte.of_N (Z.to_N val) else None) bytes.

Definition StringToBytes (str : list byte) : list Z := map CCM.Z_of_byte str.

Definition AesCcmEncrypt (key nonce inData : list Z) : option (list Z * list Z) :=
  k ← BytesToString key;
  n ← BytesToString nonce;
  cipher ← CCM.new k n 4;
  aad ← BytesToString [1];
  let cipher := CCM.update cipher aad in
  d ← BytesToString inData;
  '(cipher, out) ← CCM.encrypt cipher d;
  Some (StringToBytes out, StringToBytes (CCM.digest cipher)).

(** In [AesCcmDecrypt] the [try] covers [cipher.verify(BytesToString(mac))]
    whole, so a tag that [BytesToString] rejects gives [isValid = False]. *)
Definition AesCcmDecrypt (key nonce inData mac : list Z) : option (list Z * bool) :=
  k ← BytesToString key;
  n ← BytesToString nonce;
  cipher ← CCM.new k n 4;
  aad ← BytesToString [1];
  let cipher := CCM.update cipher aad in
  d ← BytesToString inData;
  '(cipher, outData) ← CCM.decrypt cipher d;
  let outData := StringToBytes outData in
  let isValid := match BytesToString mac with
                 | Some m => CCM.verify cipher m
                 | None => false
                 end in
  Some (outData, isValid).

(** *** Devices, credentials and the engine state *)

Inductive ConnectionState :=
| STATE_STANDBY | STATE_CONNECTING | STATE_GET_VERSION | STATE_FINDING_SERVICES
| STATE_FINDING_ATTRIBUTES | STATE_ENABLING_NOTIFICATIONS | STATE_LISTENING_DATA
| STATE_DISCONNECTING | STATE_ENCRYPTING.

#[global] Instance ConnectionState_eq_dec : EqDecision ConnectionState.
Proof. solve_decision. Defined.

(** [class NetworkConfig]: one credential slot. *)
Record NetworkConfig := {
  id : list Z;
  headerKey : list Z;
  key : list Z;
  txSqn : Z
}.

Definition set_txSqn (sqn : Z) (c : NetworkConfig) : NetworkConfig :=
  {| id := id c; headerKey := headerKey c; key := key c; txSqn := sqn |}.

(** [class AttributeInfo], the fields the handle map uses. *)
Record AttributeInfo := {
  uuid : list Z;
  handle : option Z;
  hasCCC : bool;
  cccHandle : option Z
}.

(** [class BleDevice] (with [scannedDeviceId] of its two subclasses), the
    fields read or written by the functions below. *)
Record BleDevice := {
  address : list Z;
  deviceType : Z;
  swVersion : option string;
  connection_handle : option Z;
  connectionState : ConnectionState;
  unexpectedDisconnections : Z;
  bootloaderMode : bool;
  packetStatus : option Z;
  bulkPacketTransferred : bool;
  encryptedAdv : bool;
  groups : list (option Z);
  receivedAllGroups : bool;
  requestGroupAttempts : Z;
  scannedDeviceId : option (list Z);
  attributeList : list AttributeInfo;
  blAttributeList : list AttributeInfo
}.

Definition set_connection_handle (v : option Z) (d : BleDevice) : BleDevice :=
  {| address := address d; deviceType := deviceType d; swVersion := swVersion d;
     connection_handle := v; connectionState := connectionState d;
     unexpectedDisconnections := unexpectedDisconnections d;
     bootloaderMode := bootloaderMode d; packetStatus := packetStatus d;
     bulkPacketTransferred := bulkPacketTransferred d; encryptedAdv := encryptedAdv d;
     groups := groups d; receivedAllGroups := receivedAllGroups d;
     requestGroupAttempts := requestGroupAttempts d; scannedDeviceId := scannedDeviceId d;
     attributeList := attributeList d; blAttributeList := blAttributeList d |}.

Definition set_connectionState (v : ConnectionState) (d : BleDevice) : BleDevice :=
  {| address := address d; deviceType := deviceType d; swVersion := swVersion d;
     connection_handle := connection_handle d; connectionState := v;
     unexpectedDisconnections := unexpectedDisconnections d;
     bootloaderMode := bootloaderMode d; packetStatus := packetStatus d;
     bulkPacketTransferred := bulkPacketTransferred d; encryptedAdv := encryptedAdv d;
     groups := groups d; receivedAllGroups := receivedAllGroups d;
     requestGroupAttempts := requestGroupAttempts d; scannedDeviceId := scannedDeviceId d;
     attributeList := attributeList d; blAttributeList := blAttributeList d |}.

Definition set_unexpectedDisconnections (v : Z) (d : BleDevice) : BleDevice :=
  {| address := address d; deviceType := deviceType d; swVersion := swVersion d;
     connection_handle := connection_handle d; connectionState := connectionState d;
     unexpectedDisconnections := v;
     bootloaderMode := bootloaderMode d; packetStatus := packetStatus d;
     bulkPacketTransferred := bulkPacketTransferred d; encryptedAdv := encryptedAdv d;
     groups := groups d; receivedAllGroups := receivedAllGroups d;
     requestGroupAttempts := requestGroupAttempts d; scannedDeviceId := scannedDeviceId d;
     attributeList := attributeList d; blAttributeList := blAttributeList d |}.

Definition set_bootloaderMode (v : bool) (d : BleDevice) : BleDevice :=
  {| address := address d; deviceType := deviceType d; swVersion := swVersion d;
     connection_handle := connection_handle d; connectionState := connectionState d;
     unexpectedDisconnections := unexpectedDisconnections d;
     bootloaderMode := v; packetStatus := packetStatus d;
     bulkPacketTransferred := bulkPacketTransferred d; encryptedAdv := encryptedAdv d;
     groups := groups d; receivedAllGroups := receivedAllGroups d;
     requestGroupAttempts := requestGroupAttempts d; scannedDeviceId := scannedDeviceId d;
     attributeList := attributeList d; blAttributeList := blAttributeList d |}.

Definition set_packetStatus (v : option Z) (d : BleDevice) : BleDevice :=
  {| address := address d; deviceType := deviceType d; swVersion := swVersion d;
     connection_handle := connection_handle d; connectionState := connectionState d;
     unexpectedDisconnections := unexpectedDisconnections d;
     bootloaderMode := bootloaderMode d; packetStatus := v;
     bulkPacketTransferred := bulkPacketTransferred d; encryptedAdv := encryptedAdv d;
     groups := groups d; receivedAllGroups := receivedAllGroups d;
     requestGroupAttempts := requestGroupAttempts d; scannedDeviceId := scannedDeviceId d;
     attributeList := attributeList d; blAttributeList := blAttributeList d |}.

Definition set_bulkPacketTransferred (v : bool) (d : BleDevice) : BleDevice :=
  {| address := address d; deviceType := deviceType d; swVersion := swVersion d;
     connection_handle := connection_handle d; connectionState := connectionState d;
     unexpectedDisconnections := unexpectedDisconnections d;
     bootloaderMode := bootloaderMode d; packetStatus := packetStatus d;
     bulkPacketTransferred := v; encryptedAdv := encryptedAdv d;
     groups := groups d; receivedAllGroups := receivedAllGroups d;
     requestGroupAttempts := requestGroupAttempts d; scannedDeviceId := scannedDeviceId d;
     attributeList := attributeList d; blAttributeList := blAttributeList d |}.

Definition set_groups (v : list (option Z)) (d : BleDevice) : BleDevice :=
  {| address := address d; deviceType := deviceType d; swVersion := swVersion d;
     connection_handle := connection_handle d; connectionState := connectionState d;
     unexpectedDisconnections := unexpectedDisconnections d;
     bootloaderMode := bootloaderMode d; packetStatus := packetStatus d;
     bulkPacketTransferred := bulkPacketTransferred d; encryptedAdv := encryptedAdv d;
     groups := v; receivedAllGroups := receivedAllGroups d;
     requestGroupAttempts := requestGroupAttempts d; scannedDeviceId := scannedDeviceId d;
     attributeList := attributeList d; blAttributeList := blAttributeList d |}.

Definition set_receivedAllGroups (v : bool) (d : BleDevice) : BleDevice :=
  {| address := address d; deviceType := deviceType d; swVersion := swVersion d;
     connection_handle := connection_handle d; connectionState := connectionState d;
     unexpectedDisconnections := unexpectedDisconnections d;
     bootloaderMode := bootloaderMode d; packetStatus := packetStatus d;
     bulkPacketTransferred := bulkPacketTransferred d; encryptedAdv := encryptedAdv d;
     groups := groups d; receivedAllGroups := v;
     requestGroupAttempts := requestGroupAttempts d; scannedDeviceId := scannedDeviceId d;
     attributeList := attributeList d; blAttributeList := blAttributeList d |}.

Definition set_requestGroupAttempts (v : Z) (d : BleDevice) : BleDevice :=
  {| address := address d; deviceType := deviceType d; swVersion := swVersion d;
     connection_handle := connection_handle d; connectionState := connectionState d;
     unexpectedDisconnections := unexpectedDisconnections d;
     bootloaderMode := bootloaderMode d; packetStatus := packetStatus d;
     bulkPacketTransferred := bulkPacketTransferred d; encryptedAdv := encryptedAdv d;
     groups := groups d; receivedAllGroups := receivedAllGroups d;
     requestGroupAttempts := v; scannedDeviceId := scannedDeviceId d;
     attributeList := attributeList d; blAttributeList := blAttributeList d |}.

Definition uuid_bls_command_characteristic : list Z :=
  rev [0x1B; 0xC5; 0xD5; 0xA5; 0x02; 0x00; 0xF4; 0xAB; 0xE4; 0x11; 0xCE; 0xF8; 0x01; 0x00;
       0x06; 0x00].

(** [AttributeInfo(id)] *)
Definition new_attribute (id : list Z) : AttributeInfo :=
  {| uuid := id; handle := None; hasCCC := false; cccHandle := None |}.

(** [BleDevice.__init__], with the [scannedDeviceId = None] of the two
    subclass initialisers. *)
Definition new_device (address : list Z) (deviceType : Z) : BleDevice :=
  {| address := address; deviceType := deviceType; swVersion := None;
     connection_handle := None; connectionState := STATE_STANDBY;
     unexpectedDisconnections := 0; bootloaderMode := false; packetStatus := None;
     bulkPacketTransferred := false; encryptedAdv := false;
     groups := Py.repeat None NUM_GROUPS; receivedAllGroups := false;
     requestGroupAttempts := 0; scannedDeviceId := None;
     attributeList := [];
     blAttributeList := [new_attribute uuid_bls_command_characteristic] |}.

Definition IsConnected (self : BleDevice) : bool :=
  bool_decide (connectionState self = STATE_LISTENING_DATA)
  && bool_decide (connection_handle self <> None).

Definition IsDiscovering (self : BleDevice) : bool :=
  bool_decide (connectionState self = STATE_FINDING_SERVICES)
  || bool_decide (connectionState self = STATE_FINDING_ATTRIBUTES).

(** Commands handed to the radio controller through [ble.send_command]. *)
Inductive command :=
| ble_cmd_attclient_attribute_write (connection : option Z) (atthandle : Z) (data : list Z)
| ble_cmd_attclient_prepare_write (connection : option Z) (atthandle offset : Z)
                                  (data : list Z)
| ble_cmd_attclient_execute_write (connection : option Z) (commit : Z)
| ble_cmd_system_get_connections
| ble_cmd_gap_connect_direct (address : list Z).

(** Events the radio controller delivers to the handlers. *)
Inductive ble_event :=
| ble_evt_attclient_procedure_completed (connection result : Z).

(** What one pass of a polling loop meets: an event dispatched by
    [CheckActivity], or the loop's time bound. *)
Inductive tick :=
| Deliver (e : ble_event)
| Elapse.

(** Operations on the file system. *)
Inductive file_op :=
| OpenWrite (name : string)
| WriteLine (name : string) (line : string)
| Remove (name : string)
| Rename (src dst : string).

(** What the engine does to the outside, in order. *)
Inductive effect :=
| Sent (c : command)
| Advertised (packet : list Z)
| Encrypted (key nonce inData : list Z)
| Decrypted (key nonce inData mac : list Z)
| File (op : file_op).

(** The module-level globals of [ble_xim.py], the files and the pending
    transport events. *)
Record state := {
  networkConfigs : list NetworkConfig;
  selectedTxNetworkIndex : nat;
  selectedRxNetworkIndex : nat;
  aesNonce : list Z;
  adminMode : bool;
  adminKey : list Z;
  bleLocalDeviceId : Z;
  peripheral_list : list BleDevice;
  pending_write : bool;
  workingDirectory : string;
  files : gmap string (list string);
  inbox : list tick;
  trace : list effect
}.

(** Computations over the globals. A result [None] stands for an uncaught
    exception; the assignments made before it was raised stay in the state. *)
Definition M (A : Type) : Type := state -> option A * state.

#[global] Instance M_ret : MRet M := fun A a st => (Some a, st).

#[global] Instance M_bind : MBind M := fun A B f m st =>
  match m st with
  | (Some a, st') => f a st'
  | (None, st') => (None, st')
  end.

Definition lift {A} (o : option A) : M A := fun st => (o, st).
Definition gets {A} (f : state -> A) : M A := fun st => (Some (f st), st).
Definition modify (f : state -> state) : M unit := fun st => (Some tt, f st).

Definition with_networkConfigs (v : list NetworkConfig) (st : state) : state :=
  {| networkConfigs := v; selectedTxNetworkIndex := selectedTxNetworkIndex st;
     selectedRxNetworkIndex := selectedRxNetworkIndex st; aesNonce := aesNonce st;
     adminMode := adminMode st; adminKey := adminKey st;
     bleLocalDeviceId := bleLocalDeviceId st; peripheral_list := peripheral_list st;
     pending_write := pending_write st; workingDirectory := workingDirectory st;
     files := files st; inbox := inbox st; trace := trace st |}.

Definition with_aesNonce (v : list Z) (st : state) : state :=
  {| networkConfigs := networkConfigs st;
     selectedTxNetworkIndex := selectedTxNetworkIndex st;
     selectedRxNetworkIndex := selectedRxNetworkIndex st; aesNonce := v;
     adminMode := adminMode st; adminKey := adminKey st;
     bleLocalDeviceId := bleLocalDeviceId st; peripheral_list := peripheral_list st;
     pending_write := pending_write st; workingDirectory := workingDirectory st;
     files := files st; inbox := inbox st; trace := trace st |}.

Definition with_peripheral_list (v : list BleDevice) (st : state) : state :=
  {| networkConfigs := networkConfigs st;
     selectedTxNetworkIndex := selectedTxNetworkIndex st;
     selectedRxNetworkIndex := selectedRxNetworkIndex st; aesNonce := aesNonce st;
     adminMode := adminMode st; adminKey := adminKey st;
     bleLocalDeviceId := bleLocalDeviceId st; peripheral_list := v;
     pending_write := pending_write st; workingDirectory := workingDirectory st;
     files := files st; inbox := inbox st; trace := trace st |}.

Definition with_pending_write (v : bool) (st : state) : state :=
  {| networkConfigs := networkConfigs st;
     selectedTxNetworkIndex := selectedTxNetworkIndex st;
     selectedRxNetworkIndex := selectedRxNetworkIndex st; aesNonce := aesNonce st;
     adminMode := adminMode st; adminKey := adminKey st;
     bleLocalDeviceId := bleLocalDeviceId st; peripheral_list := peripheral_list st;
     pending_write := v; workingDirectory := workingDirectory st;
     files := files st; inbox := inbox st; trace := trace st |}.

Definition with_files (v : gmap string (list string)) (st : state) : state :=
  {| networkConfigs := networkConfigs st;
     selectedTxNetworkIndex := selectedTxNetworkIndex st;
     selectedRxNetworkIndex := selectedRxNetworkIndex st; aesNonce := aesNonce st;
     adminMode := adminMode st; adminKey := adminKey st;
     bleLocalDeviceId := bleLocalDeviceId st; peripheral_list := peripheral_list st;
     pending_write := pending_write st; workingDirectory := workingDirectory st;
     files := v; inbox := inbox st; trace := trace st |}.

Definition with_inbox (v : list tick) (st : state) : state :=
  {| networkConfigs := networkConfigs st;
     selectedTxNetworkIndex := selectedTxNetworkIndex st;
     selectedRxNetworkIndex := selectedRxNetworkIndex st; aesNonce := aesNonce st;
     adminMode := adminMode st; adminKey := adminKey st;
     bleLocalDeviceId := bleLocalDeviceId st; peripheral_list := peripheral_list st;
     pending_write := pending_write st; workingDirectory := workingDirectory st;
     files := files st; inbox := v; trace := trace st |}.

Definition with_trace (v : list effect) (st : state) : state :=
  {| networkConfigs := networkConfigs st;
     selectedTxNetworkIndex := selectedTxNetworkIndex st;
     selectedRxNetworkIndex := selectedRxNetworkIndex st; aesNonce := aesNonce st;
     adminMode := adminMode st; adminKey := adminKey st;
     bleLocalDeviceId := bleLocalDeviceId st; peripheral_list := peripheral_list st;
     pending_write := pending_write st; workingDirectory := workingDirectory st;
     files := files st; inbox := inbox st; trace := v |}.

(** Record an effect at the end of the trace. *)
Definition emit (e : effect) : M unit :=
  modify (fun st => with_trace (trace st ++ [e]) st).


(** *** The security engine *)

Definition PACKET_TYPE_XB1 : list Z := [0x01; 0x01].
Definition PACKET_TYPE_XB2 : list Z := [0x02; 0x01].
Definition PACKET_TYPE_XBL : list Z := [0x08; 0x01].
Definition PACKET_TYPE_XSENSOR_MOTION : list Z := [0x10; 0x80].
Definition PACKET_TYPE_XSENSOR_LUX : list Z := [0x20; 0x80].
Definition XB_PACKET_TYPE_OFFSET : Z := 0 + Py.len ADV_COMPANY_ID_XICATO.
Definition XB_TYPE_UNASSIGNED_SOURCE : Z := 0x03.
Definition XBOOT_DEVICE_TYPE_OFFSET : Z := 2.
Definition ENCRYPTED_PACKET_TYPE_XB1 : Z := 0x01.
Definition ENCRYPTED_PACKET_TYPE_XB2 : Z := 0x02.
Definition ENCRYPTED_PACKET_TYPE_XDEV_INFO : Z := 0x03.
Definition ENCRYPTED_PACKET_TYPE_XGROUP : Z := 0x08.
Definition ENCRYPTED_PACKET_TYPE_BOOTLOAD : Z := 0x0F.
Definition ENCRYPTED_PACKET_TYPE_LIGHT_CONTROL : Z := 0x10.
Definition ENCRYPTED_PACKET_TYPE_RECALL_SCENE : Z := 0x11.
Definition ENCRYPTED_PACKET_TYPE_INDICATE : Z := 0x12.
Definition ENCRYPTED_PACKET_TYPE_SET_CONNECTABLE : Z := 0x20.
Definition ENCRYPTED_PACKET_TYPE_REQUEST_ADV : Z := 0x21.
Definition ENCRYPTED_PACKET_TYPE_SENSORS_ALL : Z := 0x80.
Definition ENCRYPTED_PACKET_TYPE_SENSOR_MOTION : Z := 0x10.
Definition ENCRYPTED_PACKET_TYPE_SENSOR_LUX : Z := 0x20.

(** [l[i]] for [0 <= i]; [None] stands for [IndexError]. *)
Definition item {A} (l : list A) (i : Z) : option A :=
  if i <? 0 then None else l !! Z.to_nat i.

(** [networkConfigs[index]] *)
Definition config_at (index : nat) : M NetworkConfig :=
  fun st => (networkConfigs st !! index, st).

(** [networkConfigs[index].txSqn = sqn] *)
Definition assign_txSqn (index : nat) (sqn : Z) : M unit :=
  c ← config_at index;
  modify (fun st => with_networkConfigs (<[index := set_txSqn sqn c]> (networkConfigs st)) st).

(** The sequence issuance that opens [SetXBAssignedPacket] (and, in the same
    three statements, [BroadcastIXBAssigned]):
    [txSqn += 1; if(txSqn >= XBX_SEQUENCE_ID_MAX_VALUE): txSqn = 1]. *)
Definition issue_txSqn : M unit :=
  tx ← gets selectedTxNetworkIndex;
  c ← config_at tx;
  assign_txSqn tx (txSqn c + 1);;
  c ← config_at tx;
  if XBX_SEQUENCE_ID_MAX_VALUE <=? txSqn c then assign_txSqn tx 1 else mret tt.

Definition in_groups (realGroupNumber : Z) (d : BleDevice) : bool :=
  bool_decide (Some realGroupNumber ∈ groups d).

(** [GetDevicesInGroup(groupId)] *)
Definition GetDevicesInGroup (peripherals : list BleDevice) (groupId : list Z)
  : list BleDevice :=
  if Py.len groupId =? 1 then
    let g0 := default 0 (groupId !! 0%nat) in
    List.filter (fun device =>
              (g0 =? BLEX_BROADCAST_ADDRESS)
              || bool_decide (scannedDeviceId device = Some groupId)
              || ((BLEX_GROUP_ADDRESS_MIN <=? g0) && (g0 <=? BLEX_GROUP_ADDRESS_MAX)
                  && in_groups (g0 - BLEX_GROUP_ADDRESS_MIN) device))
           peripherals
  else if Py.len groupId =? 3 then
    List.filter (fun device => bool_decide (scannedDeviceId device = Some groupId)) peripherals
  else if Py.len groupId =? 4 then
    List.filter (fun device =>
              match scannedDeviceId device with
              | Some sid =>
                  negb (bool_decide (sid = [])) && (Py.len sid =? 4)
                  && forallb (fun i => negb (negb (default 0 (groupId !! i) =? 255)
                                             && negb (default 0 (groupId !! i)
                                                      =? default 0 (sid !! i))))
                             (seq 0 4)
              | None => false
              end)
           peripherals
  else [].

(** [IsEncryptedAdvEnabled(destination)] *)
Definition IsEncryptedAdvEnabled (destination : list Z) : M bool :=
  tx ← gets selectedTxNetworkIndex;
  c ← config_at tx;
  if bool_decide (key c = NETWORK_KEY_NONE) then mret false
  else
    devices ← gets (fun st => GetDevicesInGroup (peripheral_list st) destination);
    let encryptedDevices := List.filter encryptedAdv devices in
    mret (0 <? Py.len encryptedDevices).

(** A call of [AesCcmEncrypt], recorded in the trace. *)
Definition call_AesCcmEncrypt (key nonce inData : list Z) : M (list Z * list Z) :=
  emit (Encrypted key nonce inData);;
  lift (AesCcmEncrypt key nonce inData).

(** A call of [AesCcmDecrypt], recorded in the trace. *)
Definition call_AesCcmDecrypt (key nonce inData mac : list Z) : M (list Z * bool) :=
  emit (Decrypted key nonce inData mac);;
  lift (AesCcmDecrypt key nonce inData mac).

(** The header nonce, as both [SetXBAssignedPacket] and [XDecrypt] build it:
    [headerNonce = [0] * NONCE_LENGTH] and then
    [for i in range(tempLength): headerNonce[i] = payloadAndMic[i]]. *)
Definition fill_headerNonce (tempLength : Z) (payloadAndMic : list Z) : option (list Z) :=
  foldl (fun headerNonce i =>
           hn ← headerNonce;
           x ← item payloadAndMic (Z.of_nat i);
           Py.set_item hn (Z.of_nat i) x)
        (Some (Py.repeat 0 NONCE_LENGTH)) (seq 0 (Z.to_nat tempLength)).

(** [TransmitAdvertisement(packet)], as far as the frame goes: the effect
    [Advertised packet] stands for the two commands by which the source
    hands the packet to the radio controller and switches advertising on
    ([SetAdvertisingData(packet)] and [SetAdvertisingState(True)]). The wait
    on a pending write before them, the busy flag they set and the poll
    between them are not embedded: what is proved through this definition
    speaks of the frame, the counters, the cipher calls and the files. *)
Definition TransmitAdvertisement (packet : list Z) : M unit :=
  emit (Advertised packet).

(** [str(bytearray(l)).encode('hex')]; [bytearray] raises [ValueError] on a
    value outside [range(256)]. *)
Definition hex_digit (n : Z) : string :=
  default "0" ((["0"; "1"; "2"; "3"; "4"; "5"; "6"; "7"; "8"; "9";
                 "a"; "b"; "c"; "d"; "e"; "f"] : list string) !! Z.to_nat n).

Definition hexlify (l : list Z) : option string :=
  foldr (fun x acc =>
           rest ← acc;
           if (0 <=? x) && (x <? 256)
           then Some (hex_digit (x / 16) +:+ hex_digit (x mod 16) +:+ rest)
           else None)
        (Some "") l.

Definition bleNetworkConfigFileName (st : state) : string :=
  workingDirectory st +:+ "/BLE/BLE_Network_Config.txt".

(** [open(name, 'w')]: the file is created or truncated on the spot. *)
Definition open_w (name : string) : M unit :=
  emit (File (OpenWrite name));;
  modify (fun st => with_files (<[name := []]> (files st)) st).

(** [f.write(line)] on a file opened for writing. *)
Definition write_line (name line : string) : M unit :=
  emit (File (WriteLine name line));;
  modify (fun st => with_files (<[name := default [] (files st !! name) ++ [line]]> (files st)) st).

Definition network_config_line (netConfig : NetworkConfig) : option string :=
  i ← hexlify (id netConfig);
  k ← hexlify (key netConfig);
  h ← hexlify (headerKey netConfig);
  Some (i +:+ "," +:+ k +:+ "," +:+ h +:+ "," +:+ pretty (txSqn netConfig) +:+ "
").

(** [UpdateNetworkConfigFile()] *)
Definition UpdateNetworkConfigFile : M unit :=
  name ← gets bleNetworkConfigFileName;
  open_w name;;
  configs ← gets networkConfigs;
  foldl (fun (acc : M unit) netConfig =>
           acc;;
           line ← lift (network_config_line netConfig);
           write_line name line)
        (mret tt) configs.

(** [SetXBAssignedPacket(destination, payloadType, payload)] *)
Definition SetXBAssignedPacket (destination : list Z) (payloadType : Z) (payload : list Z)
  : M unit :=
  destinationList ← lift (if Py.len destination =? 1
                          then d0 ← item destination 0; Some (ConvertIntToList d0 2)
                          else None);
  let payload := [payloadType] ++ destinationList ++ payload in
  issue_txSqn;;
  tx ← gets selectedTxNetworkIndex;
  encryptedAdvEnabled ← IsEncryptedAdvEnabled destination;
  c ← config_at tx;
  admin ← gets adminMode;
  xbAssigned ←
    (if encryptedAdvEnabled && (admin || negb (bool_decide (key c = NETWORK_KEY_NONE)))
     then
       applicationKey ← (if admin then gets adminKey else mret (key c));
       localId ← gets bleLocalDeviceId;
       modify (fun st => with_aesNonce
                 (Py.slice_assign (aesNonce st) NONCE_SOURCE_ADDR_OFFSET
                    (NONCE_SOURCE_ADDR_OFFSET + XBX_SOURCE_ADDR_LENGTH)
                    (ConvertIntToList localId 2)) st);;
       modify (fun st => with_aesNonce
                 (Py.slice_assign (aesNonce st) NONCE_SQN_OFFSET
                    (NONCE_SQN_OFFSET + XBX_SEQUENCE_ID_LENGTH)
                    (ConvertIntToList (txSqn c) XBX_SEQUENCE_ID_LENGTH)) st);;
       nonce ← gets aesNonce;
       '(eMsg, eMic) ← call_AesCcmEncrypt applicationKey nonce payload;
       id0 ← lift (item (id c) 0);
       let headerByte := XB_TYPE_ENCRYPTED_FLAG + Z.land id0 XBX_NETWORK_ID_PARTIAL_ID_MASK in
       let header := ConvertIntToList localId 2
                     ++ ConvertIntToList (txSqn c) XBX_SEQUENCE_ID_LENGTH
                     ++ Py.repeat 0 XBX_RFU_LENGTH in
       let payloadAndMic := eMsg ++ eMic in
       headerNonce ← lift (fill_headerNonce (Z.min NONCE_LENGTH (Py.len payloadAndMic))
                                            payloadAndMic);
       '(header, unusedMic) ← call_AesCcmEncrypt (headerKey c) headerNonce header;
       mret ([AD1_LENGTH; AD1_TYPE; AD1_VALUE; 15 + Py.len payload; 0xFF; 0x53; 0x02]
             ++ [headerByte]
             ++ Py.slice_to header XBX_SOURCE_ADDR_LENGTH
             ++ Py.slice header XBX_SOURCE_ADDR_LENGTH
                         (XBX_SOURCE_ADDR_LENGTH + XBX_SEQUENCE_ID_LENGTH)
             ++ Py.slice header (XBX_SOURCE_ADDR_LENGTH + XBX_SEQUENCE_ID_LENGTH)
                         (XBX_SOURCE_ADDR_LENGTH + XBX_SEQUENCE_ID_LENGTH + XBX_RFU_LENGTH)
             ++ eMsg ++ eMic)
     else
       localId ← gets bleLocalDeviceId;
       mret ([AD1_LENGTH; AD1_TYPE; AD1_VALUE; 11 + Py.len payload; 0xFF; 0x53; 0x02]
             ++ [XB_TYPE_UNENCRYPTED]
             ++ ConvertIntToList localId 2
             ++ ConvertIntToList (txSqn c) XBX_SEQUENCE_ID_LENGTH
             ++ [XBX_RFU_VALUE]
             ++ payload));
  TransmitAdvertisement xbAssigned;;
  UpdateNetworkConfigFile.

(** [XDecrypt(header, payloadAndMic)] *)
Definition XDecrypt (header payloadAndMic : list Z) : M (list Z * list Z * bool) :=
  let payloadLength := Py.len payloadAndMic - XBX_MIC_LENGTH in
  let headerLength := Py.len header in
  headerNonce ← lift (fill_headerNonce (Z.min NONCE_LENGTH (payloadLength + XBX_MIC_LENGTH))
                                       payloadAndMic);
  rx ← gets selectedRxNetworkIndex;
  c ← config_at rx;
  '(header, isValid) ← call_AesCcmDecrypt (headerKey c) headerNonce header
                                          (Py.repeat 0 XBX_MIC_LENGTH);
  modify (fun st => with_aesNonce
            (Py.slice_assign_to (aesNonce st) (headerLength - XBX_RFU_LENGTH)
               (Py.slice_to header (headerLength - XBX_RFU_LENGTH))) st);;
  let outMic := Py.slice payloadAndMic payloadLength (payloadLength + XBX_MIC_LENGTH) in
  nonce ← gets aesNonce;
  c ← config_at rx;
  '(decryptedData, isValid) ←
     call_AesCcmDecrypt (key c) nonce (Py.slice_to payloadAndMic payloadLength) outMic;
  '(decryptedData, isValid) ←
     (if negb isValid
      then tx ← gets selectedTxNetworkIndex;
           c ← config_at tx;
           nonce ← gets aesNonce;
           call_AesCcmDecrypt (key c) nonce (Py.slice_to payloadAndMic payloadLength) outMic
      else mret (decryptedData, isValid));
  mret (header, decryptedData, isValid).


(** [GetPayloadTypeText(packetTypeList, payload)], the text chosen for the
    packet log; [None] stands for the [IndexError] of an index past the end
    of [packetTypeList] or [payload]. *)
Definition GetPayloadTypeText (packetTypeList payload : list Z) : option string :=
  if bool_decide (packetTypeList = PACKET_TYPE_XB1) then Some "XIM,Status 1 (Legacy)"
  else if bool_decide (packetTypeList = PACKET_TYPE_XB2) then Some "XIM,Status 2 (Legacy)"
  else if bool_decide (packetTypeList = PACKET_TYPE_XBL) then Some "XIM,Bootloader (Legacy)"
  else if bool_decide (packetTypeList = PACKET_TYPE_XSENSOR_MOTION)
       then Some "XSensor,Motion (Legacy)"
  else if bool_decide (packetTypeList = PACKET_TYPE_XSENSOR_LUX)
       then Some "XSensor,Lux (Legacy)"
  else
    let controllerName := "X Controller" in
    typed ← (if 0 <? Py.len payload
             then t0 ← item packetTypeList 0;
                  Some (bool_decide (t0 ∈ [XB_TYPE_UNASSIGNED_SOURCE; XB_TYPE_UNENCRYPTED])
                        || negb (Z.land t0 XB_TYPE_ENCRYPTED_FLAG =? 0))
             else Some false);
    if typed : bool then
      p0 ← item payload 0;
      if p0 =? ENCRYPTED_PACKET_TYPE_XB1 then Some "XIM,Status 1"
      else if p0 =? ENCRYPTED_PACKET_TYPE_XB2 then Some "XIM,Status 2"
      else if p0 =? ENCRYPTED_PACKET_TYPE_XDEV_INFO then Some "XIM,Device Info"
      else if p0 =? ENCRYPTED_PACKET_TYPE_XGROUP then Some "X Device,Group Info"
      else if p0 =? ENCRYPTED_PACKET_TYPE_LIGHT_CONTROL
           then Some (controllerName +:+ ",Light Control")
      else if p0 =? ENCRYPTED_PACKET_TYPE_RECALL_SCENE
           then Some (controllerName +:+ ",Recall Scene")
      else if p0 =? ENCRYPTED_PACKET_TYPE_INDICATE then Some (controllerName +:+ ",Indicate")
      else if p0 =? ENCRYPTED_PACKET_TYPE_SET_CONNECTABLE
           then Some (controllerName +:+ ",Enable Connections")
      else if p0 =? ENCRYPTED_PACKET_TYPE_REQUEST_ADV
           then Some (controllerName +:+ ",Request Data")
      else
        xim_bootloader ← (if p0 =? ENCRYPTED_PACKET_TYPE_BOOTLOAD
                          then t ← item payload (1 + XBOOT_DEVICE_TYPE_OFFSET);
                               Some (Z.land t 0x80 =? 0)
                          else Some false);
        if xim_bootloader : bool then Some "XIM,Bootloader"
        else if (p0 =? ENCRYPTED_PACKET_TYPE_SENSORS_ALL) && (1 <? Py.len payload) then
          p1 ← item payload 1;
          if p1 =? ENCRYPTED_PACKET_TYPE_SENSOR_MOTION then Some "XSensor,Motion"
          else if p1 =? ENCRYPTED_PACKET_TYPE_SENSOR_LUX then Some "XSensor,Lux"
          else Some "Unknown"
        else
          sensor_bootloader ← (if p0 =? ENCRYPTED_PACKET_TYPE_BOOTLOAD
                               then t ← item payload (1 + XBOOT_DEVICE_TYPE_OFFSET);
                                    Some (negb (Z.land t 0x80 =? 0))
                               else Some false);
          if sensor_bootloader : bool then Some "XSensor,Bootloader" else Some "Unknown"
    else Some "Unknown".

(** The branch of [my_ble_evt_gap_scan_response] taken by a manufacturer
    field [this_field] (company identifier first) of an advertisement whose
    type byte carries [XB_TYPE_ENCRYPTED_FLAG], up to the update of the
    receive slot's sequence counter. The result is [Some rxSqnTemp] when the
    frame was authenticated and [None] when it was not decrypted or not
    valid; the registry update that follows in the source assigns no
    credential. *)
Definition my_ble_evt_gap_scan_response_encrypted (this_field : list Z) : M (option Z) :=
  t ← lift (item this_field XBX_NETWORK_ID_OFFSET);
  if negb (Z.land t XB_TYPE_ENCRYPTED_FLAG =? 0) then
    rx ← gets selectedRxNetworkIndex;
    c ← config_at rx;
    id0 ← lift (item (id c) 0);
    if Z.land t XBX_NETWORK_ID_PARTIAL_ID_MASK =? Z.land id0 XBX_NETWORK_ID_PARTIAL_ID_MASK
    then
      let payloadAndMic := Py.slice_from this_field XBX_PAYLOAD_AND_MIC_OFFSET in
      let header := Py.slice this_field XBX_SOURCE_ADDR_OFFSET
                      (XBX_SOURCE_ADDR_OFFSET
                       + (XBX_SOURCE_ADDR_LENGTH + XBX_SEQUENCE_ID_LENGTH + XBX_RFU_LENGTH)) in
      '(header, decryptedData, isValid) ← XDecrypt header payloadAndMic;
      if isValid : bool then
        let sourceAddress := Py.slice_to header XBX_SOURCE_ADDR_LENGTH in
        let rxSqnTemp := ConvertListToInt
                           (Py.slice header XBX_SOURCE_ADDR_LENGTH
                              (XBX_SOURCE_ADDR_LENGTH + XBX_SEQUENCE_ID_LENGTH)) in
        logTextPayloadType ← lift (GetPayloadTypeText
                                     (Py.slice this_field XB_PACKET_TYPE_OFFSET
                                               (XB_PACKET_TYPE_OFFSET + 2))
                                     (Py.slice_from decryptedData 0));
        c ← config_at rx;
        (if txSqn c <? rxSqnTemp then assign_txSqn rx rxSqnTemp else mret tt);;
        mret (Some rxSqnTemp)
      else mret None
    else mret None
  else mret None.


(** *** The group-membership resolver *)

(** The [for i in range(numAdvGroups)] loop of [ProcessXBeaconGroupFields]. *)
Definition write_group_slots (groupOffset numAdvGroups : Z) (this_field : list Z)
    (groups : list (option Z)) : list (option Z) :=
  foldl (fun groups (i : nat) =>
           let i := Z.of_nat i in
           if groupOffset + i <? Py.len groups
           then <[Z.to_nat (groupOffset + i) :=
                    Some (ConvertListToInt
                            (Py.slice this_field
                               (XBGROUP_MEMBERS_OFFSET + i * GROUP_MEMBER_LENGTH)
                               (XBGROUP_MEMBERS_OFFSET + i * GROUP_MEMBER_LENGTH
                                + GROUP_MEMBER_LENGTH)))]> groups
           else groups)
        groups (seq 0 (Z.to_nat numAdvGroups)).

(** [ProcessXBeaconGroupFields(device, this_field)]: the outcome ([None] for
    the [IndexError] of an empty field) and the device as the call leaves
    it. *)
Definition ProcessXBeaconGroupFields (device : BleDevice) (this_field : list Z)
  : option unit * BleDevice :=
  let device := set_bootloaderMode false device in
  match item this_field XBGROUP_HEADER_OFFSET with
  | None => (None, device)
  | Some header =>
      let groupOffset := Z.land header (Z.lnot XGROUP_LAST_PACKET_FLAG) in
      let numAdvGroups := (Py.len this_field - XBGROUP_HEADER_LENGTH) / GROUP_MEMBER_LENGTH in
      let device := set_requestGroupAttempts 0 device in
      let device :=
        set_groups (write_group_slots groupOffset numAdvGroups this_field (groups device))
                   device in
      if negb (Z.land header XGROUP_LAST_PACKET_FLAG =? 0) then
        let device :=
          set_groups (Py.slice_assign_from (groups device) (groupOffset + numAdvGroups)
                        (Py.repeat (Some GROUP_MEMBER_UNASSIGNED)
                                   (NUM_GROUPS - (groupOffset + numAdvGroups))))
                     device in
        let device :=
          set_receivedAllGroups
            (negb (bool_decide
                     (None ∈ Py.slice_to (groups device) (groupOffset + numAdvGroups))))
            device in
        (Some tt, device)
      else (Some tt, device)
  end.


(** *** The handle-map cache file *)

Definition uuidHandleMapFileName (st : state) : string :=
  workingDirectory st +:+ "/BLE/UUID_Handle_Map.csv".
Definition uuidHandleMapFileNameTemp (st : state) : string :=
  workingDirectory st +:+ "/BLE/UUID_Handle_Map.tmp".
Definition sensorUuidHandleMapFileName (st : state) : string :=
  workingDirectory st +:+ "/BLE/Sensor_UUID_Handle_Map.csv".
Definition sensorUuidHandleMapFileNameTemp (st : state) : string :=
  workingDirectory st +:+ "/BLE/Sensor_UUID_Handle_Map.tmp".

(** [os.path.isfile(name)] *)
Definition isfile (name : string) : M bool :=
  gets (fun st => bool_decide (is_Some (files st !! name))).

(** [os.remove(name)] *)
Definition remove (name : string) : M unit :=
  emit (File (Remove name));;
  modify (fun st => with_files (delete name (files st)) st).

(** [os.rename(src, dst)]; [None] stands for the error raised when [src]
    is missing. *)
Definition rename (src dst : string) : M unit :=
  emit (File (Rename src dst));;
  content ← (fun st => (files st !! src, st));
  modify (fun st => with_files (<[dst := content]> (delete src (files st))) st).

(** [open(name, 'r')] and [f.readlines()]; [None] stands for [IOError]. *)
Definition readlines (name : string) : M (list string) :=
  fun st => (files st !! name, st).

(** The [while(attempts < 3 and ...)] loop of [LogHandler.RenameSafely];
    [budget] is what is left of the three attempts. *)
Fixpoint RenameSafely_attempts (budget : nat) (newFileName oldFileName : string) : M unit :=
  match budget with
  | O => mret tt
  | S budget' =>
      old_exists ← isfile oldFileName;
      new_exists ← isfile newFileName;
      if old_exists && new_exists
      then remove oldFileName;; RenameSafely_attempts budget' newFileName oldFileName
      else mret tt
  end.

(** [LogHandler.RenameSafely(newFileName, oldFileName)] *)
Definition RenameSafely (newFileName oldFileName : string) : M unit :=
  RenameSafely_attempts 3 newFileName oldFileName;;
  old_exists ← isfile oldFileName;
  new_exists ← isfile newFileName;
  if negb old_exists && new_exists then rename newFileName oldFileName else mret tt.

Definition hex_digit_upper (n : Z) : string :=
  default "0" ((["0"; "1"; "2"; "3"; "4"; "5"; "6"; "7"; "8"; "9";
                 "A"; "B"; "C"; "D"; "E"; "F"] : list string) !! Z.to_nat n).

(** [str(bytearray(l)).encode('hex').upper()] *)
Definition hexlify_upper (l : list Z) : option string :=
  foldr (fun x acc =>
           rest ← acc;
           if (0 <=? x) && (x <? 256)
           then Some (hex_digit_upper (x / 16) +:+ hex_digit_upper (x mod 16) +:+ rest)
           else None)
        (Some "") l.

(** ["{0}".format(v)] for an integer or [None]. *)
Definition format_handle (v : option Z) : string :=
  match v with Some n => pretty n | None => "None" end.

(** The line [UpdateAttributeInfoFile] adds for the device's version, and
    [hasNullHandle]. *)
Definition attribute_info_line (device : BleDevice) (thisList : list AttributeInfo)
  : option (string * bool) :=
  '(newLine, hasNullHandle) ←
    foldl (fun acc attr =>
             '(newLine, hasNullHandle) ← acc;
             u ← hexlify_upper (uuid attr);
             Some (newLine +:+ "," +:+ u +:+ ":" +:+ format_handle (handle attr)
                   +:+ ":" +:+ format_handle (cccHandle attr),
                   hasNullHandle
                   || bool_decide (handle attr = None)
                   || (hasCCC attr && bool_decide (cccHandle attr = None))))
          (Some (default "None" (swVersion device), false)) thisList;
  Some (newLine +:+ "
", hasNullHandle).

(** [UpdateAttributeInfoFile(device)] *)
Definition UpdateAttributeInfoFile (device : BleDevice) : M unit :=
  let thisList := if bootloaderMode device then blAttributeList device
                  else attributeList device in
  fileName ← gets (if deviceType device =? DEVICE_TYPE_XIM
                   then uuidHandleMapFileName else sensorUuidHandleMapFileName);
  fileNameTemp ← gets (if deviceType device =? DEVICE_TYPE_XIM
                       then uuidHandleMapFileNameTemp else sensorUuidHandleMapFileNameTemp);
  lines ← readlines fileName;
  '(newLine, hasNullHandle) ← lift (attribute_info_line device thisList);
  let lines := lines ++ [newLine] in
  if negb hasNullHandle then
    open_w fileNameTemp;;
    foldl (fun (acc : M unit) line => acc;; write_line fileNameTemp line) (mret tt) lines;;
    RenameSafely fileNameTemp fileName
  else mret tt.


(** *** The device registry and the transport *)

(** [GetDeviceWithConnectionHandle(connectionHandle)]: the place of the
    device in [peripheral_list]. *)
Definition GetDeviceWithConnectionHandle (connectionHandle : Z) : M (option nat) :=
  gets (fun st => fst <$> list_find (fun device => connection_handle device
                                                    = Some connectionHandle)
                                    (peripheral_list st)).

(** [GetDeviceWithAddress(address)] *)
Definition GetDeviceWithAddress (addressValue : list Z) : M (option nat) :=
  gets (fun st => fst <$> list_find (fun device => address device = addressValue)
                                    (peripheral_list st)).

(** The device object at a place of [peripheral_list]. *)
Definition device_at (i : nat) : M BleDevice :=
  fun st => (peripheral_list st !! i, st).

(** An assignment to a field of that object. *)
Definition update_device (i : nat) (f : BleDevice -> BleDevice) : M unit :=
  modify (fun st => with_peripheral_list (alter f i (peripheral_list st)) st).

Definition send_command (c : command) : M unit := emit (Sent c).

Definition SetBusyFlag : M unit := modify (with_pending_write true).

(** [TestConnection()] *)
Definition TestConnection : M unit :=
  send_command ble_cmd_system_get_connections;;
  SetBusyFlag.

(** [GetHandle(device, uuid)] *)
Definition GetHandle (device : BleDevice) (uuid_ : list Z) : option Z :=
  let thisList := if bootloaderMode device then blAttributeList device
                  else attributeList device in
  match List.find (fun attr => bool_decide (uuid attr = uuid_)) thisList with
  | Some attr => handle attr
  | None => None
  end.

Section Transport.

(** The branches of [my_ble_evt_attclient_procedure_completed] that drive
    version reading and service and attribute discovery, for the device at
    the given place and the event's result. *)
Variable discovery_completed : nat -> Z -> M unit.

(** [my_ble_evt_attclient_procedure_completed(sender, args)] *)
Definition my_ble_evt_attclient_procedure_completed (connection result : Z) : M unit :=
  modify (with_pending_write false);;
  device ← GetDeviceWithConnectionHandle connection;
  match device with
  | Some i =>
      d ← device_at i;
      match connectionState d with
      | STATE_GET_VERSION | STATE_FINDING_SERVICES | STATE_FINDING_ATTRIBUTES =>
          discovery_completed i result
      | STATE_ENABLING_NOTIFICATIONS =>
          if bool_decide (deviceType d ∈ [DEVICE_TYPE_XIM; DEVICE_TYPE_XSENSOR])
          then update_device i (set_connectionState STATE_LISTENING_DATA)
          else mret tt
      | _ =>
          update_device i (set_packetStatus (Some result));;
          d ← device_at i;
          if negb (bulkPacketTransferred d)
          then update_device i (set_bulkPacketTransferred true)
          else mret tt
      end
  | None => mret tt
  end.

(** The handler [CheckActivity] runs for an event. *)
Definition dispatch (e : ble_event) : M unit :=
  match e with
  | ble_evt_attclient_procedure_completed connection result =>
      my_ble_evt_attclient_procedure_completed connection result
  end.

(** A loop [while(condition and elapsed < bound): CheckActivity(ser)]: while
    the condition holds, the next thing in [inbox] is met: an event is
    dispatched, the time bound ends the loop. *)
Fixpoint poll_loop (fuel : nat) (condition : state -> bool) : M unit :=
  match fuel with
  | O => mret tt
  | S fuel' =>
      holds ← gets condition;
      if holds : bool then
        next ← gets inbox;
        match next with
        | [] => mret tt
        | Elapse :: rest => modify (with_inbox rest)
        | Deliver e :: rest =>
            modify (with_inbox rest);;
            dispatch e;;
            poll_loop fuel' condition
        end
      else mret tt
  end.

Definition poll (condition : state -> bool) : M unit :=
  pending ← gets inbox;
  poll_loop (S (length pending)) condition.

(** [device.bulkPacketTransferred] of the device at place [i]. *)
Definition transferred (i : nat) (st : state) : bool :=
  match peripheral_list st !! i with
  | Some d => bulkPacketTransferred d
  | None => false
  end.

(** The [while((len(txPacket) - packetOffset) > 0)] loop of [TransmitPacket];
    the result is [false] when the loop is left by [return False]. *)
Fixpoint TransmitPacket_chunks (fuel : nat) (i : nat) (handle_ : Z) (txPacket : list Z)
    (packetOffset : Z) : M bool :=
  match fuel with
  | O => lift None
  | S fuel' =>
      if 0 <? Py.len txPacket - packetOffset then
        let chunkSize :=
          if MAX_GATT_CHUNK_WRITE_SIZE <=? Py.len txPacket - packetOffset
          then MAX_GATT_CHUNK_WRITE_SIZE
          else Py.len txPacket - packetOffset in
        update_device i (set_bulkPacketTransferred false);;
        d ← device_at i;
        send_command (ble_cmd_attclient_prepare_write (connection_handle d) handle_
                        packetOffset
                        (Py.slice txPacket packetOffset (packetOffset + chunkSize)));;
        SetBusyFlag;;
        poll (fun st => pending_write st || negb (transferred i st));;
        d ← device_at i;
        if bulkPacketTransferred d && bool_decide (packetStatus d = Some 0)
        then TransmitPacket_chunks fuel' i handle_ txPacket (packetOffset + chunkSize)
        else mret false
      else mret true
  end.

(** [TransmitPacket(address, txPacket, uuid)] *)
Definition TransmitPacket (addressValue txPacket uuid_ : list Z) : M bool :=
  device ← GetDeviceWithAddress addressValue;
  match device with
  | Some i =>
      d ← device_at i;
      if IsConnected d || IsDiscovering d then
        poll pending_write;;
        d ← device_at i;
        let handle_ := GetHandle d uuid_ in
        pending ← gets pending_write;
        match handle_ with
        | Some h =>
            if negb pending && negb (h =? 0) && bool_decide (connection_handle d <> None)
            then
              if Py.len txPacket <=? MAX_GATT_WRITE_SIZE then
                update_device i (set_packetStatus None);;
                d ← device_at i;
                send_command (ble_cmd_attclient_attribute_write (connection_handle d) h
                                                                 txPacket);;
                SetBusyFlag;;
                poll (fun st => match peripheral_list st !! i with
                                | Some d => bool_decide (packetStatus d = None)
                                | None => false
                                end);;
                d ← device_at i;
                mret (bool_decide (packetStatus d = Some 0))
              else
                completed ← TransmitPacket_chunks (S (length txPacket)) i h txPacket 0;
                if completed : bool then
                  update_device i (set_bulkPacketTransferred false);;
                  d ← device_at i;
                  send_command (ble_cmd_attclient_execute_write (connection_handle d) 1);;
                  SetBusyFlag;;
                  poll (fun st => pending_write st || negb (transferred i st));;
                  d ← device_at i;
                  if bulkPacketTransferred d && bool_decide (packetStatus d = Some 0)
                  then mret true
                  else mret false
                else mret false
            else mret false
        | None => mret false
        end
      else mret false
  | None => mret false
  end.

End Transport.

(** *** The disconnection handler *)

Section Disconnection.

(** [EnableConnections(destination)] and [Connect(addressValue)], which the
    handler calls to reconnect. *)
Variable EnableConnections : option (list Z) -> M unit.
Variable Connect : list Z -> M bool.

(** [my_ble_evt_connection_disconnected(sender, args)]; the result is the
    value its local [reconnecting] ends with. *)
Definition my_ble_evt_connection_disconnected (reason connection : Z) : M bool :=
  modify (with_pending_write false);;
  device ← GetDeviceWithConnectionHandle connection;
  reconnecting ←
    match device with
    | Some i =>
        update_device i (set_connection_handle None);;
        d ← device_at i;
        if negb (bool_decide (connectionState d ∈ [STATE_DISCONNECTING; STATE_STANDBY]))
        then
          update_device i (set_unexpectedDisconnections (unexpectedDisconnections d + 1));;
          update_device i (set_connectionState STATE_STANDBY);;
          TestConnection;;
          d ← device_at i;
          if bool_decide (connection_handle d = None) then
            if unexpectedDisconnections d <=? MAX_UNEXPECTED_DISCONNECTIONS then
              EnableConnections (scannedDeviceId d);;
              Connect (address d);;
              mret true
            else mret false
          else mret false
        else
          update_device i (set_unexpectedDisconnections 0);;
          mret false
    | None => mret false
    end;
  (if negb reconnecting then
     match device with
     | Some i =>
         update_device i (set_connectionState STATE_STANDBY);;
         update_device i (set_connection_handle None)
     | None => mret tt
     end
   else mret tt);;
  mret reconnecting.

End Disconnection.


End BleXim.

(** ** [ximGateway.py]: the command queue *)

Module XimGateway.

(** The BLE API call a queued command will make. *)
Inductive CommandFunction :=
| BroadcastLightLevel
| BroadcastIndicate.

(** A device of [ximList], the fields the queueing functions read. *)
Record XimDevice := {
  IdListIndex : Z;
  deviceId : list Z
}.

(** An entry of [commandQueue]: [{'function', 'deviceId', 'values', 'time'}],
    for a type [V] of intensity values and a type [T] of clock readings; the
    other entries of [values] are integers and booleans. *)
Record Command (V T : Type) := {
  function : CommandFunction;
  cmd_deviceId : list Z;
  values : gmap string (V + Z + bool);
  time : T
}.

Arguments function {V T}.
Arguments cmd_deviceId {V T}.
Arguments values {V T}.
Arguments time {V T}.

(** The globals the queueing functions touch; [now] is the reading
    [time.time()] gives. *)
Record gateway (V T : Type) := {
  ximList : list XimDevice;
  commandQueue : list (Command V T);
  now : T
}.

Arguments ximList {V T}.
Arguments commandQueue {V T}.
Arguments now {V T}.

(** [GetDeviceByDevIndex(ListIndex)] *)
Definition GetDeviceByDevIndex {V T} (g : gateway V T) (ListIndex : Z) : option XimDevice :=
  List.find (fun device => IdListIndex device =? ListIndex) (ximList g).

(** [IsValidDeviceByIndex(ListIndex)] *)
Definition IsValidDeviceByIndex {V T} (g : gateway V T) (ListIndex : Z) : bool :=
  match GetDeviceByDevIndex g ListIndex with Some _ => true | None => false end.

(** [SetIntensity(IdListIndex, intensity)] *)
Definition SetIntensity {V T} (IdListIndex : Z) (intensity : V) (g : gateway V T)
  : gateway V T :=
  match GetDeviceByDevIndex g IdListIndex with
  | Some device =>
      let values : gmap string (V + Z + bool) :=
        list_to_map [("light_level", inl (inl intensity)); ("fade_time", inl (inr 1000));
                     ("response_time", inl (inr 1)); ("override_time", inl (inr 0));
                     ("lock_light_control", inr true)] in
      {| ximList := ximList g;
         commandQueue := commandQueue g
                         ++ [ {| function := BroadcastLightLevel;
                                 cmd_deviceId := deviceId device;
                                 values := values; time := now g |} ];
         now := now g |}
  | None => g
  end.

(** [GetCommandFromQueue()]: the next command and its index. *)
Definition GetCommandFromQueue {V T} (g : gateway V T) : option (Command V T * nat) :=
  match commandQueue g with
  | commandInfo :: _ => Some (commandInfo, 0%nat)
  | [] => None
  end.

(** The handling of a POST carrying an ['intensity'] field by
    [XIMWebServer.ximDeviceSpecific], [intensity] being the value
    [float(data['intensity'])] gave. *)
Definition ximDeviceSpecific_post_intensity {V T} (DeviceId : Z) (intensity : V)
    (g : gateway V T) : gateway V T :=
  if IsValidDeviceByIndex g DeviceId then SetIntensity DeviceId intensity g else g.

End XimGateway.

(** ** Sample credentials, devices and engine states *)

Module Samples.

Import BleXim.

Definition cfg_a : NetworkConfig :=
  {| id := [0x25; 0; 0; 0];
     headerKey := [1; 2; 3; 4; 5; 6; 7; 8; 9; 10; 11; 12; 13; 14; 15; 16];
     key := [16; 15; 14; 13; 12; 11; 10; 9; 8; 7; 6; 5; 4; 3; 2; 1];
     txSqn := 41 |}.

Definition cfg_b : NetworkConfig :=
  {| id := [0x25; 0; 0; 0];
     headerKey := [1; 2; 3; 4; 5; 6; 7; 8; 9; 10; 11; 12; 13; 14; 15; 16];
     key := [16; 15; 14; 13; 12; 11; 10; 9; 8; 7; 6; 5; 4; 3; 2; 0];
     txSqn := 7 |}.

(** A fixture at logical address 5 that has advertised encrypted. *)
Definition dev_a : BleDevice :=
  {| address := [1; 2; 3; 4; 5; 6]; deviceType := DEVICE_TYPE_XIM; swVersion := None;
     connection_handle := None; connectionState := STATE_STANDBY;
     unexpectedDisconnections := 0; bootloaderMode := false; packetStatus := None;
     bulkPacketTransferred := false; encryptedAdv := true;
     groups := Py.repeat None NUM_GROUPS; receivedAllGroups := false;
     requestGroupAttempts := 0; scannedDeviceId := Some [5];
     attributeList := []; blAttributeList := [] |}.

(** An engine that transmits under [cfg_a] and receives under [cfg_b]. *)
Definition st_a : state :=
  {| networkConfigs := [cfg_a; cfg_b]; selectedTxNetworkIndex := 0;
     selectedRxNetworkIndex := 1; aesNonce := Py.repeat 0 13; adminMode := false;
     adminKey := Py.repeat 0 16; bleLocalDeviceId := 0x1234;
     peripheral_list := [dev_a]; pending_write := false;
     workingDirectory := "."; files := ∅; inbox := []; trace := [] |}.

(** Its peer: the same two slots, exchanged. *)
Definition st_b : state := with_networkConfigs [cfg_b; cfg_a] st_a.

(** The manufacturer field of the frame [st_a] advertises for a light-level
    payload to address 5, as a scanner sees it. *)
Definition frame_a : list Z :=
  [83; 2; 133; 251; 103; 255; 169; 238; 191; 149; 12; 240; 249; 99; 151; 6; 34; 184; 172; 172].

(** The manufacturer field of the frame [st_a] advertises for a payload of
    type [ENCRYPTED_PACKET_TYPE_BOOTLOAD] with no data to address 5, as a
    scanner sees it: sequence number 42, decrypted payload [[15; 5; 0]]. *)
Definition frame_boot : list Z :=
  [83; 2; 133; 218; 24; 107; 100; 202; 111; 69; 19; 240; 249; 87; 51; 211; 154].

(** The same engine with both persisted files on disk. *)
Definition st_files : state :=
  with_files
    (<[bleNetworkConfigFileName st_a :=
         ["25000000,100f0e0d0c0b0a090807060504030201,0102030405060708090a0b0c0d0e0f10,41
";
          "25000000,100f0e0d0c0b0a090807060504030200,0102030405060708090a0b0c0d0e0f10,7
"]]>
       (<[uuidHandleMapFileName st_a := ["0.094,2A00:3:None
"]]> ∅)) st_a.

(** A fixture of firmware 0.095 whose two characteristics were resolved. *)
Definition dev_resolved : BleDevice :=
  {| address := [1; 2; 3; 4; 5; 6]; deviceType := DEVICE_TYPE_XIM;
     swVersion := Some "0.095";
     connection_handle := Some 0; connectionState := STATE_FINDING_ATTRIBUTES;
     unexpectedDisconnections := 0; bootloaderMode := false; packetStatus := None;
     bulkPacketTransferred := false; encryptedAdv := true;
     groups := Py.repeat None NUM_GROUPS; receivedAllGroups := false;
     requestGroupAttempts := 0; scannedDeviceId := Some [5];
     attributeList := [ {| uuid := [0x2A; 0x00]; handle := Some 3; hasCCC := false;
                           cccHandle := None |};
                        {| uuid := [0x2A; 0x19]; handle := Some 17; hasCCC := true;
                           cccHandle := Some 18 |} ];
     blAttributeList := [] |}.

(** A gateway that knows one fixture, with an empty command queue. *)
Definition gateway_a : XimGateway.gateway Z Z :=
  {| XimGateway.ximList := [ {| XimGateway.IdListIndex := 1; XimGateway.deviceId := [5] |} ];
     XimGateway.commandQueue := [];
     XimGateway.now := 1000 |}.

(** The same fixture with an established link on connection 3, listening
    for data. *)
Definition dev_linked : BleDevice :=
  set_connectionState STATE_LISTENING_DATA (set_connection_handle (Some 3) dev_resolved).

Definition st_linked : state := with_peripheral_list [dev_linked] st_a.

(** Stand-ins for the two callees of the disconnection handler. The first
    sends nothing. The second does what [Connect] does once the controller
    is idle: it marks the device Connecting, sends the direct connection
    command and answers whether the device left Standby. *)
Definition EnableConnections_silent (destination : option (list Z)) : M unit := mret tt.

Definition Connect_direct (addressValue : list Z) : M bool :=
  device ← GetDeviceWithAddress addressValue;
  match device with
  | Some i =>
      update_device i (set_connectionState STATE_CONNECTING);;
      d ← device_at i;
      send_command (ble_cmd_gap_connect_direct (address d));;
      SetBusyFlag;;
      mret (negb (bool_decide (connectionState d = STATE_STANDBY)))
  | None => mret false
  end.

(** The link coming back on [connection] for the device at index [i], with
    discovery run through. *)
Definition link_restored (i : nat) (connection : Z) (st : state) : state :=
  with_pending_write false
    (with_peripheral_list
       (alter (fun d => set_connectionState STATE_LISTENING_DATA
                          (set_connection_handle (Some connection) d))
              i (peripheral_list st)) st).

(** One unexpected loss of connection 3 followed by the link coming back. *)
Definition drop_and_relink (st : state) : state :=
  link_restored 0 3
    (my_ble_evt_connection_disconnected EnableConnections_silent Connect_direct 0x0208 3 st).2.

(** A payload of 40 bytes, and the linked engine about to receive four
    positive acknowledgements on connection 3, or a refusal of the second
    chunk. *)
Definition packet_a : list Z := Z.of_nat <$> seq 1 40.

Definition acknowledged : tick := Deliver (ble_evt_attclient_procedure_completed 3 0).

Definition st_acknowledged : state :=
  with_inbox [acknowledged; acknowledged; acknowledged; acknowledged] st_linked.

Definition st_refused : state :=
  with_inbox [acknowledged; Deliver (ble_evt_attclient_procedure_completed 3 0x0401);
              acknowledged; acknowledged] st_linked.

(** No discovery step is pending on a listening device. *)
Definition discovery_idle (i : nat) (result : Z) : M unit := mret tt.

End Samples.

(** ** [ximGateway.py]: serving the command queue *)

Module XimGatewayRun.

Import XimGateway.

Definition INDICATE_FLASH_INTERVAL : Z := 1000.
Definition INDICATE_FLASHES : Z := 3.

Section Indicate.

Context {V T : Type}.

(** The floats [INDICATE_MIN_INTENSITY = 0.0] and
    [INDICATE_MAX_INTENSITY = 25.0], as values of the type of intensities. *)
Variables (INDICATE_MIN_INTENSITY INDICATE_MAX_INTENSITY : V).

(** [SetIndicate(IdListIndex)] *)
Definition SetIndicate (IdListIndex : Z) (g : gateway V T) : gateway V T :=
  match GetDeviceByDevIndex g IdListIndex with
  | Some device =>
      let values : gmap string (V + Z + bool) :=
        list_to_map [("num_flashes", inl (inr INDICATE_FLASHES));
                     ("period", inl (inr INDICATE_FLASH_INTERVAL));
                     ("high_level", inl (inl INDICATE_MAX_INTENSITY));
                     ("low_level", inl (inl INDICATE_MIN_INTENSITY))] in
      {| ximList := ximList g;
         commandQueue := commandQueue g
                         ++ [ {| function := BroadcastIndicate;
                                 cmd_deviceId := deviceId device;
                                 values := values; time := now g |} ];
         now := now g |}
  | None => g
  end.

End Indicate.

(** [RemoveCommandFromQueue(i)]: [commandQueue.pop(i)]; a negative index
    counts from the end, [None] stands for the [IndexError] of an index
    outside the queue. *)
Definition RemoveCommandFromQueue {V T} (i : Z) (g : gateway V T) : option (gateway V T) :=
  let n := Py.len (commandQueue g) in
  let place := if i <? 0 then n + i else i in
  if (0 <=? place) && (place <? n)
  then Some {| ximList := ximList g;
               commandQueue := delete (Z.to_nat place) (commandQueue g);
               now := now g |}
  else None.

(** [ConvertBytesToValue(bytes)], big-endian. *)
Fixpoint ConvertBytesToValue_loop (length : nat) (bytes : list Z) (value factor : Z)
  : option Z :=
  match length with
  | O => Some value
  | S length' =>
      b ← bytes !! length';
      ConvertBytesToValue_loop length' bytes (value + b * factor) (factor * 256)
  end.

Definition ConvertBytesToValue (bytes : list Z) : option Z :=
  ConvertBytesToValue_loop (length bytes) bytes 0 1.

End XimGatewayRun.


(** ** [ble_xim.py]: further functions *)

Module BleXimFurther.

Import BleXim.

Definition XB_TYPE_UNASSIGNED_DEST : Z := 0x04.

(** [SetXBUnassignedPacket(destination, payloadType, payload)]; [None]
    stands for the [IndexError] of [destination[0]] on an empty
    destination. *)
Definition SetXBUnassignedPacket (destination : list Z) (payloadType : Z) (payload : list Z)
  : M unit :=
  localId ← gets bleLocalDeviceId;
  d0 ← lift (item destination 0);
  TransmitAdvertisement
    ([AD1_LENGTH; AD1_TYPE; AD1_VALUE; 11 + Py.len payload + Py.len destination;
      0xFF; 0x53; 0x02]
     ++ [XB_TYPE_UNASSIGNED_DEST]
     ++ ConvertIntToList localId 2
     ++ [d0]
     ++ Py.repeat 0 4
     ++ [payloadType]
     ++ Py.slice destination 1 3
     ++ payload).

(** [SetXBPacket(destination, payloadType, payload)] *)
Definition SetXBPacket (destination : list Z) (payloadType : Z) (payload : list Z)
  : M unit :=
  let destination := if 3 <? Py.len destination then Py.slice_to destination 3
                     else destination in
  if Py.len destination =? 3
  then SetXBUnassignedPacket destination payloadType payload
  else SetXBAssignedPacket destination payloadType payload.

(** The loop of [my_ble_evt_gap_scan_response] that cuts the advertisement
    data into fields: the fields completed, in order, each as [this_field]
    holds it when [bytes_left] reaches 0 (the field's type first). *)
Fixpoint scan_fields (data : list Z) (bytes_left : Z) (this_field : list Z)
  : list (list Z) :=
  match data with
  | [] => []
  | b :: data' =>
      if bytes_left =? 0 then scan_fields data' b []
      else
        let this_field := this_field ++ [b] in
        let bytes_left := bytes_left - 1 in
        if bytes_left =? 0 then this_field :: scan_fields data' bytes_left this_field
        else scan_fields data' bytes_left this_field
  end.

Definition advertisement_fields (data : list Z) : list (list Z) := scan_fields data 0 [].

(** [bisect.bisect_left(a, x)] of the standard library, as
    [TableIndexLookup] calls it: the binary search
    [while lo < hi: mid = (lo+hi)//2; if a[mid] < x: lo = mid+1 else: hi = mid]
    from [lo = 0] and [hi = len(a)]. The loop takes at most [len(a)] turns;
    [None] stands for a turn beyond that or an [IndexError], neither of
    which occurs. *)
Fixpoint bisect_left_loop (turns : nat) (a : list Z) (x lo hi : Z) : option Z :=
  if lo <? hi then
    match turns with
    | O => None
    | S turns =>
        let mid := (lo + hi) / 2 in
        a_mid ← item a mid;
        if a_mid <? x then bisect_left_loop turns a x (mid + 1) hi
        else bisect_left_loop turns a x lo mid
    end
  else Some lo.

Definition bisect_left (a : list Z) (x : Z) : option Z :=
  bisect_left_loop (length a) a x 0 (Py.len a).

(** [TableIndexLookup(table, value)] *)
Definition TableIndexLookup (table : list Z) (value : Z) : option Z :=
  pos ← bisect_left table value;
  if pos =? 0 then Some 0
  else if pos =? Py.len table then Some (Py.len table - 1)
  else
    before ← item table (pos - 1);
    after ← item table pos;
    if after - value <? value - before then Some pos
    else Some (pos - 1).

Definition overrideMap : list Z := [0; 10; 20; 30; 60; 120; 300; 600].

End BleXimFurther.


(** ** [LogHandler.py]: the log files kept *)

Module LogHandler.

(** The fields of a [LogHandler] that [RemoveOldFiles] uses:
    [fileTimeList] holds [[fullName, time]] pairs, oldest first. *)
Record LogHandler (T : Type) : Type := {
  maxFiles : Z;
  fileTimeList : list (string * T)
}.

Arguments maxFiles {T} _.
Arguments fileTimeList {T} _.

Section Files.

Context {T : Type}.

Definition set_fileTimeList (v : list (string * T)) (self : LogHandler T) : LogHandler T :=
  {| maxFiles := maxFiles self; fileTimeList := v |}.

(** One turn of the loop of [RemoveOldFiles]:
    [try: os.remove(self.fileTimeList[0][0]); self.fileTimeList.pop(0)]
    [except: pass]. The subscript raises on an empty list and [os.remove]
    on a name that is no file; the turn then changes nothing. *)
Definition RemoveOldFiles_turn (s : LogHandler T * gmap string (list string))
  : LogHandler T * gmap string (list string) :=
  let '(self, files) := s in
  match fileTimeList self with
  | [] => (self, files)
  | (fullName, _) :: rest =>
      match files !! fullName with
      | Some _ => (set_fileTimeList rest self, delete fullName files)
      | None => (self, files)
      end
  end.

Fixpoint RemoveOldFiles_loop (turns : nat) (s : LogHandler T * gmap string (list string))
  : LogHandler T * gmap string (list string) :=
  match turns with
  | O => s
  | S turns => RemoveOldFiles_loop turns (RemoveOldFiles_turn s)
  end.

(** [LogHandler.RemoveOldFiles(self)], on the files [files]. *)
Definition RemoveOldFiles (self : LogHandler T) (files : gmap string (list string))
  : LogHandler T * gmap string (list string) :=
  if 0 <? maxFiles self then
    let numRemoveFiles := Py.len (fileTimeList self) - maxFiles self in
    RemoveOldFiles_loop (Z.to_nat numRemoveFiles) (self, files)
  else (self, files).

End Files.

End LogHandler.

Module LogSamples.

Import LogHandler.

(** A handler that keeps two files, with three on its list, oldest
    first. *)
Definition log_a : LogHandler Z :=
  {| maxFiles := 2;
     fileTimeList := [("log/ble_1.txt", 100); ("log/ble_2.txt", 200); ("log/ble.txt", 300)] |}.

(** The three files on disk, and the same without the oldest. *)
Definition log_files_a : gmap string (list string) :=
  <["log/ble_1.txt" := ["first"]]>
    (<["log/ble_2.txt" := ["second"]]> (<["log/ble.txt" := []]> ∅)).

Definition log_files_b : gmap string (list string) := delete "log/ble_1.txt" log_files_a.

End LogSamples.


(** * Notions the properties are stated with *)

Section Notions.

Import BleXim.

(** A relation between the state before and the state after that a
    computation maintains, whatever its outcome. *)
Definition respects (R : relation state) {A} (m : M A) : Prop :=
  forall st, R st (m st).2.

(** The credential slots are left as they were. *)
Definition configs_kept : relation state :=
  fun st st' => networkConfigs st' = networkConfigs st
                /\ selectedTxNetworkIndex st' = selectedTxNetworkIndex st
                /\ selectedRxNetworkIndex st' = selectedRxNetworkIndex st.

(** The trace is only added to. *)
Definition trace_grows : relation state :=
  fun st st' => exists more, trace st' = trace st ++ more.

Definition keeps_configs {A} (m : M A) : Prop := respects configs_kept m.

Definition grows_trace {A} (m : M A) : Prop := respects trace_grows m.

(** The state [issue_txSqn] leaves behind. *)
Definition issued (st : state) (c : NetworkConfig) : state :=
  with_networkConfigs
    (<[selectedTxNetworkIndex st :=
         set_txSqn (if XBX_SEQUENCE_ID_MAX_VALUE <=? txSqn c + 1 then 1 else txSqn c + 1) c]>
       (networkConfigs st)) st.

(** The first 13 values of [payloadAndMic], zero-padded when it is shorter. *)
Definition header_nonce_of (payloadAndMic : list Z) : list Z :=
  take 13 (payloadAndMic ++ replicate 13 0).

(** The nonce and the two halves of [payloadAndMic] that [XDecrypt] hands to
    the payload decryption. *)
Definition payload_nonce (st : state) (header decryptedHeader : list Z) : list Z :=
  Py.slice_assign_to (aesNonce st) (Py.len header - XBX_RFU_LENGTH)
    (Py.slice_to decryptedHeader (Py.len header - XBX_RFU_LENGTH)).

Definition ciphertext_of (payloadAndMic : list Z) : list Z :=
  Py.slice_to payloadAndMic (Py.len payloadAndMic - XBX_MIC_LENGTH).

Definition mic_of (payloadAndMic : list Z) : list Z :=
  Py.slice payloadAndMic (Py.len payloadAndMic - XBX_MIC_LENGTH)
           (Py.len payloadAndMic - XBX_MIC_LENGTH + XBX_MIC_LENGTH).

(** [key] authenticates the payload of the frame. *)
Definition authenticates (key nonce payloadAndMic : list Z) : Prop :=
  exists data,
    AesCcmDecrypt key nonce (ciphertext_of payloadAndMic) (mic_of payloadAndMic)
    = Some (data, true).

(** [IsEncryptedAdvEnabled] as a function of the state it reads. *)
Definition encrypted_adv_enabled (destination : list Z) (st : state) : option bool :=
  c ← networkConfigs st !! selectedTxNetworkIndex st;
  Some (if bool_decide (key c = NETWORK_KEY_NONE) then false
        else 0 <? Py.len (List.filter encryptedAdv
                            (GetDevicesInGroup (peripheral_list st) destination))).

(** The counter stored in the receive slot. *)
Definition rx_sqn (st : state) : option Z :=
  txSqn <$> networkConfigs st !! selectedRxNetworkIndex st.

(** The sequence numbers of the frames of [frames] that the handler
    authenticated, in order, and the state after the last frame; a frame
    whose handling raises leaves the assignments made so far. *)
Definition scan_frames (frames : list (list Z)) (st : state) : list Z * state :=
  foldl (fun '(sqns, st) this_field =>
           let r := my_ble_evt_gap_scan_response_encrypted this_field st in
           (sqns ++ match r.1 with Some (Some sqn) => [sqn] | _ => [] end, r.2))
        ([], st) frames.

(** The device as an unexpected disconnection leaves it before any
    reconnection. *)
Definition dropped (d : BleDevice) : BleDevice :=
  set_connectionState STATE_STANDBY
    (set_unexpectedDisconnections (unexpectedDisconnections d + 1)
       (set_connection_handle None d)).

(** The state in which the handler decides whether to reconnect. *)
Definition after_drop (st : state) (i : nat) : state :=
  with_pending_write true
    (with_trace (trace st ++ [Sent ble_cmd_system_get_connections])
       (with_peripheral_list (alter dropped i (peripheral_list st))
          (with_pending_write false st))).

(** The acknowledgement a wait meets: the result of the first completion
    event on connection [h] that arrives before the time bound, and what is
    left to arrive. *)
Fixpoint await (h : Z) (pending : list BleXim.tick) : option Z * list BleXim.tick :=
  match pending with
  | [] => (None, [])
  | BleXim.Elapse :: rest => (None, rest)
  | BleXim.Deliver (BleXim.ble_evt_attclient_procedure_completed c r) :: rest =>
      if c =? h then (Some r, rest) else await h rest
  end.

(** A chunked write as the specification words it: each chunk is sent and
    its acknowledgement awaited before the next; the first chunk that is not
    acknowledged with success ends the write, nothing being sent again;
    after the last chunk the commit is sent and awaited. The result lists
    the commands sent, tells whether everything was acknowledged and gives
    what is left to arrive. *)
Fixpoint chunk_writes (h : Z) (chunks : list BleXim.command) (pending : list BleXim.tick)
    : list BleXim.command * bool * list BleXim.tick :=
  match chunks with
  | [] => ([], true, pending)
  | c :: chunks' =>
      match await h pending with
      | (Some 0, rest) =>
          let '(sent, ok, rest') := chunk_writes h chunks' rest in
          (c :: sent, ok, rest')
      | (_, rest) => ([c], false, rest)
      end
  end.

Definition chunked_write (h : Z) (chunks : list BleXim.command) (commit : BleXim.command)
    (pending : list BleXim.tick) : list BleXim.command * bool * list BleXim.tick :=
  let '(sent, ok, rest) := chunk_writes h chunks pending in
  if ok then
    match await h rest with
    | (Some 0, rest') => (sent ++ [commit], true, rest')
    | (_, rest') => (sent ++ [commit], false, rest')
    end
  else (sent, false, rest).

(** The chunks of a payload: consecutive pieces of 18 bytes, the last one
    possibly shorter. *)
Definition chunk_count (txPacket : list Z) : nat := ((length txPacket + 17) / 18)%nat.

Definition chunk (txPacket : list Z) (k : nat) : list Z :=
  take 18 (drop (18 * k) txPacket).

Definition chunk_command (h handle_ : Z) (txPacket : list Z) (k : nat) : BleXim.command :=
  BleXim.ble_cmd_attclient_prepare_write (Some h) handle_ (Z.of_nat (18 * k))
    (chunk txPacket k).

Definition chunk_commands (h handle_ : Z) (txPacket : list Z) : list BleXim.command :=
  chunk_command h handle_ txPacket <$> seq 0 (chunk_count txPacket).

(** The payload a chunk command carries. *)
Definition chunk_data (c : BleXim.command) : list Z :=
  match c with
  | BleXim.ble_cmd_attclient_prepare_write _ _ _ data => data
  | _ => []
  end.

(** An event the wait may meet: the time bound, a completion on connection
    [h], or a completion on a connection no device holds. *)
Definition concerns (h : Z) (devices : list BleXim.BleDevice) (t : BleXim.tick) : Prop :=
  match t with
  | BleXim.Elapse => True
  | BleXim.Deliver (BleXim.ble_evt_attclient_procedure_completed c r) =>
      c <> h ->
      list_find (fun device => BleXim.connection_handle device = Some c) devices = None
  end.

(** The registry of a state is [devices] with the device at place [i]
    replaced by [d], which still holds connection [h] and listens. *)
Definition linked (devices : list BleDevice) (i : nat) (h : Z) (st : state)
    (d : BleDevice) : Prop :=
  peripheral_list st = <[i := d]> devices
  /\ connection_handle d = Some h
  /\ connectionState d = STATE_LISTENING_DATA.

(** The condition of the loop that waits for an acknowledgement. *)
Definition waiting (i : nat) (st : state) : bool :=
  pending_write st || negb (transferred i st).

End Notions.


(** The condition of the loop that waits for the answer to a single write. *)
Definition unanswered (i : nat) (st : BleXim.state) : bool :=
  match BleXim.peripheral_list st !! i with
  | Some d => bool_decide (BleXim.packetStatus d = None)
  | None => false
  end.


(** A table whose entries do not decrease. *)
Fixpoint ascending (table : list Z) : bool :=
  match table with
  | x :: (y :: _) as rest => (x <=? y) && ascending rest
  | _ => true
  end.


(** * Properties *)

(** FIPS-197, appendix C.1. *)
Example aes128_fips197_c1 :
  AES.encrypt_block
    [0x00; 0x01; 0x02; 0x03; 0x04; 0x05; 0x06; 0x07; 0x08; 0x09; 0x0a; 0x0b; 0x0c; 0x0d; 0x0e; 0x0f]
    [0x00; 0x11; 0x22; 0x33; 0x44; 0x55; 0x66; 0x77; 0x88; 0x99; 0xaa; 0xbb; 0xcc; 0xdd; 0xee; 0xff]
  = [0x69; 0xc4; 0xe0; 0xd8; 0x6a; 0x7b; 0x04; 0x30; 0xd8; 0xcd; 0xb7; 0x80; 0x70; 0xb4; 0xc5; 0x5a].
Proof. vm_compute. reflexivity. Qed.

(** FIPS-197, appendix B. *)
Example aes128_fips197_b :
  AES.encrypt_block
    [0x2b; 0x7e; 0x15; 0x16; 0x28; 0xae; 0xd2; 0xa6; 0xab; 0xf7; 0x15; 0x88; 0x09; 0xcf; 0x4f; 0x3c]
    [0x32; 0x43; 0xf6; 0xa8; 0x88; 0x5a; 0x30; 0x8d; 0x31; 0x31; 0x98; 0xa2; 0xe0; 0x37; 0x07; 0x34]
  = [0x39; 0x25; 0x84; 0x1d; 0x02; 0xdc; 0x09; 0xfb; 0xdc; 0x11; 0x85; 0x97; 0x19; 0x6a; 0x0b; 0x32].
Proof. vm_compute. reflexivity. Qed.

(** RFC 3610, packet vector 1 (8-byte tag, 8 bytes of associated data). *)
Example ccm_rfc3610_vector1 :
  let key := map CCM.byte_of_Z
    [0xC0; 0xC1; 0xC2; 0xC3; 0xC4; 0xC5; 0xC6; 0xC7; 0xC8; 0xC9; 0xCA; 0xCB; 0xCC; 0xCD; 0xCE; 0xCF] in
  let nonce := map CCM.byte_of_Z
    [0x00; 0x00; 0x00; 0x03; 0x02; 0x01; 0x00; 0xA0; 0xA1; 0xA2; 0xA3; 0xA4; 0xA5] in
  let assoc := map CCM.byte_of_Z [0; 1; 2; 3; 4; 5; 6; 7] in
  let msg := map (fun i => CCM.byte_of_Z (Z.of_nat i)) (seq 8 23) in
  (c ← CCM.new key nonce 8;
   '(c', ct) ← CCM.encrypt (CCM.update c assoc) msg;
   Some (map CCM.Z_of_byte ct, map CCM.Z_of_byte (CCM.digest c')))
  = Some ([0x58; 0x8C; 0x97; 0x9A; 0x61; 0xC6; 0x63; 0xD2; 0xF0; 0x66; 0xD0; 0xC2;
           0xC0; 0xF9; 0x89; 0x80; 0x6D; 0x5F; 0x6B; 0x61; 0xDA; 0xC3; 0x84],
          [0x17; 0xE8; 0xD1; 0x2C; 0xFD; 0xF9; 0x26; 0xE0]).
Proof. vm_compute. reflexivity. Qed.

(** The wrapper on a sample key, nonce and 20-byte payload. *)
Example AesCcm_sample :
  let key := [0; 1; 2; 3; 4; 5; 6; 7; 8; 9; 10; 11; 12; 13; 14; 15] in
  let nonce := [0; 1; 2; 3; 4; 5; 6; 7; 8; 9; 10; 11; 12] in
  let plain := [1; 2; 3; 4; 5; 6; 7; 8; 9; 10; 11; 12; 13; 14; 15; 16; 17; 18; 19; 20] in
  BleXim.AesCcmEncrypt key nonce plain
  = Some ([0x17; 0x36; 0xb7; 0x8c; 0x56; 0x0f; 0xfd; 0x8a; 0x53; 0x9d; 0x38; 0xab;
           0x90; 0x3a; 0x11; 0xc8; 0xf2; 0x12; 0x17; 0x36], [0xf0; 0xa3; 0x6e; 0xbc]).
Proof. vm_compute. reflexivity. Qed.

(** ** The AES-CCM wrappers invert each other *)

Section BlockCipher.

Lemma xor_bytes_length a b :
  length (AES.xor_bytes a b) = (length a `min` length b)%nat.
Proof. apply length_zip_with. Qed.

Lemma ShiftRows_length s : length (AES.ShiftRows s) = 16%nat.
Proof. reflexivity. Qed.

Lemma MixColumns_length s : length (AES.MixColumns s) = 16%nat.
Proof. reflexivity. Qed.

Lemma next_round_key_length rk rc :
  length rk = 16%nat -> length (AES.next_round_key rk rc) = 16%nat.
Proof.
  intros Hrk. unfold AES.next_round_key.
  repeat rewrite ?length_app, ?xor_bytes_length, ?length_take, ?length_drop.
  rewrite Hrk. reflexivity.
Qed.

Lemma rounds_length rcs s rk :
  rcs <> [] -> length rk = 16%nat -> length (AES.rounds rcs s rk) = 16%nat.
Proof.
  revert s rk. induction rcs as [|rc rcs IH]; intros s rk Hne Hrk; [congruence|].
  destruct rcs as [|rc' rcs'].
  - simpl. unfold AES.final_round.
    rewrite xor_bytes_length, ShiftRows_length, next_round_key_length by assumption.
    reflexivity.
  - change (AES.rounds (rc :: rc' :: rcs') s rk)
      with (AES.rounds (rc' :: rcs')
              (AES.round s (AES.next_round_key rk rc)) (AES.next_round_key rk rc)).
    apply IH; [congruence|]. now apply next_round_key_length.
Qed.

Lemma aes_block_length key block :
  length key = 16%nat -> length (CCM.aes key block) = 16%nat.
Proof.
  intros Hk. unfold CCM.aes, AES.encrypt_block.
  rewrite length_map. apply rounds_length; [discriminate|].
  now rewrite length_map.
Qed.

End BlockCipher.

Section CounterMode.

Variable E : list byte -> list byte.
Variable nonce : list byte.
Hypothesis E_length : forall b, length (E b) = 16%nat.

Lemma bxor_involutive a k : CCM.bxor (CCM.bxor a k) k = a.
Proof.
  unfold CCM.bxor.
  destruct (Byte.to_bits a) as (a0 & a1 & a2 & a3 & a4 & a5 & a6 & a7) eqn:Ha.
  destruct (Byte.to_bits k) as (k0 & k1 & k2 & k3 & k4 & k5 & k6 & k7) eqn:Hk.
  rewrite Byte.to_bits_of_bits.
  rewrite <- (Byte.of_bits_to_bits a), Ha.
  now rewrite !xorb_assoc, !xorb_nilpotent, !xorb_false_r.
Qed.

Lemma strxor_involutive d ks :
  (length d <= length ks)%nat -> CCM.strxor (CCM.strxor d ks) ks = d.
Proof.
  revert ks. induction d as [|x d IH]; intros [|k ks] Hlen; simpl in *; try lia; [reflexivity..|].
  rewrite bxor_involutive. f_equal. apply IH. lia.
Qed.

Lemma flat_map_blocks_length {A} (f : A -> list byte) (l : list A) :
  (forall x, length (f x) = 16%nat) -> length (flat_map f l) = (16 * length l)%nat.
Proof.
  intros Hf. induction l as [|x l IH]; [reflexivity|].
  simpl flat_map. rewrite length_app, Hf, IH. simpl length. lia.
Qed.

Lemma keystream_length n : length (CCM.keystream E nonce n) = n.
Proof.
  unfold CCM.keystream. rewrite length_take, flat_map_blocks_length by (intros; apply E_length).
  rewrite length_seq. pose proof (Nat.div_mod_eq n 16).
  pose proof (Nat.mod_upper_bound n 16). lia.
Qed.

Lemma ctr_length d : length (CCM.ctr E nonce d) = length d.
Proof.
  unfold CCM.ctr, CCM.strxor. rewrite length_zip_with, keystream_length. lia.
Qed.

Lemma ctr_involutive d : CCM.ctr E nonce (CCM.ctr E nonce d) = d.
Proof.
  unfold CCM.ctr at 1. rewrite ctr_length. unfold CCM.ctr.
  apply strxor_involutive. rewrite keystream_length. lia.
Qed.

Lemma cbc_mac_length data : length (CCM.cbc_mac E data) = 16%nat.
Proof.
  unfold CCM.cbc_mac.
  generalize (CCM.blocks (length data) data) as bs.
  intros bs. induction bs as [|b bs IH] using rev_ind; [reflexivity|].
  rewrite foldl_snoc. apply E_length.
Qed.

Lemma tag_length mac_len assoc msg :
  0 <= mac_len <= 16 ->
  length (CCM.tag E nonce mac_len assoc msg) = Z.to_nat mac_len.
Proof.
  intros Hm. unfold CCM.tag, CCM.strxor.
  rewrite length_zip_with, !length_take, cbc_mac_length, E_length. lia.
Qed.

End CounterMode.

Section Wrappers.

Import BleXim.

Lemma BytesToString_in_range bytes :
  Forall Py.is_byte bytes ->
  exists str, BytesToString bytes = Some str
              /\ length str = length bytes /\ StringToBytes str = bytes.
Proof.
  induction 1 as [|val bytes Hval _ (str & Hstr & Hlen & Hback)].
  - exists []. repeat split.
  - destruct Hval as [Hlo Hhi].
    destruct (Byte.of_N (Z.to_N val)) as [b|] eqn:Hb.
    + exists (b :: str). unfold BytesToString in *. cbn [mapM].
      rewrite (proj2 (Z.leb_le 0 val) Hlo), (proj2 (Z.ltb_lt val 256) Hhi).
      cbn [andb]. rewrite Hb, Hstr. cbn. repeat split.
      * now rewrite Hlen.
      * unfold StringToBytes in *. cbn [map]. rewrite Hback. f_equal.
        unfold CCM.Z_of_byte. apply Byte.to_of_N in Hb. rewrite Hb. lia.
    + apply Byte.of_N_None_iff in Hb. lia.
Qed.

Lemma BytesToString_StringToBytes str :
  BytesToString (StringToBytes str) = Some str.
Proof.
  induction str as [|b str IH]; [reflexivity|].
  unfold BytesToString, StringToBytes in *. cbn [map mapM].
  pose proof (Byte.to_N_bounded b) as Hb.
  assert (Hconv : Byte.of_N (Z.to_N (CCM.Z_of_byte b)) = Some b)
    by (unfold CCM.Z_of_byte; rewrite N2Z.id; apply Byte.of_to_N).
  assert (Hrange : 0 <= CCM.Z_of_byte b < 256) by (unfold CCM.Z_of_byte; lia).
  rewrite (proj2 (Z.leb_le 0 _) (proj1 Hrange)).
  rewrite (proj2 (Z.ltb_lt _ 256) (proj2 Hrange)).
  cbn [andb]. rewrite Hconv, IH. reflexivity.
Qed.

Lemma StringToBytes_length str : length (StringToBytes str) = length str.
Proof. apply length_map. Qed.



End Wrappers.

(** ** Running the engine's computations *)

Section Running.

Import BleXim.

Lemma run_bind {A B} (m : M A) (f : A -> M B) st :
  (m ≫= f) st = match m st with
                | (Some a, st') => f a st'
                | (None, st') => (None, st')
                end.
Proof. reflexivity. Qed.

Lemma run_bind_Some {A B} (m : M A) (f : A -> M B) st a st1 :
  m st = (Some a, st1) -> (m ≫= f) st = f a st1.
Proof. intros H. rewrite run_bind, H. reflexivity. Qed.

Lemma run_bind_None {A B} (m : M A) (f : A -> M B) st st1 :
  m st = (None, st1) -> (m ≫= f) st = (None, st1).
Proof. intros H. rewrite run_bind, H. reflexivity. Qed.

Lemma bind_returns {A B} (m : M A) (f : A -> M B) st b st' :
  (m ≫= f) st = (Some b, st') ->
  exists a st1, m st = (Some a, st1) /\ f a st1 = (Some b, st').
Proof.
  rewrite run_bind. destruct (m st) as [[a|] st1]; [|discriminate].
  intros H. eauto.
Qed.

Lemma run_lift_bind {A B} (o : option A) (f : A -> M B) st :
  (lift o ≫= f) st = match o with Some a => f a st | None => (None, st) end.
Proof. destruct o; reflexivity. Qed.

Lemma run_gets_bind {A B} (g : state -> A) (f : A -> M B) st :
  (gets g ≫= f) st = f (g st) st.
Proof. reflexivity. Qed.

Lemma run_config_at_bind {B} i (f : NetworkConfig -> M B) st :
  (config_at i ≫= f) st
  = match networkConfigs st !! i with Some c => f c st | None => (None, st) end.
Proof. rewrite run_bind. unfold config_at. now destruct (networkConfigs st !! i). Qed.

Lemma run_ret {A} (a : A) st : (mret a : M A) st = (Some a, st).
Proof. reflexivity. Qed.

Section Respects.

Context (R : relation state) `{!PreOrder R}.

Lemma respects_bind {A B} (m : M A) (f : A -> M B) :
  respects R m -> (forall a, respects R (f a)) -> respects R (m ≫= f).
Proof.
  intros Hm Hf st. rewrite run_bind. specialize (Hm st).
  destruct (m st) as [[a|] st1]; simpl in *; [|exact Hm].
  etransitivity; [exact Hm | apply Hf].
Qed.

Lemma respects_ret {A} (a : A) : respects R (mret a).
Proof. intros st. simpl. reflexivity. Qed.

Lemma respects_lift {A} (o : option A) : respects R (lift o).
Proof. intros st. simpl. reflexivity. Qed.

Lemma respects_gets {A} (f : state -> A) : respects R (gets f).
Proof. intros st. simpl. reflexivity. Qed.

Lemma respects_config_at i : respects R (config_at i).
Proof. intros st. simpl. reflexivity. Qed.

Lemma respects_modify f : (forall st, R st (f st)) -> respects R (modify f).
Proof. intros H st. apply H. Qed.

Lemma respects_if {A} (b : bool) (m1 m2 : M A) :
  respects R m1 -> respects R m2 -> respects R (if b then m1 else m2).
Proof. destruct b; auto. Qed.

Lemma respects_foldl {A} (f : M unit -> A -> M unit) (l : list A) (m : M unit) :
  respects R m -> (forall acc x, respects R acc -> respects R (f acc x)) ->
  respects R (foldl f m l).
Proof. revert m. induction l as [|x l IH]; intros m Hm Hf; simpl; auto. Qed.

End Respects.

#[global] Instance configs_kept_preorder : PreOrder configs_kept.
Proof.
  split.
  - intros st. repeat split.
  - intros s1 s2 s3 (H1 & H2 & H3) (H4 & H5 & H6). repeat split; congruence.
Qed.

#[global] Instance trace_grows_preorder : PreOrder trace_grows.
Proof.
  split.
  - intros st. exists []. now rewrite app_nil_r.
  - intros s1 s2 s3 [m1 H1] [m2 H2]. exists (m1 ++ m2).
    now rewrite H2, H1, app_assoc.
Qed.

Lemma respects_emit_configs e : respects configs_kept (emit e).
Proof. intros st. repeat split. Qed.

Lemma respects_emit_trace e : respects trace_grows (emit e).
Proof. intros st. now exists [e]. Qed.

End Running.

Create HintDb respects discriminated.

#[export] Hint Resolve respects_ret respects_lift respects_gets respects_config_at
  respects_emit_configs respects_emit_trace : respects.

Ltac respects_step :=
  first
    [ assumption
    | solve [auto with respects typeclass_instances]
    | apply respects_bind;
      [ try (match goal with |- PreOrder _ => typeclasses eauto end).. | intros ? ]
    | apply respects_if
    | apply respects_foldl; [|intros ? ? ?]
    | match goal with
      | |- respects _ (BleXim.modify _) =>
          apply respects_modify; intros ?;
          first [ solve [unfold configs_kept; repeat split]
                | solve [exists []; cbn; now rewrite app_nil_r] ]
      end
    | match goal with |- respects _ (let '(_, _) := ?p in _) => destruct p end
    | match goal with |- respects _ (match ?p with _ => _ end) => destruct p end ].

Ltac respects := unfold keeps_configs, grows_trace; repeat respects_step.

Section Sequence.

Import BleXim Samples.

Lemma respects_call_encrypt R `{!PreOrder R} k n d :
  respects R (emit (Encrypted k n d)) -> respects R (call_AesCcmEncrypt k n d).
Proof. intros H. unfold call_AesCcmEncrypt. respects. Qed.

Lemma respects_call_decrypt R `{!PreOrder R} k n d m :
  respects R (emit (Decrypted k n d m)) -> respects R (call_AesCcmDecrypt k n d m).
Proof. intros H. unfold call_AesCcmDecrypt. respects. Qed.

Lemma keeps_configs_IsEncryptedAdvEnabled d : keeps_configs (IsEncryptedAdvEnabled d).
Proof. unfold IsEncryptedAdvEnabled. respects. Qed.

Lemma keeps_configs_UpdateNetworkConfigFile : keeps_configs UpdateNetworkConfigFile.
Proof. unfold UpdateNetworkConfigFile, open_w, write_line. respects. Qed.

Lemma keeps_configs_TransmitAdvertisement p : keeps_configs (TransmitAdvertisement p).
Proof. unfold TransmitAdvertisement. respects. Qed.

Lemma config_at_run st i c :
  networkConfigs st !! i = Some c -> config_at i st = (Some c, st).
Proof. intros H. unfold config_at. now rewrite H. Qed.

Lemma assign_txSqn_run st i c sqn :
  networkConfigs st !! i = Some c ->
  assign_txSqn i sqn st
  = (Some tt, with_networkConfigs (<[i := set_txSqn sqn c]> (networkConfigs st)) st).
Proof.
  intros H. unfold assign_txSqn.
  erewrite run_bind_Some by (apply config_at_run; eassumption). reflexivity.
Qed.

Lemma issue_txSqn_run st c :
  networkConfigs st !! selectedTxNetworkIndex st = Some c ->
  issue_txSqn st = (Some tt, issued st c)
  /\ networkConfigs (issued st c) !! selectedTxNetworkIndex st
     = Some (set_txSqn (if XBX_SEQUENCE_ID_MAX_VALUE <=? txSqn c + 1 then 1
                        else txSqn c + 1) c).
Proof.
  intros Hc.
  assert (Hlt : (selectedTxNetworkIndex st < length (networkConfigs st))%nat)
    by (eapply lookup_lt_Some; eassumption).
  split.
  - unfold issue_txSqn, issued.
    erewrite run_bind_Some by reflexivity.
    erewrite run_bind_Some by (apply config_at_run; eassumption).
    erewrite run_bind_Some by (apply assign_txSqn_run; eassumption).
    erewrite run_bind_Some
      by (apply config_at_run; cbn [networkConfigs with_networkConfigs];
          apply list_lookup_insert_eq; assumption).
    cbn [txSqn set_txSqn].
    destruct (XBX_SEQUENCE_ID_MAX_VALUE <=? txSqn c + 1); [|reflexivity].
    erewrite assign_txSqn_run
      by (cbn [networkConfigs with_networkConfigs];
          apply list_lookup_insert_eq; assumption).
    cbn [networkConfigs with_networkConfigs]. rewrite list_insert_insert_eq.
    reflexivity.
  - unfold issued. cbn [networkConfigs with_networkConfigs].
    now rewrite list_lookup_insert_eq.
Qed.

Lemma keeps_configs_after_issue destination payload :
  keeps_configs
    (tx ← gets selectedTxNetworkIndex;
     encryptedAdvEnabled ← IsEncryptedAdvEnabled destination;
     c ← config_at tx;
     admin ← gets adminMode;
     xbAssigned ←
       (if encryptedAdvEnabled && (admin || negb (bool_decide (key c = NETWORK_KEY_NONE)))
        then
          applicationKey ← (if admin then gets adminKey else mret (key c));
          localId ← gets bleLocalDeviceId;
          modify (fun st => with_aesNonce
                    (Py.slice_assign (aesNonce st) NONCE_SOURCE_ADDR_OFFSET
                       (NONCE_SOURCE_ADDR_OFFSET + XBX_SOURCE_ADDR_LENGTH)
                       (ConvertIntToList localId 2)) st);;
          modify (fun st => with_aesNonce
                    (Py.slice_assign (aesNonce st) NONCE_SQN_OFFSET
                       (NONCE_SQN_OFFSET + XBX_SEQUENCE_ID_LENGTH)
                       (ConvertIntToList (txSqn c) XBX_SEQUENCE_ID_LENGTH)) st);;
          nonce ← gets aesNonce;
          '(eMsg, eMic) ← call_AesCcmEncrypt applicationKey nonce payload;
          id0 ← lift (item (id c) 0);
          let headerByte :=
            XB_TYPE_ENCRYPTED_FLAG + Z.land id0 XBX_NETWORK_ID_PARTIAL_ID_MASK in
          let header := ConvertIntToList localId 2
                        ++ ConvertIntToList (txSqn c) XBX_SEQUENCE_ID_LENGTH
                        ++ Py.repeat 0 XBX_RFU_LENGTH in
          let payloadAndMic := eMsg ++ eMic in
          headerNonce ← lift (fill_headerNonce (Z.min NONCE_LENGTH (Py.len payloadAndMic))
                                               payloadAndMic);
          '(header, unusedMic) ← call_AesCcmEncrypt (headerKey c) headerNonce header;
          mret ([AD1_LENGTH; AD1_TYPE; AD1_VALUE; 15 + Py.len payload; 0xFF; 0x53; 0x02]
                ++ [headerByte]
                ++ Py.slice_to header XBX_SOURCE_ADDR_LENGTH
                ++ Py.slice header XBX_SOURCE_ADDR_LENGTH
                            (XBX_SOURCE_ADDR_LENGTH + XBX_SEQUENCE_ID_LENGTH)
                ++ Py.slice header (XBX_SOURCE_ADDR_LENGTH + XBX_SEQUENCE_ID_LENGTH)
                            (XBX_SOURCE_ADDR_LENGTH + XBX_SEQUENCE_ID_LENGTH + XBX_RFU_LENGTH)
                ++ eMsg ++ eMic)
        else
          localId ← gets bleLocalDeviceId;
          mret ([AD1_LENGTH; AD1_TYPE; AD1_VALUE; 11 + Py.len payload; 0xFF; 0x53; 0x02]
                ++ [XB_TYPE_UNENCRYPTED]
                ++ ConvertIntToList localId 2
                ++ ConvertIntToList (txSqn c) XBX_SEQUENCE_ID_LENGTH
                ++ [XBX_RFU_VALUE]
                ++ payload));
     TransmitAdvertisement xbAssigned;;
     UpdateNetworkConfigFile).
Proof.
  pose proof keeps_configs_IsEncryptedAdvEnabled.
  pose proof keeps_configs_UpdateNetworkConfigFile.
  pose proof keeps_configs_TransmitAdvertisement.
  unfold keeps_configs in *.
  repeat first [ respects_step
               | assumption
               | apply respects_call_encrypt; [typeclasses eauto|] ].
Qed.

(** C2. For a transmit credential whose counter holds a value from 0 to
    [2^32 - 1], the issuance that opens an assigned-form broadcast stores a
    value that is never 0: the counter plus one, except that the maximum
    [2^32 - 1] is followed by 1; nothing else of the slot changes, and the
    value is still the stored one when [SetXBAssignedPacket] ends. *)
Theorem issue_txSqn_skips_zero (st : state) (c : NetworkConfig)
    (destination payload : list Z) (payloadType : Z) :
  networkConfigs st !! selectedTxNetworkIndex st = Some c ->
  0 <= txSqn c <= 2 ^ 32 - 1 ->
  Py.len destination = 1 ->
  exists st1 c',
    issue_txSqn st = (Some tt, st1)
    /\ selectedTxNetworkIndex st1 = selectedTxNetworkIndex st
    /\ networkConfigs st1 !! selectedTxNetworkIndex st = Some c'
    /\ txSqn c' <> 0 /\ 1 <= txSqn c' <= 2 ^ 32 - 1
    /\ (txSqn c < 2 ^ 32 - 1 -> txSqn c' = txSqn c + 1)
    /\ (txSqn c = 2 ^ 32 - 1 -> txSqn c' = 1)
    /\ id c' = id c /\ key c' = key c /\ headerKey c' = headerKey c
    /\ networkConfigs (SetXBAssignedPacket destination payloadType payload st).2
         !! selectedTxNetworkIndex st = Some c'.
Proof.
  intros Hc Hrange Hlen.
  destruct (issue_txSqn_run st c Hc) as [Hrun Hstored].
  exists (issued st c). eexists. split; [exact Hrun|].
  split; [reflexivity|]. split; [exact Hstored|].
  cbn [txSqn set_txSqn id key headerKey].
  change XBX_SEQUENCE_ID_MAX_VALUE with (2 ^ 32).
  assert (Hnext : 1 <= (if 2 ^ 32 <=? txSqn c + 1 then 1 else txSqn c + 1) <= 2 ^ 32 - 1).
  { destruct (Z.leb_spec (2 ^ 32) (txSqn c + 1)); lia. }
  repeat split; try lia.
  - destruct (Z.leb_spec (2 ^ 32) (txSqn c + 1)); lia.
  - destruct (Z.leb_spec (2 ^ 32) (txSqn c + 1)); lia.
  - destruct destination as [|d0 [|? ?]]; unfold Py.len in Hlen; simpl in Hlen; try lia.
    unfold SetXBAssignedPacket.
    erewrite run_bind_Some by reflexivity.
    erewrite run_bind_Some by exact Hrun.
    match goal with
    | |- context [ (?m (issued st c)).2 ] =>
        assert (Hk : configs_kept (issued st c) (m (issued st c)).2)
          by apply keeps_configs_after_issue
    end.
    destruct Hk as (-> & _). exact Hstored.
Qed.

Lemma issue_txSqn_skips_zero_witness :
  exists st1 c',
    issue_txSqn st_a = (Some tt, st1)
    /\ selectedTxNetworkIndex st1 = selectedTxNetworkIndex st_a
    /\ networkConfigs st1 !! selectedTxNetworkIndex st_a = Some c'
    /\ txSqn c' <> 0 /\ 1 <= txSqn c' <= 2 ^ 32 - 1
    /\ (txSqn cfg_a < 2 ^ 32 - 1 -> txSqn c' = txSqn cfg_a + 1)
    /\ (txSqn cfg_a = 2 ^ 32 - 1 -> txSqn c' = 1)
    /\ id c' = id cfg_a /\ key c' = key cfg_a /\ headerKey c' = headerKey cfg_a
    /\ networkConfigs (SetXBAssignedPacket [5] 0x10 [1; 2; 3] st_a).2
         !! selectedTxNetworkIndex st_a = Some c'.
Proof.
  apply (issue_txSqn_skips_zero st_a cfg_a [5] [1; 2; 3] 0x10);
    [reflexivity | unfold cfg_a; simpl; lia | reflexivity].
Defined.

End Sequence.

(** ** The header nonce *)

Section HeaderNonce.

Import BleXim Samples.

Lemma fill_headerNonce_prefix (k : nat) (pm : list Z) :
  (k <= 13)%nat -> (k <= length pm)%nat ->
  foldl (fun headerNonce i =>
           hn ← headerNonce;
           x ← item pm (Z.of_nat i);
           Py.set_item hn (Z.of_nat i) x)
        (Some (Py.repeat 0 NONCE_LENGTH)) (seq 0 k)
  = Some (take k pm ++ replicate (13 - k) 0).
Proof.
  induction k as [|k IH]; intros Hk Hlen; [reflexivity|].
  rewrite seq_S, foldl_snoc, IH by lia. cbn [plus mbind option_bind].
  destruct (lookup_lt_is_Some_2 pm k ltac:(lia)) as [x Hx].
  unfold item. rewrite (proj2 (Z.ltb_ge _ _)) by lia. rewrite Nat2Z.id, Hx.
  cbn [mbind option_bind]. unfold Py.set_item, Py.len.
  rewrite length_app, length_take, length_replicate.
  rewrite (proj2 (Z.leb_le _ _)) by lia. rewrite (proj2 (Z.ltb_lt _ _)) by lia.
  cbn [andb]. rewrite Nat2Z.id. f_equal.
  rewrite (take_S_r pm k x Hx).
  replace (13 - k)%nat with (S (13 - S k)) by lia. cbn [replicate].
  rewrite insert_app_r_alt by (rewrite length_take; lia).
  rewrite length_take. replace (k - k `min` length pm)%nat with 0%nat by lia.
  cbn. now rewrite <- app_assoc.
Qed.

Lemma fill_headerNonce_spec (pm : list Z) :
  fill_headerNonce (Z.min NONCE_LENGTH (Py.len pm)) pm = Some (header_nonce_of pm).
Proof.
  unfold fill_headerNonce, header_nonce_of, NONCE_LENGTH, Py.len.
  rewrite fill_headerNonce_prefix by lia. f_equal.
  destruct (le_lt_dec 13 (length pm)) as [Hge|Hlt].
  - replace (Z.to_nat (13 `min` Z.of_nat (length pm))) with 13%nat by lia.
    rewrite take_app_le by lia. cbn [Nat.sub replicate]. now rewrite app_nil_r.
  - replace (Z.to_nat (13 `min` Z.of_nat (length pm))) with (length pm) by lia.
    rewrite firstn_all, take_app_ge by lia. f_equal.
    rewrite take_replicate. f_equal. lia.
Qed.

Lemma header_nonce_of_length pm : length (header_nonce_of pm) = 13%nat.
Proof.
  unfold header_nonce_of. rewrite length_take, length_app, length_replicate. lia.
Qed.

End HeaderNonce.

(** ** Decryption on receive *)

Section Receive.

Import BleXim Samples.

Lemma call_AesCcmDecrypt_returns k n d m st r st' :
  call_AesCcmDecrypt k n d m st = (Some r, st') ->
  AesCcmDecrypt k n d m = Some r
  /\ st' = with_trace (trace st ++ [Decrypted k n d m]) st.
Proof.
  unfold call_AesCcmDecrypt, emit, modify, lift. rewrite run_bind. cbv beta iota.
  intros H. injection H as H1 H2. auto.
Qed.

Lemma call_AesCcmEncrypt_returns k n d st r st' :
  call_AesCcmEncrypt k n d st = (Some r, st') ->
  AesCcmEncrypt k n d = Some r
  /\ st' = with_trace (trace st ++ [Encrypted k n d]) st.
Proof.
  unfold call_AesCcmEncrypt, emit, modify, lift. rewrite run_bind. cbv beta iota.
  intros H. injection H as H1 H2. auto.
Qed.

Lemma config_at_returns i st c st' :
  config_at i st = (Some c, st') -> networkConfigs st !! i = Some c /\ st' = st.
Proof. unfold config_at. intros H. injection H as H1 H2. auto. Qed.

Lemma lift_returns {A} (o : option A) st a st' :
  lift o st = (Some a, st') -> o = Some a /\ st' = st.
Proof. unfold lift. intros H. injection H as H1 H2. auto. Qed.

Lemma XDecrypt_returns st header pm h data isValid st' :
  XDecrypt header pm st = (Some (h, data, isValid), st') ->
  exists crx v0 d_rx v_rx,
    networkConfigs st !! selectedRxNetworkIndex st = Some crx
    /\ AesCcmDecrypt (headerKey crx) (header_nonce_of pm) header (Py.repeat 0 XBX_MIC_LENGTH)
       = Some (h, v0)
    /\ AesCcmDecrypt (key crx) (payload_nonce st header h) (ciphertext_of pm) (mic_of pm)
       = Some (d_rx, v_rx)
    /\ networkConfigs st' = networkConfigs st
    /\ selectedRxNetworkIndex st' = selectedRxNetworkIndex st
    /\ aesNonce st' = payload_nonce st header h
    /\ ((v_rx = true /\ data = d_rx /\ isValid = true
         /\ trace st' = trace st
              ++ [Decrypted (headerKey crx) (header_nonce_of pm) header
                            (Py.repeat 0 XBX_MIC_LENGTH);
                  Decrypted (key crx) (payload_nonce st header h)
                            (ciphertext_of pm) (mic_of pm)])
        \/ (v_rx = false
            /\ exists ctx,
                networkConfigs st !! selectedTxNetworkIndex st = Some ctx
                /\ AesCcmDecrypt (key ctx) (payload_nonce st header h)
                                 (ciphertext_of pm) (mic_of pm) = Some (data, isValid)
                /\ trace st' = trace st
                     ++ [Decrypted (headerKey crx) (header_nonce_of pm) header
                                   (Py.repeat 0 XBX_MIC_LENGTH);
                         Decrypted (key crx) (payload_nonce st header h)
                                   (ciphertext_of pm) (mic_of pm);
                         Decrypted (key ctx) (payload_nonce st header h)
                                   (ciphertext_of pm) (mic_of pm)])).
Proof.
  unfold XDecrypt. intros H.
  replace (Z.min NONCE_LENGTH (Py.len pm - XBX_MIC_LENGTH + XBX_MIC_LENGTH))
    with (Z.min NONCE_LENGTH (Py.len pm)) in H by (f_equal; lia).
  rewrite fill_headerNonce_spec in H.
  erewrite run_bind_Some in H by reflexivity.
  erewrite run_bind_Some in H by reflexivity.
  apply bind_returns in H as (crx & s1 & Hcrx & H).
  apply config_at_returns in Hcrx as [Hcrx ->].
  apply bind_returns in H as ([h0 v0] & s2 & Hhdr & H).
  apply call_AesCcmDecrypt_returns in Hhdr as [Hhdr ->].
  erewrite run_bind_Some in H by reflexivity.
  erewrite run_bind_Some in H by reflexivity.
  cbn [aesNonce with_aesNonce with_trace] in H.
  apply bind_returns in H as (crx' & s3 & Hcrx' & H).
  apply config_at_returns in Hcrx' as [Hcrx' ->].
  cbn [networkConfigs with_aesNonce with_trace] in Hcrx'.
  rewrite Hcrx in Hcrx'. injection Hcrx' as <-.
  apply bind_returns in H as ([d_rx v_rx] & s4 & Hrx & H).
  apply call_AesCcmDecrypt_returns in Hrx as [Hrx ->].
  cbn [trace with_aesNonce with_trace] in H.
  destruct v_rx; cbn [negb] in H.
  - erewrite run_bind_Some in H by reflexivity.
    injection H as <- <- <- <-.
    exists crx, v0, d_rx, true.
    repeat split; try assumption.
    left. repeat split. cbn [trace with_trace]. now rewrite <- app_assoc.
  - apply bind_returns in H as ([d_tx v_tx] & s5 & Htx & H).
    injection H as <- <- <- <-.
    erewrite run_bind_Some in Htx by reflexivity.
    apply bind_returns in Htx as (ctx & s6 & Hctx & Htx).
    apply config_at_returns in Hctx as [Hctx ->].
    erewrite run_bind_Some in Htx by reflexivity.
    apply call_AesCcmDecrypt_returns in Htx as [Htx ->].
    exists crx, v0, d_rx, false.
    repeat split; try assumption.
    right. split; [reflexivity|]. exists ctx.
    repeat split; try assumption.
    cbn [trace with_trace with_aesNonce]. now rewrite <- !app_assoc.
Qed.

(** C4. When [XDecrypt] returns, the payload was first decrypted with the
    receive slot's key; if that attempt did not authenticate it, the payload
    was decrypted once more, with the transmit slot's key, and with no other
    key; and the frame is reported valid exactly when one of the two keys
    authenticates it. *)
Theorem XDecrypt_retries_once_with_tx_key
    (st st' : state) (header payloadAndMic h data : list Z) (isValid : bool)
    (ctx : NetworkConfig) :
  XDecrypt header payloadAndMic st = (Some (h, data, isValid), st') ->
  networkConfigs st !! selectedTxNetworkIndex st = Some ctx ->
  exists crx,
    networkConfigs st !! selectedRxNetworkIndex st = Some crx
    /\ let nonce := payload_nonce st header h in
       let first_attempt :=
         Decrypted (key crx) nonce (ciphertext_of payloadAndMic) (mic_of payloadAndMic) in
       let retry :=
         Decrypted (key ctx) nonce (ciphertext_of payloadAndMic) (mic_of payloadAndMic) in
       let header_attempt :=
         Decrypted (headerKey crx) (header_nonce_of payloadAndMic) header
                   (Py.repeat 0 XBX_MIC_LENGTH) in
       (isValid = true <-> authenticates (key crx) nonce payloadAndMic
                           \/ authenticates (key ctx) nonce payloadAndMic)
       /\ ((authenticates (key crx) nonce payloadAndMic
            /\ trace st' = trace st ++ [header_attempt; first_attempt])
           \/ (~ authenticates (key crx) nonce payloadAndMic
               /\ trace st' = trace st ++ [header_attempt; first_attempt; retry])).
Proof.
  intros Hrun Hctx.
  apply XDecrypt_returns in Hrun
    as (crx & v0 & d_rx & v_rx & Hcrx & Hhdr & Hrx & _ & _ & _ & Hcases).
  exists crx. split; [exact Hcrx|]. cbv zeta.
  destruct Hcases as [(-> & -> & -> & Htrace) | (-> & ctx' & Hctx' & Htx & Htrace)].
  - split.
    + split; [intros _; left; exists d_rx; exact Hrx | reflexivity].
    + left. split; [exists d_rx; exact Hrx | exact Htrace].
  - rewrite Hctx in Hctx'. injection Hctx' as <-.
    assert (Hnot : ~ authenticates (key crx) (payload_nonce st header h) payloadAndMic).
    { intros [d Hd]. rewrite Hrx in Hd. discriminate. }
    split.
    + split.
      * intros ->. right. exists data. exact Htx.
      * intros [Hauth | [d Hd]]; [contradiction|].
        rewrite Htx in Hd. now injection Hd.
    + right. split; [exact Hnot | exact Htrace].
Qed.

Lemma XDecrypt_retries_once_with_tx_key_witness :
  exists crx,
    networkConfigs st_a !! selectedRxNetworkIndex st_a = Some crx
    /\ let header := [251; 103; 255; 169; 238; 191; 149] in
       let payloadAndMic := [12; 240; 249; 99; 151; 6; 34; 184; 172; 172] in
       let st' := (XDecrypt header payloadAndMic st_a).2 in
       let nonce := payload_nonce st_a header [0x34; 0x12; 42; 0; 0; 0; 0] in
       let first_attempt :=
         Decrypted (key crx) nonce (ciphertext_of payloadAndMic) (mic_of payloadAndMic) in
       let retry :=
         Decrypted (key cfg_a) nonce (ciphertext_of payloadAndMic) (mic_of payloadAndMic) in
       let header_attempt :=
         Decrypted (headerKey crx) (header_nonce_of payloadAndMic) header
                   (Py.repeat 0 XBX_MIC_LENGTH) in
       (true = true <-> authenticates (key crx) nonce payloadAndMic
                        \/ authenticates (key cfg_a) nonce payloadAndMic)
       /\ ((authenticates (key crx) nonce payloadAndMic
            /\ trace st' = trace st_a ++ [header_attempt; first_attempt])
           \/ (~ authenticates (key crx) nonce payloadAndMic
               /\ trace st' = trace st_a ++ [header_attempt; first_attempt; retry])).
Proof.
  apply (XDecrypt_retries_once_with_tx_key st_a
           (XDecrypt [251; 103; 255; 169; 238; 191; 149]
                     [12; 240; 249; 99; 151; 6; 34; 184; 172; 172] st_a).2
           [251; 103; 255; 169; 238; 191; 149]
           [12; 240; 249; 99; 151; 6; 34; 184; 172; 172]
           [0x34; 0x12; 42; 0; 0; 0; 0] [0x10; 5; 0; 1; 2; 3] true cfg_a);
    vm_compute; reflexivity.
Defined.

End Receive.

(** ** Encoding an encrypted assigned-form frame *)

Section Encode.

Import BleXim Samples.

Lemma issue_txSqn_returns st s1 :
  issue_txSqn st = (Some tt, s1) ->
  exists c0, networkConfigs st !! selectedTxNetworkIndex st = Some c0 /\ s1 = issued st c0.
Proof.
  intros H. destruct (networkConfigs st !! selectedTxNetworkIndex st) as [c0|] eqn:Hc.
  - exists c0. split; [reflexivity|].
    destruct (issue_txSqn_run st c0 Hc) as [Hrun _]. congruence.
  - unfold issue_txSqn in H. erewrite run_bind_Some in H by reflexivity.
    erewrite run_bind_None in H; [discriminate|].
    unfold config_at. rewrite Hc. reflexivity.
Qed.

Lemma IsEncryptedAdvEnabled_run destination st :
  IsEncryptedAdvEnabled destination st = (encrypted_adv_enabled destination st, st).
Proof.
  unfold IsEncryptedAdvEnabled, encrypted_adv_enabled.
  erewrite run_bind_Some by reflexivity. rewrite run_bind. unfold config_at.
  destruct (networkConfigs st !! selectedTxNetworkIndex st) as [c|]; [|reflexivity].
  cbn [mbind option_bind]. destruct (bool_decide (key c = NETWORK_KEY_NONE)); reflexivity.
Qed.

Lemma encrypted_adv_enabled_issued destination st c0 :
  networkConfigs st !! selectedTxNetworkIndex st = Some c0 ->
  encrypted_adv_enabled destination (issued st c0) = encrypted_adv_enabled destination st.
Proof.
  intros Hc. unfold encrypted_adv_enabled.
  destruct (issue_txSqn_run st c0 Hc) as [_ Hstored].
  change (selectedTxNetworkIndex (issued st c0)) with (selectedTxNetworkIndex st).
  rewrite Hstored, Hc. reflexivity.
Qed.

Lemma call_AesCcmDecrypt_run k n d m st :
  call_AesCcmDecrypt k n d m st
  = (AesCcmDecrypt k n d m, with_trace (trace st ++ [Decrypted k n d m]) st).
Proof. reflexivity. Qed.

Lemma call_AesCcmDecrypt_then {B} k n d m (f : list Z * bool -> M B) st :
  (forall a, grows_trace (f a)) ->
  exists more,
    trace ((call_AesCcmDecrypt k n d m ≫= f) st).2 = trace st ++ Decrypted k n d m :: more.
Proof.
  intros Hf. rewrite run_bind, call_AesCcmDecrypt_run.
  destruct (AesCcmDecrypt k n d m) as [a|].
  - destruct (Hf a (with_trace (trace st ++ [Decrypted k n d m]) st)) as [more Hmore].
    exists more. rewrite Hmore. cbn [trace with_trace]. now rewrite <- app_assoc.
  - exists []. reflexivity.
Qed.

(** C3. When [SetXBAssignedPacket] encodes an encrypted frame, its first
    cipher operation encrypts the inner payload under the application key,
    and its second encrypts the header under [headerKey] with, as nonce, the
    first 13 bytes (zero-padded when there are fewer) of the payload
    ciphertext and tag just produced; the advertised packet carries the
    encrypted header, the ciphertext and the tag. On receive, the first
    cipher operation of [XDecrypt] decrypts the header under the receive
    slot's [headerKey] with the nonce rebuilt in the same way from the
    received ciphertext and tag. The application key is the transmit slot's
    key, or the admin key while admin mode is set. *)
Theorem SetXBAssignedPacket_payload_then_header
    (st st' : state) (destination payload : list Z) (payloadType : Z) :
  SetXBAssignedPacket destination payloadType payload st = (Some tt, st') ->
  (IsEncryptedAdvEnabled destination st).1 = Some true ->
  (exists c d0 nonce eMsg eMic header unusedMic id0 fileops,
     networkConfigs st' !! selectedTxNetworkIndex st = Some c
     /\ destination = [d0] /\ item (id c) 0 = Some id0
     /\ let applicationKey := if adminMode st then adminKey st else key c in
        let plain := [payloadType] ++ ConvertIntToList d0 2 ++ payload in
        let clearHeader :=
          ConvertIntToList (bleLocalDeviceId st) 2
          ++ ConvertIntToList (txSqn c) XBX_SEQUENCE_ID_LENGTH ++ [0] in
        AesCcmEncrypt applicationKey nonce plain = Some (eMsg, eMic)
        /\ AesCcmEncrypt (headerKey c) (header_nonce_of (eMsg ++ eMic)) clearHeader
           = Some (header, unusedMic)
        /\ trace st'
           = trace st
             ++ [Encrypted applicationKey nonce plain;
                 Encrypted (headerKey c) (header_nonce_of (eMsg ++ eMic)) clearHeader;
                 Advertised
                   ([AD1_LENGTH; AD1_TYPE; AD1_VALUE; 15 + Py.len plain; 0xFF; 0x53; 0x02]
                    ++ [XB_TYPE_ENCRYPTED_FLAG + Z.land id0 XBX_NETWORK_ID_PARTIAL_ID_MASK]
                    ++ Py.slice_to header 2 ++ Py.slice header 2 6 ++ Py.slice header 6 7
                    ++ eMsg ++ eMic)]
             ++ map File fileops)
  /\ (forall (str : state) (rxHeader payloadAndMic : list Z) (crx : NetworkConfig),
        networkConfigs str !! selectedRxNetworkIndex str = Some crx ->
        exists more,
          trace (XDecrypt rxHeader payloadAndMic str).2
          = trace str
            ++ Decrypted (headerKey crx) (header_nonce_of payloadAndMic) rxHeader [0; 0; 0; 0]
            :: more).
Proof.
  intros Hrun Henabled. split.
  - unfold SetXBAssignedPacket in Hrun.
    apply bind_returns in Hrun as (destinationList & s0 & Hdest & Hrun).
    apply lift_returns in Hdest as [Hdest ->].
    destruct (Py.len destination =? 1) eqn:Hlen; [|discriminate].
    apply Z.eqb_eq in Hlen. unfold Py.len in Hlen.
    destruct destination as [|d0 [|? ?]]; simpl length in Hlen; try lia.
    cbn in Hdest. injection Hdest as <-.
    apply bind_returns in Hrun as ([] & s1 & Hissue & Hrun).
    apply issue_txSqn_returns in Hissue as (c0 & Hc0 & ->).
    destruct (issue_txSqn_run st c0 Hc0) as [_ Hstored].
    set (c := set_txSqn _ c0) in Hstored.
    erewrite run_bind_Some in Hrun by reflexivity.
    rewrite IsEncryptedAdvEnabled_run in Henabled. cbn [fst] in Henabled.
    erewrite run_bind_Some in Hrun
      by (rewrite IsEncryptedAdvEnabled_run, encrypted_adv_enabled_issued, Henabled
            by exact Hc0; reflexivity).
    erewrite run_bind_Some in Hrun by (apply config_at_run; exact Hstored).
    erewrite run_bind_Some in Hrun by reflexivity.
    assert (Hkey : bool_decide (key c = NETWORK_KEY_NONE) = false).
    { unfold encrypted_adv_enabled in Henabled. rewrite Hc0 in Henabled.
      cbn [mbind option_bind] in Henabled. change (key c) with (key c0).
      destruct (bool_decide (key c0 = NETWORK_KEY_NONE)); [discriminate|reflexivity]. }
    rewrite Hkey, orb_true_r in Hrun. cbn [andb negb] in Hrun.
    apply bind_returns in Hrun as (xbAssigned & s2 & Hbranch & Hrun).
    apply bind_returns in Hbranch as (applicationKey & s3 & Hkeysel & Hbranch).
    assert (Hsel : applicationKey = (if adminMode st then adminKey st else key c)
                   /\ s3 = issued st c0).
    { change (adminMode (issued st c0)) with (adminMode st) in Hkeysel.
      destruct (adminMode st); injection Hkeysel as <- <-; auto. }
    destruct Hsel as [-> ->].
    erewrite run_bind_Some in Hbranch by reflexivity.
    erewrite run_bind_Some in Hbranch by reflexivity.
    erewrite run_bind_Some in Hbranch by reflexivity.
    erewrite run_bind_Some in Hbranch by reflexivity.
    apply bind_returns in Hbranch as ([eMsg eMic] & s4 & Henc & Hbranch).
    apply call_AesCcmEncrypt_returns in Henc as [Henc ->].
    apply bind_returns in Hbranch as (id0 & s5 & Hid & Hbranch).
    apply lift_returns in Hid as [Hid ->].
    rewrite fill_headerNonce_spec in Hbranch.
    erewrite run_bind_Some in Hbranch by reflexivity.
    apply bind_returns in Hbranch as ([header unusedMic] & s6 & Hhdr & Hbranch).
    apply call_AesCcmEncrypt_returns in Hhdr as [Hhdr ->].
    injection Hbranch as <- <-.
    unfold TransmitAdvertisement in Hrun.
    erewrite run_bind_Some in Hrun by reflexivity.
    match type of Hrun with
    | UpdateNetworkConfigFile ?s = _ => set (sfile := s) in Hrun
    end.
    assert (Hfile : exists fileops,
               trace (UpdateNetworkConfigFile sfile).2 = trace sfile ++ map File fileops).
    { clear. generalize sfile. clear. intros s.
      unfold UpdateNetworkConfigFile. erewrite run_bind_Some by reflexivity.
      erewrite run_bind_Some by reflexivity.
      erewrite run_bind_Some by reflexivity.
      match goal with |- context [foldl ?f _ _ ?s0] => set (step := f); set (s1 := s0) end.
      assert (Hinit : exists ops, trace ((mret tt : M unit) s1).2
                                  = trace s ++ map File ops).
      { exists [OpenWrite (bleNetworkConfigFileName s)]. reflexivity. }
      revert Hinit. generalize (mret tt : M unit) as acc.
      generalize (networkConfigs s1) as cfgs.
      induction cfgs as [|cfg cfgs IH]; intros acc Hacc; [exact Hacc|].
      cbn [foldl]. apply IH. destruct Hacc as [ops Hops].
      unfold step at 1. rewrite run_bind.
      destruct (acc s1) as [[[]|] s2]; cbn [snd] in *; [|eauto].
      rewrite run_bind. unfold lift at 1. cbv beta iota.
      destruct (network_config_line cfg) as [line|]; cbn [snd]; [|eauto].
      exists (ops ++ [WriteLine (bleNetworkConfigFileName s) line]).
      unfold write_line. erewrite run_bind_Some by reflexivity.
      cbn [modify snd trace with_files with_trace].
      rewrite Hops, map_app, app_assoc. reflexivity. }
    destruct Hfile as [fileops Hfile]. rewrite Hrun in Hfile. cbn [snd] in Hfile.
    assert (Hcfg : configs_kept sfile (UpdateNetworkConfigFile sfile).2)
      by apply keeps_configs_UpdateNetworkConfigFile.
    rewrite Hrun in Hcfg. cbn [snd] in Hcfg. destruct Hcfg as (Hcfg & _ & _).
    exists c, d0, (aesNonce sfile), eMsg, eMic, header, unusedMic, id0, fileops.
    split; [rewrite Hcfg; exact Hstored|].
    split; [reflexivity|]. split; [exact Hid|]. cbv zeta.
    split; [exact Henc|]. split; [exact Hhdr|].
    rewrite Hfile. subst sfile. cbn [trace with_trace with_aesNonce].
    rewrite <- !app_assoc. reflexivity.
  - intros str rxHeader pm crx Hcrx. unfold XDecrypt.
    replace (Z.min NONCE_LENGTH (Py.len pm - XBX_MIC_LENGTH + XBX_MIC_LENGTH))
      with (Z.min NONCE_LENGTH (Py.len pm)) by (f_equal; lia).
    rewrite fill_headerNonce_spec.
    erewrite run_bind_Some by reflexivity.
    erewrite run_bind_Some by reflexivity.
    erewrite run_bind_Some by (apply config_at_run; exact Hcrx).
    apply call_AesCcmDecrypt_then. intros [h v].
    pose proof (fun k n d m => respects_call_decrypt trace_grows k n d m
                                 (respects_emit_trace _)).
    respects.
Qed.

Lemma SetXBAssignedPacket_payload_then_header_witness :
  let st := st_a in
  let st' := (SetXBAssignedPacket [5] 0x10 [1; 2; 3] st_a).2 in
  let destination := [5] in
  let payload := [1; 2; 3] in
  let payloadType := 0x10 in
  (exists c d0 nonce eMsg eMic header unusedMic id0 fileops,
     networkConfigs st' !! selectedTxNetworkIndex st = Some c
     /\ destination = [d0] /\ item (id c) 0 = Some id0
     /\ let applicationKey := if adminMode st then adminKey st else key c in
        let plain := [payloadType] ++ ConvertIntToList d0 2 ++ payload in
        let clearHeader :=
          ConvertIntToList (bleLocalDeviceId st) 2
          ++ ConvertIntToList (txSqn c) XBX_SEQUENCE_ID_LENGTH ++ [0] in
        AesCcmEncrypt applicationKey nonce plain = Some (eMsg, eMic)
        /\ AesCcmEncrypt (headerKey c) (header_nonce_of (eMsg ++ eMic)) clearHeader
           = Some (header, unusedMic)
        /\ trace st'
           = trace st
             ++ [Encrypted applicationKey nonce plain;
                 Encrypted (headerKey c) (header_nonce_of (eMsg ++ eMic)) clearHeader;
                 Advertised
                   ([AD1_LENGTH; AD1_TYPE; AD1_VALUE; 15 + Py.len plain; 0xFF; 0x53; 0x02]
                    ++ [XB_TYPE_ENCRYPTED_FLAG + Z.land id0 XBX_NETWORK_ID_PARTIAL_ID_MASK]
                    ++ Py.slice_to header 2 ++ Py.slice header 2 6 ++ Py.slice header 6 7
                    ++ eMsg ++ eMic)]
             ++ map File fileops)
  /\ (forall (str : state) (rxHeader payloadAndMic : list Z) (crx : NetworkConfig),
        networkConfigs str !! selectedRxNetworkIndex str = Some crx ->
        exists more,
          trace (XDecrypt rxHeader payloadAndMic str).2
          = trace str
            ++ Decrypted (headerKey crx) (header_nonce_of payloadAndMic) rxHeader [0; 0; 0; 0]
            :: more).
Proof.
  apply (SetXBAssignedPacket_payload_then_header st_a
           (SetXBAssignedPacket [5] 0x10 [1; 2; 3] st_a).2 [5] [1; 2; 3] 0x10);
    vm_compute; reflexivity.
Defined.

End Encode.

(** ** The receive slot's sequence counter *)

Section ReceiveCounter.

Import BleXim Samples.

Lemma keeps_configs_XDecrypt header pm : keeps_configs (XDecrypt header pm).
Proof.
  pose proof (fun k n d m => respects_call_decrypt configs_kept k n d m
                               (respects_emit_configs _)).
  unfold XDecrypt. respects.
Qed.

Lemma scan_response_counter (st : state) (this_field : list Z) (c : Z) :
  rx_sqn st = Some c ->
  let r := my_ble_evt_gap_scan_response_encrypted this_field st in
  selectedRxNetworkIndex r.2 = selectedRxNetworkIndex st
  /\ match r.1 with
     | Some (Some rxSqnTemp) => rx_sqn r.2 = Some (Z.max c rxSqnTemp)
     | _ => rx_sqn r.2 = Some c
     end.
Proof.
  intros Hc. cbv zeta. unfold my_ble_evt_gap_scan_response_encrypted.
  unfold rx_sqn in Hc.
  destruct (networkConfigs st !! selectedRxNetworkIndex st) as [cfg|] eqn:Hcfg;
    [|discriminate].
  cbn in Hc. injection Hc as <-.
  assert (Hsame : rx_sqn st = Some (txSqn cfg)) by (unfold rx_sqn; now rewrite Hcfg).
  rewrite run_lift_bind.
  destruct (item this_field XBX_NETWORK_ID_OFFSET) as [t|]; [|cbn; auto].
  destruct (negb (Z.land t XB_TYPE_ENCRYPTED_FLAG =? 0)); [|cbn; auto].
  rewrite run_gets_bind, run_config_at_bind, Hcfg, run_lift_bind.
  destruct (item (id cfg) 0) as [id0|]; [|cbn; auto].
  destruct (Z.land t XBX_NETWORK_ID_PARTIAL_ID_MASK
            =? Z.land id0 XBX_NETWORK_ID_PARTIAL_ID_MASK); [|cbn; auto].
  rewrite run_bind.
  match goal with |- context [XDecrypt ?h ?p st] =>
    pose proof (keeps_configs_XDecrypt h p st) as (Hk1 & Hk2 & Hk3);
    destruct (XDecrypt h p st) as [[[[header decryptedData] isValid]|] s1]
  end; cbn [snd] in Hk1, Hk2, Hk3.
  2: { cbn [fst snd]. split; [exact Hk3|]. unfold rx_sqn. now rewrite Hk1, Hk3, Hcfg. }
  assert (Hs1 : rx_sqn s1 = Some (txSqn cfg))
    by (unfold rx_sqn; rewrite Hk1, Hk3, Hcfg; reflexivity).
  destruct isValid; [|cbn [fst snd]; auto].
  rewrite run_lift_bind.
  destruct (GetPayloadTypeText _ _); [|cbn [fst snd]; auto].
  rewrite run_config_at_bind, Hk1, Hcfg.
  set (rxSqnTemp := ConvertListToInt _).
  destruct (Z.ltb_spec (txSqn cfg) rxSqnTemp) as [Hlt|Hge].
  - erewrite run_bind_Some
      by (apply assign_txSqn_run; rewrite Hk1; exact Hcfg).
    rewrite run_ret. cbn [fst snd]. cbn [selectedRxNetworkIndex with_networkConfigs].
    split; [exact Hk3|]. unfold rx_sqn.
    cbn [networkConfigs selectedRxNetworkIndex with_networkConfigs].
    rewrite Hk3, Hk1, list_lookup_insert_eq
      by (eapply lookup_lt_Some; exact Hcfg).
    cbn. f_equal. lia.
  - erewrite run_bind_Some by reflexivity. rewrite run_ret. cbn [fst snd].
    split; [exact Hk3|]. rewrite Hs1. f_equal. lia.
Qed.

(** Handling an encrypted advertisement never lowers the receive slot's
    sequence counter, whatever the frame: with a number returned the counter
    becomes the larger of its old value and that number, otherwise it is
    unchanged. After any list of frames the counter is the maximum of its
    first value and the numbers the handler returned. *)
Theorem rx_sqn_is_running_maximum (st : state) (c : Z) (frames : list (list Z)) :
  rx_sqn st = Some c ->
  (forall this_field,
     let r := my_ble_evt_gap_scan_response_encrypted this_field st in
     exists c', rx_sqn r.2 = Some c' /\ c <= c'
                /\ (forall rxSqnTemp, r.1 = Some (Some rxSqnTemp) ->
                      (c < rxSqnTemp -> c' = rxSqnTemp) /\ (rxSqnTemp <= c -> c' = c))
                /\ (r.1 = Some None -> c' = c))
  /\ rx_sqn (scan_frames frames st).2 = Some (foldl Z.max c (scan_frames frames st).1).
Proof.
  intros Hc. split.
  - intros this_field. cbv zeta.
    destruct (scan_response_counter st this_field c Hc) as [_ H].
    destruct (my_ble_evt_gap_scan_response_encrypted this_field st) as [[[s|]|] s1];
      cbn [fst snd] in *.
    + exists (Z.max c s). split; [exact H|]. split; [lia|]. split.
      * intros ? [= <-]. lia.
      * discriminate.
    + exists c. split; [exact H|]. split; [lia|]. split; [discriminate|reflexivity].
    + exists c. split; [exact H|]. split; [lia|]. split; discriminate.
  - unfold scan_frames.
    assert (Hgen : forall sqns s0 c0,
               rx_sqn s0 = Some (foldl Z.max c0 sqns) ->
               let out := foldl (fun '(sqns, st) this_field =>
                            let r := my_ble_evt_gap_scan_response_encrypted this_field st in
                            (sqns ++ match r.1 with Some (Some sqn) => [sqn] | _ => [] end,
                             r.2)) (sqns, s0) frames in
               rx_sqn out.2 = Some (foldl Z.max c0 out.1)).
    { induction frames as [|f fs IH]; intros sqns s0 c0 H0; [exact H0|].
      cbn [foldl]. apply IH.
      destruct (scan_response_counter s0 f _ H0) as [_ H].
      destruct (my_ble_evt_gap_scan_response_encrypted f s0) as [[[s|]|] s1];
        cbn [fst snd] in *; rewrite ?app_nil_r; try exact H.
      rewrite foldl_snoc. exact H. }
    apply (Hgen [] st c). exact Hc.
Qed.

Lemma rx_sqn_is_running_maximum_witness :
  (forall this_field,
     let r := my_ble_evt_gap_scan_response_encrypted this_field st_b in
     exists c', rx_sqn r.2 = Some c' /\ 41 <= c'
                /\ (forall rxSqnTemp, r.1 = Some (Some rxSqnTemp) ->
                      (41 < rxSqnTemp -> c' = rxSqnTemp) /\ (rxSqnTemp <= 41 -> c' = 41))
                /\ (r.1 = Some None -> c' = 41))
  /\ rx_sqn (scan_frames [frame_a; frame_a] st_b).2
     = Some (foldl Z.max 41 (scan_frames [frame_a; frame_a] st_b).1).
Proof.
  apply (rx_sqn_is_running_maximum st_b 41 [frame_a; frame_a]). vm_compute. reflexivity.
Defined.

(** The sample frame is authenticated by the peer and raises its counter
    from 41 to the frame's sequence number 42. *)
Example scan_response_sample :
  let r := my_ble_evt_gap_scan_response_encrypted frame_a st_b in
  r.1 = Some (Some 42) /\ rx_sqn st_b = Some 41 /\ rx_sqn r.2 = Some 42.
Proof. vm_compute. auto. Qed.

(** What the handler does with a frame that [XDecrypt] authenticates, by
    what [GetPayloadTypeText] makes of it. *)
Lemma scan_response_authenticated
    (st st1 : state) (this_field header decryptedData : list Z) (t id0 : Z)
    (c : NetworkConfig) :
  item this_field XBX_NETWORK_ID_OFFSET = Some t ->
  Z.land t XB_TYPE_ENCRYPTED_FLAG <> 0 ->
  networkConfigs st !! selectedRxNetworkIndex st = Some c ->
  item (id c) 0 = Some id0 ->
  Z.land t XBX_NETWORK_ID_PARTIAL_ID_MASK = Z.land id0 XBX_NETWORK_ID_PARTIAL_ID_MASK ->
  XDecrypt
    (Py.slice this_field XBX_SOURCE_ADDR_OFFSET
       (XBX_SOURCE_ADDR_OFFSET
        + (XBX_SOURCE_ADDR_LENGTH + XBX_SEQUENCE_ID_LENGTH + XBX_RFU_LENGTH)))
    (Py.slice_from this_field XBX_PAYLOAD_AND_MIC_OFFSET) st
  = (Some (header, decryptedData, true), st1) ->
  let rxSqnTemp :=
    ConvertListToInt
      (Py.slice header XBX_SOURCE_ADDR_LENGTH
         (XBX_SOURCE_ADDR_LENGTH + XBX_SEQUENCE_ID_LENGTH)) in
  let r := my_ble_evt_gap_scan_response_encrypted this_field st in
  rx_sqn st = Some (txSqn c)
  /\ match GetPayloadTypeText
             (Py.slice this_field XB_PACKET_TYPE_OFFSET (XB_PACKET_TYPE_OFFSET + 2))
             (Py.slice_from decryptedData 0) with
     | Some _ =>
         r.1 = Some (Some rxSqnTemp)
         /\ rx_sqn r.2 = Some (Z.max (txSqn c) rxSqnTemp)
     | None =>
         r.1 = None
         /\ rx_sqn r.2 = Some (txSqn c)
     end.
Proof.
  intros Ht Hflag Hc Hid Hnet Hdec rxSqnTemp r.
  assert (Hold : rx_sqn st = Some (txSqn c)) by (unfold rx_sqn; now rewrite Hc).
  split; [exact Hold|].
  pose proof (keeps_configs_XDecrypt
                (Py.slice this_field XBX_SOURCE_ADDR_OFFSET
                   (XBX_SOURCE_ADDR_OFFSET
                    + (XBX_SOURCE_ADDR_LENGTH + XBX_SEQUENCE_ID_LENGTH + XBX_RFU_LENGTH)))
                (Py.slice_from this_field XBX_PAYLOAD_AND_MIC_OFFSET) st) as Hkept.
  rewrite Hdec in Hkept. cbn [snd] in Hkept. destruct Hkept as (Hk1 & Hk2 & Hk3).
  assert (Hs1 : rx_sqn st1 = Some (txSqn c)) by (unfold rx_sqn; now rewrite Hk1, Hk3, Hc).
  subst r. unfold my_ble_evt_gap_scan_response_encrypted.
  rewrite run_lift_bind, Ht.
  rewrite (proj2 (Z.eqb_neq _ 0) Hflag). cbn [negb].
  rewrite run_gets_bind, run_config_at_bind, Hc, run_lift_bind, Hid.
  rewrite (proj2 (Z.eqb_eq _ _) Hnet).
  rewrite run_bind, Hdec. cbv iota beta. cbn [fst snd].
  rewrite run_lift_bind.
  destruct (GetPayloadTypeText _ _) as [logTextPayloadType|].
  - rewrite run_config_at_bind, Hk1, Hc. fold rxSqnTemp.
    destruct (Z.ltb_spec (txSqn c) rxSqnTemp) as [Hlt|Hge].
    + erewrite run_bind_Some
        by (apply assign_txSqn_run; rewrite Hk1; exact Hc).
      rewrite run_ret. cbn [fst snd]. split; [reflexivity|].
      unfold rx_sqn. cbn [networkConfigs selectedRxNetworkIndex with_networkConfigs].
      rewrite Hk3, Hk1, list_lookup_insert_eq by (eapply lookup_lt_Some; exact Hc).
      cbn. f_equal. lia.
    + erewrite run_bind_Some by reflexivity. rewrite run_ret. cbn [fst snd].
      split; [reflexivity|]. rewrite Hs1. f_equal. lia.
  - cbn [fst snd]. split; [reflexivity|exact Hs1].
Qed.

(** For a frame whose type byte carries the encrypted flag,
    [GetPayloadTypeText] raises exactly on a payload of type
    [ENCRYPTED_PACKET_TYPE_BOOTLOAD] that ends before its device-type byte,
    [payload[1 + XBOOT_DEVICE_TYPE_OFFSET]]. *)
Lemma GetPayloadTypeText_raises (packetTypeList payload : list Z) (t0 : Z) :
  item packetTypeList 0 = Some t0 ->
  Z.land t0 XB_TYPE_ENCRYPTED_FLAG <> 0 ->
  GetPayloadTypeText packetTypeList payload = None
  <-> item payload 0 = Some ENCRYPTED_PACKET_TYPE_BOOTLOAD
      /\ Py.len payload <= 1 + XBOOT_DEVICE_TYPE_OFFSET.
Proof.
  intros Ht0 Hflag. destruct packetTypeList as [|a l]; [discriminate|].
  cbn in Ht0. injection Ht0 as ->.
  unfold GetPayloadTypeText.
  assert (Hlegacy : forall b, Z.land b XB_TYPE_ENCRYPTED_FLAG = 0 ->
                     forall k, bool_decide (t0 :: l = b :: k) = false).
  { intros b Hb k. apply bool_decide_eq_false. intros [= -> _]. contradiction. }
  unfold PACKET_TYPE_XB1, PACKET_TYPE_XB2, PACKET_TYPE_XBL, PACKET_TYPE_XSENSOR_MOTION,
    PACKET_TYPE_XSENSOR_LUX.
  rewrite !Hlegacy by reflexivity. cbv zeta.
  change (item (t0 :: l) 0) with (Some t0). cbn [mbind option_bind].
  rewrite (proj2 (Z.eqb_neq _ 0) Hflag). cbn [negb]. rewrite orb_true_r.
  destruct payload as [|p0 rest].
  { cbn. split; [discriminate|intros [? _]; discriminate]. }
  replace (0 <? Py.len (p0 :: rest)) with true
    by (symmetry; apply Z.ltb_lt; unfold Py.len; cbn [length]; lia).
  cbn [mbind option_bind]. change (item (p0 :: rest) 0) with (Some p0).
  cbn [mbind option_bind].
  unfold ENCRYPTED_PACKET_TYPE_XB1, ENCRYPTED_PACKET_TYPE_XB2, ENCRYPTED_PACKET_TYPE_XDEV_INFO,
    ENCRYPTED_PACKET_TYPE_XGROUP, ENCRYPTED_PACKET_TYPE_LIGHT_CONTROL,
    ENCRYPTED_PACKET_TYPE_RECALL_SCENE, ENCRYPTED_PACKET_TYPE_INDICATE,
    ENCRYPTED_PACKET_TYPE_SET_CONNECTABLE, ENCRYPTED_PACKET_TYPE_REQUEST_ADV,
    ENCRYPTED_PACKET_TYPE_BOOTLOAD, ENCRYPTED_PACKET_TYPE_SENSORS_ALL, XBOOT_DEVICE_TYPE_OFFSET.
  repeat match goal with
  | |- context [p0 =? ?k] =>
      destruct (Z.eqb_spec p0 k) as [->|?];
      [cbn; try (split; [discriminate|intros [[=] _]])|]
  end.
  all: try (cbn; split; [discriminate|intros [[=] _]; congruence]).
  - destruct rest as [|p1 rest]; [cbn; split; [discriminate|intros [[=] _]]|].
    replace (1 <? Py.len (128 :: p1 :: rest)) with true
      by (symmetry; apply Z.ltb_lt; unfold Py.len; cbn [length]; lia).
    change ((128 :: p1 :: rest) !! Z.to_nat 1) with (Some p1). cbn [mbind option_bind].
    split; [|intros [[=] _]].
    destruct (p1 =? _); [discriminate|]. destruct (p1 =? _); discriminate.
  - destruct rest as [|a [|b [|d rest]]].
    1-3: cbn; split; [intros _; split; [reflexivity|unfold Py.len; cbn [length]; lia]
                     |reflexivity].
    change (item (15 :: a :: b :: d :: rest) (1 + 2)) with (Some d).
    cbn [mbind option_bind]. split.
    + destruct (Z.land d 128 =? 0); discriminate.
    + intros [_ Hlen]. unfold Py.len in Hlen. cbn [length] in Hlen. lia.
Qed.

Lemma packet_type_first (this_field : list Z) (t : Z) :
  item this_field XBX_NETWORK_ID_OFFSET = Some t ->
  item (Py.slice this_field XB_PACKET_TYPE_OFFSET (XB_PACKET_TYPE_OFFSET + 2)) 0 = Some t.
Proof.
  change XBX_NETWORK_ID_OFFSET with 2. change XB_PACKET_TYPE_OFFSET with 2.
  change (2 + 2) with 4. unfold item. cbn [Z.ltb Z.compare Z.to_nat Pos.to_nat Pos.iter_op Nat.add].
  intros Ht. pose proof (lookup_lt_Some _ _ _ Ht) as Hlen.
  unfold Py.slice, Py.norm. cbn [Z.ltb Z.compare].
  rewrite lookup_take_lt by lia. rewrite lookup_drop.
  rewrite Z.min_l by lia. exact Ht.
Qed.

(** C10, as the code has it. For a frame flagged encrypted whose network
    bits are those of the receive slot and which [XDecrypt] authenticates
    ([isValid = True]), the number the handler takes is the sequence field
    of the decrypted header. The handler returns that number and the
    receive slot's counter becomes the larger of its old value and the
    number (raised to the number when it exceeds the counter, unchanged
    otherwise), unless the decrypted payload is of type
    [ENCRYPTED_PACKET_TYPE_BOOTLOAD] and ends before its device-type byte:
    then [GetPayloadTypeText] raises, the handler raises with it before the
    update, and the counter is left as it was, also when the number exceeds
    it. *)
Theorem authenticated_frame_counter
    (st st1 : state) (this_field header decryptedData : list Z) (t id0 : Z)
    (c : NetworkConfig) :
  item this_field XBX_NETWORK_ID_OFFSET = Some t ->
  Z.land t XB_TYPE_ENCRYPTED_FLAG <> 0 ->
  networkConfigs st !! selectedRxNetworkIndex st = Some c ->
  item (id c) 0 = Some id0 ->
  Z.land t XBX_NETWORK_ID_PARTIAL_ID_MASK = Z.land id0 XBX_NETWORK_ID_PARTIAL_ID_MASK ->
  XDecrypt
    (Py.slice this_field XBX_SOURCE_ADDR_OFFSET
       (XBX_SOURCE_ADDR_OFFSET
        + (XBX_SOURCE_ADDR_LENGTH + XBX_SEQUENCE_ID_LENGTH + XBX_RFU_LENGTH)))
    (Py.slice_from this_field XBX_PAYLOAD_AND_MIC_OFFSET) st
  = (Some (header, decryptedData, true), st1) ->
  let rxSqnTemp :=
    ConvertListToInt
      (Py.slice header XBX_SOURCE_ADDR_LENGTH
         (XBX_SOURCE_ADDR_LENGTH + XBX_SEQUENCE_ID_LENGTH)) in
  let cut_short :=
    item decryptedData 0 = Some ENCRYPTED_PACKET_TYPE_BOOTLOAD
    /\ Py.len decryptedData <= 1 + XBOOT_DEVICE_TYPE_OFFSET in
  let r := my_ble_evt_gap_scan_response_encrypted this_field st in
  rx_sqn st = Some (txSqn c)
  /\ (~ cut_short ->
      r.1 = Some (Some rxSqnTemp)
      /\ rx_sqn r.2 = Some (Z.max (txSqn c) rxSqnTemp))
  /\ (cut_short ->
      r.1 = None
      /\ rx_sqn r.2 = Some (txSqn c)).
Proof.
  intros Ht Hflag Hc Hid Hnet Hdec rxSqnTemp cut_short r.
  destruct (scan_response_authenticated st st1 this_field header decryptedData t id0 c
              Ht Hflag Hc Hid Hnet Hdec) as [Hold Hrun].
  fold rxSqnTemp in Hrun. fold r in Hrun.
  pose proof (GetPayloadTypeText_raises
                (Py.slice this_field XB_PACKET_TYPE_OFFSET (XB_PACKET_TYPE_OFFSET + 2))
                (Py.slice_from decryptedData 0) t (packet_type_first this_field t Ht) Hflag)
    as Hraises.
  assert (Hwhole : Py.slice_from decryptedData 0 = decryptedData).
  { unfold Py.slice_from, Py.norm. cbn [Z.ltb Z.compare].
    rewrite Z.min_l by lia. reflexivity. }
  rewrite Hwhole in Hraises, Hrun. fold cut_short in Hraises.
  split; [exact Hold|]. split.
  - intros Hlong. destruct (GetPayloadTypeText _ decryptedData); [exact Hrun|].
    exfalso. apply Hlong, Hraises. reflexivity.
  - intros Hshort. apply Hraises in Hshort. rewrite Hshort in Hrun. exact Hrun.
Qed.

Lemma authenticated_frame_counter_witness :
  let r := my_ble_evt_gap_scan_response_encrypted frame_boot st_b in
  (XDecrypt (Py.slice frame_boot 3 10) (Py.slice_from frame_boot 10) st_b).1
  = Some ([0x34; 0x12; 42; 0; 0; 0; 0], [ENCRYPTED_PACKET_TYPE_BOOTLOAD; 5; 0], true)
  /\ ConvertListToInt (Py.slice [0x34; 0x12; 42; 0; 0; 0; 0] 2 6) = 42
  /\ rx_sqn st_b = Some 41
  /\ r.1 = None
  /\ rx_sqn r.2 = Some 41.
Proof.
  cbv zeta.
  assert (Hfst : (XDecrypt (Py.slice frame_boot 3 10) (Py.slice_from frame_boot 10) st_b).1
                 = Some ([0x34; 0x12; 42; 0; 0; 0; 0],
                         [ENCRYPTED_PACKET_TYPE_BOOTLOAD; 5; 0], true))
    by (vm_compute; reflexivity).
  split; [exact Hfst|]. split; [reflexivity|].
  destruct (XDecrypt (Py.slice frame_boot 3 10) (Py.slice_from frame_boot 10) st_b)
    as [result st1] eqn:Hdec.
  cbn [fst] in Hfst. subst result.
  destruct (authenticated_frame_counter st_b st1 frame_boot [0x34; 0x12; 42; 0; 0; 0; 0]
              [ENCRYPTED_PACKET_TYPE_BOOTLOAD; 5; 0] 133 0x25 cfg_a
              eq_refl ltac:(discriminate) eq_refl eq_refl eq_refl Hdec)
    as (Hold & _ & Hshort).
  split; [exact Hold|]. apply Hshort. split; [reflexivity|discriminate].
Defined.

End ReceiveCounter.

(** ** The group table *)

Section Groups.

Import BleXim Samples.

Example group_segments_sample :
  let d1 := (ProcessXBeaconGroupFields (new_device [1; 2; 3; 4; 5; 6] DEVICE_TYPE_XIM)
               [0; 1; 0; 2; 0; 3; 0; 4; 0; 5; 0]).2 in
  let d2 := (ProcessXBeaconGroupFields d1
               [0x85; 6; 0; 7; 0; 8; 0; 9; 0; 10; 0; 11; 0; 12; 0; 13; 0; 14; 0; 15; 0;
                0xFF; 0xFF]).2 in
  groups d1 = [Some 1; Some 2; Some 3; Some 4; Some 5; None; None; None; None; None; None;
               None; None; None; None; None]
  /\ receivedAllGroups d1 = false
  /\ groups d2 = [Some 1; Some 2; Some 3; Some 4; Some 5; Some 6; Some 7; Some 8; Some 9;
                  Some 10; Some 11; Some 12; Some 13; Some 14; Some 15; Some 0xFFFF]
  /\ receivedAllGroups d2 = true.
Proof. vm_compute. auto. Qed.

Example group_last_segment_with_gap :
  let d := (ProcessXBeaconGroupFields (new_device [1; 2; 3; 4; 5; 6] DEVICE_TYPE_XIM)
              [0x85; 6; 0; 7; 0]).2 in
  groups d = [None; None; None; None; None; Some 6; Some 7; Some 0xFFFF; Some 0xFFFF;
              Some 0xFFFF; Some 0xFFFF; Some 0xFFFF; Some 0xFFFF; Some 0xFFFF; Some 0xFFFF;
              Some 0xFFFF]
  /\ receivedAllGroups d = false.
Proof. vm_compute. auto. Qed.

Lemma header_flag_table :
  forallb (fun h =>
             (Z.land h (Z.lnot XGROUP_LAST_PACKET_FLAG) =? (if h <? 128 then h else h - 128))
             && Bool.eqb (Z.land h XGROUP_LAST_PACKET_FLAG =? 0) (h <? 128))
          (map Z.of_nat (seq 0 256)) = true.
Proof. vm_compute. reflexivity. Qed.

Lemma header_flag (h : Z) :
  0 <= h < 256 ->
  Z.land h (Z.lnot XGROUP_LAST_PACKET_FLAG) = (if h <? 128 then h else h - 128)
  /\ (Z.land h XGROUP_LAST_PACKET_FLAG =? 0) = (h <? 128).
Proof.
  intros Hh. pose proof header_flag_table as Ht.
  rewrite forallb_forall in Ht. specialize (Ht h).
  assert (Hin : In h (map Z.of_nat (seq 0 256))).
  { apply in_map_iff. exists (Z.to_nat h). split; [lia|]. apply in_seq. lia. }
  apply Ht in Hin. apply andb_true_iff in Hin as [H1 H2].
  apply Z.eqb_eq in H1. apply Bool.eqb_prop in H2. auto.
Qed.

(** The slots after the loop: those of the segment hold a value, the others
    are as before. *)
Lemma write_group_slots_spec (off : nat) (k : nat) (field : list Z) (gs : list (option Z)) :
  let gs' := write_group_slots (Z.of_nat off) (Z.of_nat k) field gs in
  length gs' = length gs
  /\ forall j : nat,
       ((off <= j < off + k)%nat -> (j < length gs)%nat -> exists v, gs' !! j = Some (Some v))
       /\ (~ (off <= j < off + k)%nat -> gs' !! j = gs !! j).
Proof.
  cbv zeta. unfold write_group_slots. rewrite Nat2Z.id.
  induction k as [|k IH].
  - split; [reflexivity|]. intros j. split; [lia|reflexivity].
  - rewrite seq_S, foldl_snoc. cbn [plus].
    destruct IH as [Hlen IH].
    set (gs' := foldl _ gs (seq 0 k)) in *.
    unfold Py.len. rewrite Hlen.
    destruct (Z.ltb_spec (Z.of_nat off + Z.of_nat k) (Z.of_nat (length gs))) as [Hin|Hout].
    + split; [now rewrite length_insert|].
      intros j. replace (Z.to_nat (Z.of_nat off + Z.of_nat k)) with (off + k)%nat by lia.
      destruct (decide (j = off + k)%nat) as [->|Hne].
      * split; [|lia]. intros _ _. eexists.
        apply list_lookup_insert_eq. lia.
      * rewrite list_lookup_insert_ne by congruence. split.
        -- intros Hj Hjlen. apply IH; [lia|assumption].
        -- intros Hj. apply IH. lia.
    + split; [exact Hlen|]. intros j. split.
      * intros Hj Hjlen. apply IH; [lia|assumption].
      * intros Hj. apply IH. lia.
Qed.

Lemma segment_not_last (device : BleDevice) (header : Z) (slots : list Z) :
  0 <= header < 128 ->
  let off := Z.to_nat header in
  let n := Z.to_nat (Py.len slots / 2) in
  let d' := (ProcessXBeaconGroupFields device (header :: slots)).2 in
  length (groups d') = length (groups device)
  /\ receivedAllGroups d' = receivedAllGroups device
  /\ forall j : nat,
       ((off <= j < off + n)%nat -> (j < length (groups device))%nat ->
        exists v, groups d' !! j = Some (Some v))
       /\ (~ (off <= j < off + n)%nat -> groups d' !! j = groups device !! j).
Proof.
  intros Hh. cbv zeta. unfold ProcessXBeaconGroupFields.
  change (item (header :: slots) XBGROUP_HEADER_OFFSET) with (Some header).
  destruct (header_flag header ltac:(lia)) as [Hoff Hflag].
  rewrite Hoff, Hflag. rewrite (proj2 (Z.ltb_lt header 128)) by lia.
  cbn [negb snd groups receivedAllGroups set_groups set_requestGroupAttempts
       set_bootloaderMode].
  replace (Py.len (header :: slots) - XBGROUP_HEADER_LENGTH) with (Py.len slots)
    by (unfold Py.len, XBGROUP_HEADER_LENGTH; cbn [length]; lia).
  pose proof (write_group_slots_spec (Z.to_nat header) (Z.to_nat (Py.len slots / 2))
                (header :: slots) (groups device)) as Hw.
  cbv zeta in Hw. rewrite !Z2Nat.id in Hw
    by (try lia; apply Z.div_pos; unfold Py.len; lia).
  destruct Hw as [Hlen Hw]. split; [exact Hlen|]. split; [reflexivity|]. exact Hw.
Qed.

Lemma segment_last (device : BleDevice) (header : Z) (slots : list Z) :
  length (groups device) = 16%nat ->
  128 <= header < 256 ->
  let off := Z.to_nat (header - 128) in
  let n := Z.to_nat (Py.len slots / 2) in
  let d' := (ProcessXBeaconGroupFields device (header :: slots)).2 in
  length (groups d') = 16%nat
  /\ (forall j : nat, (off + n <= j < 16)%nat ->
        groups d' !! j = Some (Some GROUP_MEMBER_UNASSIGNED))
  /\ (forall j : nat, (off <= j < off + n)%nat -> (j < 16)%nat ->
        exists v, groups d' !! j = Some (Some v))
  /\ (forall j : nat, (j < off)%nat -> (j < 16)%nat ->
        groups d' !! j = groups device !! j)
  /\ (receivedAllGroups d' = true
      <-> forall j : nat, (j < off)%nat -> (j < 16)%nat -> groups device !! j <> Some None).
Proof.
  intros Hlen16 Hh. cbv zeta. unfold ProcessXBeaconGroupFields.
  change (item (header :: slots) XBGROUP_HEADER_OFFSET) with (Some header).
  destruct (header_flag header ltac:(lia)) as [Hoff Hflag].
  rewrite Hoff, Hflag. rewrite (proj2 (Z.ltb_ge header 128)) by lia.
  cbn [negb snd groups receivedAllGroups set_groups set_requestGroupAttempts
       set_bootloaderMode set_receivedAllGroups].
  replace (Py.len (header :: slots) - XBGROUP_HEADER_LENGTH) with (Py.len slots)
    by (unfold Py.len, XBGROUP_HEADER_LENGTH; cbn [length]; lia).
  assert (Hn : 0 <= Py.len slots / GROUP_MEMBER_LENGTH)
    by (apply Z.div_pos; unfold Py.len, GROUP_MEMBER_LENGTH; lia).
  change GROUP_MEMBER_LENGTH with 2 in *.
  pose proof (write_group_slots_spec (Z.to_nat (header - 128))
                (Z.to_nat (Py.len slots / 2)) (header :: slots) (groups device)) as Hw.
  cbv zeta in Hw. rewrite !Z2Nat.id in Hw by lia.
  set (gs' := write_group_slots _ _ _ _) in *.
  destruct Hw as [Hlen Hw]. rewrite Hlen16 in Hlen.
  set (off := Z.to_nat (header - 128)) in *.
  set (n := Z.to_nat (Py.len slots / 2)) in *.
  unfold Py.slice_assign_from, Py.slice_to, Py.norm, Py.repeat, NUM_GROUPS.
  rewrite (proj2 (Z.ltb_ge _ 0)) by lia.
  set (k := Z.to_nat ((header - 128 + Py.len slots / 2) `min` Z.of_nat (length gs'))).
  assert (Hk : k = Nat.min (off + n) 16) by (subst k off n; rewrite Hlen; lia).
  replace (Z.to_nat (16 - (header - 128 + Py.len slots / 2))) with (16 - (off + n))%nat
    by (subst off n; lia).
  set (final := take k gs' ++ replicate (16 - (off + n)) (Some GROUP_MEMBER_UNASSIGNED)).
  assert (Hfinal_len : length final = 16%nat).
  { subst final. rewrite length_app, length_take, length_replicate, Hlen. lia. }
  assert (Hfinal_low : forall j : nat, (j < k)%nat -> final !! j = gs' !! j).
  { intros j Hj. subst final.
    rewrite lookup_app_l by (rewrite length_take; lia).
    now apply lookup_take_lt. }
  rewrite Hfinal_len.
  replace (Z.to_nat ((header - 128 + Py.len slots / 2) `min` Z.of_nat 16)) with k by lia.
  split; [reflexivity|]. split; [|split; [|split]].
  - intros j Hj. subst final.
    rewrite lookup_app_r by (rewrite length_take; lia).
    apply lookup_replicate_2. rewrite length_take. lia.
  - intros j Hj Hj16. rewrite Hfinal_low by lia. apply Hw; [lia|]. rewrite Hlen16. lia.
  - intros j Hj Hj16. rewrite Hfinal_low by lia. apply Hw. lia.
  - rewrite negb_true_iff, bool_decide_eq_false, elem_of_take. split.
    + intros Hnone j Hj Hj16 Hgap. apply Hnone. exists j. split; [|lia].
      rewrite Hfinal_low by lia. rewrite (proj2 (Hw j)) by lia. exact Hgap.
    + intros Hfilled (j & Hj & Hjk). rewrite Hfinal_low in Hj by lia.
      destruct (le_lt_dec off j) as [Hge|Hlt].
      * destruct (proj1 (Hw j)) as [v Hv]; [lia | rewrite Hlen16; lia |].
        rewrite Hv in Hj. discriminate.
      * rewrite (proj2 (Hw j)) in Hj by lia. apply (Hfilled j); [lia | lia | exact Hj].
Qed.

(** C6. A device's 16-slot group table fed the segment (offset 0, five slot
    values, last-packet flag clear) and then the segment (offset 5, eleven
    slot values, last-packet flag set) is complete: sixteen filled slots and
    the completeness flag set. In general a last-packet segment with offset
    [off] and [n] slot values leaves every slot from [off + n] on at the
    unassigned sentinel, the slots of the segment filled, the slots below
    [off] as they were, and sets the completeness flag exactly when no slot
    below [off] is unfilled. *)
Theorem group_table_complete_after_last_segment :
  (forall (device : BleDevice) (first second : list Z),
     length (groups device) = 16%nat ->
     length first = 10%nat -> length second = 22%nat ->
     let d1 := (ProcessXBeaconGroupFields device (0 :: first)).2 in
     let d2 := (ProcessXBeaconGroupFields d1 (0x85 :: second)).2 in
     length (groups d2) = 16%nat /\ (None ∉ groups d2) /\ receivedAllGroups d2 = true)
  /\ (forall (device : BleDevice) (header : Z) (slots : list Z),
        length (groups device) = 16%nat ->
        128 <= header < 256 ->
        let off := Z.to_nat (header - 128) in
        let n := Z.to_nat (Py.len slots / 2) in
        let d' := (ProcessXBeaconGroupFields device (header :: slots)).2 in
        length (groups d') = 16%nat
        /\ (forall j : nat, (off + n <= j < 16)%nat ->
              groups d' !! j = Some (Some GROUP_MEMBER_UNASSIGNED))
        /\ (forall j : nat, (off <= j < off + n)%nat -> (j < 16)%nat ->
              exists v, groups d' !! j = Some (Some v))
        /\ (forall j : nat, (j < off)%nat -> (j < 16)%nat ->
              groups d' !! j = groups device !! j)
        /\ (receivedAllGroups d' = true
            <-> forall j : nat, (j < off)%nat -> (j < 16)%nat ->
                  groups device !! j <> Some None)).
Proof.
  split; [|exact segment_last].
  intros device first second Hlen Hfirst Hsecond. cbv zeta.
  destruct (segment_not_last device 0 first ltac:(lia)) as (Hlen1 & _ & Hd1).
  set (d1 := (ProcessXBeaconGroupFields device (0 :: first)).2) in *.
  assert (Hn1 : Z.to_nat (Py.len first / 2) = 5%nat)
    by (unfold Py.len; rewrite Hfirst; reflexivity).
  rewrite Hn1 in Hd1. change (Z.to_nat 0) with 0%nat in Hd1.
  destruct (segment_last d1 0x85 second ltac:(congruence) ltac:(lia))
    as (Hlen2 & _ & Hseg & Hlow & Hflag).
  set (d2 := (ProcessXBeaconGroupFields d1 (0x85 :: second)).2) in *.
  assert (Hn2 : Z.to_nat (Py.len second / 2) = 11%nat)
    by (unfold Py.len; rewrite Hsecond; reflexivity).
  rewrite Hn2 in Hseg. change (Z.to_nat (0x85 - 128)) with 5%nat in *.
  assert (Hfilled1 : forall j : nat, (j < 5)%nat -> exists v, groups d1 !! j = Some (Some v)).
  { intros j Hj. apply Hd1; lia. }
  split; [exact Hlen2|]. split.
  - intros Hin. apply list_elem_of_lookup in Hin as [j Hj].
    assert (j < 16)%nat by (rewrite <- Hlen2; eapply lookup_lt_Some; exact Hj).
    destruct (le_lt_dec 5 j) as [Hge|Hlt].
    + destruct (Hseg j) as [v Hv]; [lia | lia |]. rewrite Hv in Hj. discriminate.
    + rewrite Hlow in Hj by lia. destruct (Hfilled1 j Hlt) as [v Hv].
      rewrite Hv in Hj. discriminate.
  - apply Hflag. intros j Hj _ Hgap. destruct (Hfilled1 j Hj) as [v Hv].
    rewrite Hv in Hgap. discriminate.
Qed.

Lemma group_table_complete_after_last_segment_witness :
  (forall (device : BleDevice) (first second : list Z),
     length (groups device) = 16%nat ->
     length first = 10%nat -> length second = 22%nat ->
     let d1 := (ProcessXBeaconGroupFields device (0 :: first)).2 in
     let d2 := (ProcessXBeaconGroupFields d1 (0x85 :: second)).2 in
     length (groups d2) = 16%nat /\ (None ∉ groups d2) /\ receivedAllGroups d2 = true)
  /\ (let d1 := (ProcessXBeaconGroupFields dev_a [0; 1; 0; 2; 0; 3; 0; 4; 0; 5; 0]).2 in
      let d2 := (ProcessXBeaconGroupFields d1
                   [0x85; 6; 0; 7; 0; 8; 0; 9; 0; 10; 0; 11; 0; 12; 0; 13; 0; 14; 0; 15; 0;
                    0xFF; 0xFF]).2 in
      length (groups d2) = 16%nat /\ (None ∉ groups d2) /\ receivedAllGroups d2 = true).
Proof.
  split.
  - exact (proj1 group_table_complete_after_last_segment).
  - apply (proj1 group_table_complete_after_last_segment dev_a
             [1; 0; 2; 0; 3; 0; 4; 0; 5; 0]
             [6; 0; 7; 0; 8; 0; 9; 0; 10; 0; 11; 0; 12; 0; 13; 0; 14; 0; 15; 0; 0xFF; 0xFF]);
      reflexivity.
Defined.

End Groups.

(** ** The gateway's command queue *)

Section CommandQueue.

Import XimGateway Samples.

(** C9, as the code has it. [SetIntensity] checks only that the index names
    a known device: for a known device it appends to the tail of the command
    queue one light-level command that carries the given intensity as it is,
    whatever its value; for an unknown index it leaves the queue as it
    was. *)
Theorem SetIntensity_enqueues_every_level {V T : Type}
    (g : gateway V T) (index : Z) (intensity : V) :
  match GetDeviceByDevIndex g index with
  | Some device =>
      exists command,
        commandQueue (SetIntensity index intensity g) = commandQueue g ++ [command]
        /\ function command = BroadcastLightLevel
        /\ cmd_deviceId command = deviceId device
        /\ values command !! "light_level" = Some (inl (inl intensity))
        /\ time command = now g
  | None => SetIntensity index intensity g = g
  end.
Proof.
  unfold SetIntensity. destruct (GetDeviceByDevIndex g index) as [device|]; [|reflexivity].
  eexists. split; [reflexivity|]. repeat split.
Qed.

(** The claim as stated fails: an intensity of 150 is enqueued. *)
Lemma SetIntensity_out_of_range_enqueued :
  ~ (forall percent : Z,
       ~ (0 <= percent <= 100) ->
       commandQueue (SetIntensity 1 percent gateway_a) = commandQueue gateway_a)
  /\ (exists command,
        commandQueue (SetIntensity 1 150 gateway_a) = [command]
        /\ function command = BroadcastLightLevel
        /\ values command !! "light_level" = Some (inl (inl 150)))
  /\ (exists command,
        commandQueue (ximDeviceSpecific_post_intensity 1 150 gateway_a) = [command]
        /\ function command = BroadcastLightLevel
        /\ values command !! "light_level" = Some (inl (inl 150))).
Proof.
  split; [|split].
  - intros H. specialize (H 150 ltac:(lia)). discriminate H.
  - eexists. split; [reflexivity|]. split; reflexivity.
  - eexists. split; [reflexivity|]. split; reflexivity.
Qed.

End CommandQueue.

(** ** The persisted files *)

Section Persistence.

Import BleXim Samples.

(** Whatever the credentials, [UpdateNetworkConfigFile] opens the live file
    for writing, which truncates it, and then writes lines to that same
    file; it renames nothing. *)
Lemma UpdateNetworkConfigFile_trace (st : state) :
  let name := bleNetworkConfigFileName st in
  files (open_w name st).2 !! name = Some []
  /\ exists lines,
       trace (UpdateNetworkConfigFile st).2
       = trace st ++ File (OpenWrite name) :: map (fun l => File (WriteLine name l)) lines.
Proof.
  cbv zeta. split.
  - unfold open_w. cbn. apply lookup_insert_eq.
  - unfold UpdateNetworkConfigFile. rewrite run_gets_bind.
    erewrite run_bind_Some by reflexivity. rewrite run_gets_bind.
    match goal with |- context [foldl ?f _ _ ?s0] => set (step := f); set (s1 := s0) end.
    assert (Hinit : exists lines,
               trace ((mret tt : M unit) s1).2
               = trace st ++ File (OpenWrite (bleNetworkConfigFileName st))
                 :: map (fun l => File (WriteLine (bleNetworkConfigFileName st) l)) lines)
      by (exists []; reflexivity).
    revert Hinit. generalize (mret tt : M unit) as acc.
    generalize (networkConfigs s1) as cfgs.
    induction cfgs as [|cfg cfgs IH]; intros acc Hacc; [exact Hacc|].
    cbn [foldl]. apply IH. destruct Hacc as [lines Hlines].
    unfold step at 1. rewrite run_bind.
    destruct (acc s1) as [[[]|] s2]; cbn [snd] in *; [|eauto].
    rewrite run_lift_bind.
    destruct (network_config_line cfg) as [line|]; cbn [snd]; [|eauto].
    exists (lines ++ [line]). unfold write_line.
    erewrite run_bind_Some by reflexivity.
    cbn [modify snd trace with_files with_trace].
    rewrite Hlines, map_app, <- app_assoc. reflexivity.
Qed.

(** C8 on the code. Rewriting the credential file of the sample engine
    truncates the live file and writes the two slots into it, with no
    temporary file and no rename: after the opening the stored slots are
    gone from the disk before the first line is written. The handle-map
    cache, rewritten for a device whose characteristics are all resolved, is
    written to the temporary file, after which the live file is removed and
    the temporary file renamed to it. *)
Theorem credential_file_rewritten_in_place :
  let live := bleNetworkConfigFileName st_files in
  let r := UpdateNetworkConfigFile st_files in
  let cache := UpdateAttributeInfoFile dev_resolved st_files in
  files st_files !! live
  = Some ["25000000,100f0e0d0c0b0a090807060504030201,0102030405060708090a0b0c0d0e0f10,41
";
          "25000000,100f0e0d0c0b0a090807060504030200,0102030405060708090a0b0c0d0e0f10,7
"]
  /\ files (open_w live st_files).2 !! live = Some []
  /\ trace r.2
     = [File (OpenWrite live);
        File (WriteLine live
          "25000000,100f0e0d0c0b0a090807060504030201,0102030405060708090a0b0c0d0e0f10,41
");
        File (WriteLine live
          "25000000,100f0e0d0c0b0a090807060504030200,0102030405060708090a0b0c0d0e0f10,7
")]
  /\ trace cache.2
     = [File (OpenWrite (uuidHandleMapFileNameTemp st_files));
        File (WriteLine (uuidHandleMapFileNameTemp st_files) "0.094,2A00:3:None
");
        File (WriteLine (uuidHandleMapFileNameTemp st_files)
                        "0.095,2A00:3:None,2A19:17:18
");
        File (Remove (uuidHandleMapFileName st_files));
        File (Rename (uuidHandleMapFileNameTemp st_files) (uuidHandleMapFileName st_files))].
Proof. vm_compute. auto. Qed.

End Persistence.

(** ** Unexpected disconnections *)

Section Reconnection.

Import BleXim Samples.

Variable EnableConnections : option (list Z) -> M unit.
Variable Connect : list Z -> M bool.

Lemma run_bind_congr {A B} (m m' : M A) (k : A -> M B) st st' :
  m st = m' st' -> (m ≫= k) st = (m' ≫= k) st'.
Proof. intros H. rewrite (run_bind m), (run_bind m'), H. reflexivity. Qed.

Lemma run_device_at_bind {B} i (f : BleDevice -> M B) st :
  (device_at i ≫= f) st
  = match peripheral_list st !! i with Some d => f d st | None => (None, st) end.
Proof. rewrite run_bind. unfold device_at. now destruct (peripheral_list st !! i). Qed.

Lemma run_modify_bind {B} g (f : unit -> M B) st : (modify g ≫= f) st = f tt (g st).
Proof. reflexivity. Qed.

Lemma run_update_device_bind {B} i g (f : unit -> M B) st :
  (update_device i g ≫= f) st
  = f tt (with_peripheral_list (alter g i (peripheral_list st)) st).
Proof. reflexivity. Qed.

Lemma run_update_device i g st :
  update_device i g st
  = (Some tt, with_peripheral_list (alter g i (peripheral_list st)) st).
Proof. reflexivity. Qed.

Lemma with_peripheral_list_twice v w st :
  with_peripheral_list v (with_peripheral_list w st) = with_peripheral_list v st.
Proof. reflexivity. Qed.

Lemma run_TestConnection_bind {B} (f : unit -> M B) st :
  (TestConnection ≫= f) st
  = f tt (with_pending_write true
            (with_trace (trace st ++ [Sent ble_cmd_system_get_connections]) st)).
Proof. reflexivity. Qed.

Ltac state_fields :=
  cbn [networkConfigs selectedTxNetworkIndex selectedRxNetworkIndex aesNonce adminMode
       adminKey bleLocalDeviceId peripheral_list pending_write workingDirectory files
       inbox trace with_peripheral_list with_pending_write with_trace].

(** C7, as the code has it. On an unexpected disconnection the handler
    counts it, puts the device in Standby and, while the count of
    consecutive unexpected disconnections is at most
    [MAX_UNEXPECTED_DISCONNECTIONS] = 3, calls [EnableConnections] and
    [Connect]; once the count exceeds 3, that is from the fourth consecutive
    unexpected disconnection on, it calls neither and leaves the device in
    Standby with no connection handle. A disconnection met in Disconnecting
    or Standby resets the count and reconnects nothing. *)
Theorem disconnection_reconnects_while_within_bound
    (st : state) (reason connection : Z) (i : nat) (d : BleDevice) :
  list_find (fun device => connection_handle device = Some connection) (peripheral_list st)
  = Some (i, d) ->
  let run := my_ble_evt_connection_disconnected EnableConnections Connect reason connection st in
  (connectionState d <> STATE_DISCONNECTING -> connectionState d <> STATE_STANDBY ->
   peripheral_list (after_drop st i) !! i = Some (dropped d)
   /\ (unexpectedDisconnections d + 1 <= MAX_UNEXPECTED_DISCONNECTIONS ->
       run = (EnableConnections (scannedDeviceId d);; Connect (address d);; mret true)
               (after_drop st i))
   /\ (MAX_UNEXPECTED_DISCONNECTIONS < unexpectedDisconnections d + 1 ->
       run = (Some false, after_drop st i)
       /\ connectionState (dropped d) = STATE_STANDBY
       /\ connection_handle (dropped d) = None))
  /\ (connectionState d = STATE_DISCONNECTING \/ connectionState d = STATE_STANDBY ->
      exists st',
        run = (Some false, st')
        /\ peripheral_list st' !! i
           = Some (set_connectionState STATE_STANDBY
                     (set_unexpectedDisconnections 0 (set_connection_handle None d)))
        /\ trace st' = trace st).
Proof.
  intros Hfind. cbv zeta.
  pose proof Hfind as Hfound. apply list_find_Some in Hfound as (Hi & _ & _).
  unfold my_ble_evt_connection_disconnected.
  rewrite run_modify_bind. unfold GetDeviceWithConnectionHandle. rewrite run_gets_bind.
  state_fields. rewrite Hfind. cbn [fmap option_fmap option_map fst].
  split.
  - intros Hnd Hns.
    assert (Hdropped : peripheral_list (after_drop st i) !! i = Some (dropped d)).
    { unfold after_drop. state_fields. now rewrite list_lookup_alter_eq, Hi. }
    split; [exact Hdropped|].
    assert (Hstate : bool_decide (connectionState (set_connection_handle None d)
                                  ∈ [STATE_DISCONNECTING; STATE_STANDBY]) = false).
    { apply bool_decide_eq_false. cbn [connectionState set_connection_handle].
      rewrite !elem_of_cons, elem_of_nil. tauto. }
    match goal with
    | |- (_ -> (?inner ≫= ?k) ?s = _) /\ _ =>
        assert (Hinner :
          inner s
          = (if unexpectedDisconnections d + 1 <=? MAX_UNEXPECTED_DISCONNECTIONS
             then EnableConnections (scannedDeviceId d);; Connect (address d);; mret true
             else mret false) (after_drop st i))
    end.
    { rewrite run_update_device_bind, run_device_at_bind. state_fields.
      rewrite list_lookup_alter_eq, Hi. cbn [fmap option_fmap option_map].
      rewrite Hstate. cbn [negb].
      rewrite run_update_device_bind, run_update_device_bind, run_TestConnection_bind,
        run_device_at_bind.
      state_fields. rewrite !list_alter_alter_eq, list_lookup_alter_eq, Hi.
      cbn [fmap option_fmap option_map]. unfold compose.
      cbn [connection_handle unexpectedDisconnections scannedDeviceId address
           set_connectionState set_unexpectedDisconnections set_connection_handle].
      rewrite bool_decide_eq_true_2 by reflexivity.
      match goal with
      | |- _ ?s = _ ?s' => assert (Hs : s = s')
      end.
      { unfold after_drop. rewrite !with_peripheral_list_twice. do 3 f_equal.
        apply list_alter_ext; [|reflexivity]. intros x Hx. rewrite Hi in Hx. injection Hx as <-. reflexivity. }
      rewrite Hs. reflexivity. }
    split.
    + intros Hle. rewrite (run_bind_congr _ _ _ _ _ Hinner).
      rewrite (proj2 (Z.leb_le _ _) Hle).
      rewrite run_bind.
      destruct ((EnableConnections (scannedDeviceId d);; Connect (address d);; mret true)
                  (after_drop st i)) as [[r|] s] eqn:Hrun; [|reflexivity].
      assert (r = true) as ->.
      { apply bind_returns in Hrun as (? & ? & _ & Hrun).
        apply bind_returns in Hrun as (? & ? & _ & Hrun). now injection Hrun. }
      reflexivity.
    + intros Hgt. rewrite (run_bind_congr _ _ _ _ _ Hinner).
      rewrite (proj2 (Z.leb_gt _ _) Hgt).
      split; [|split; reflexivity].
      rewrite run_bind, run_ret. cbn [negb].
      rewrite run_bind, run_update_device_bind, run_update_device. cbv beta iota.
      rewrite run_ret. f_equal. unfold after_drop. state_fields.
      rewrite !list_alter_alter_eq. reflexivity.
  - intros Hexpected.
    assert (Hstate : bool_decide (connectionState (set_connection_handle None d)
                                  ∈ [STATE_DISCONNECTING; STATE_STANDBY]) = true).
    { apply bool_decide_eq_true. cbn [connectionState set_connection_handle].
      rewrite !elem_of_cons. tauto. }
    match goal with
    | |- exists st', (?inner ≫= ?k) ?s = _ /\ _ =>
        assert (Hinner :
          inner s
          = (Some false,
             with_peripheral_list
               (alter (set_unexpectedDisconnections 0 ∘ set_connection_handle None) i
                  (peripheral_list st))
               (with_pending_write false st)))
    end.
    { rewrite run_update_device_bind, run_device_at_bind. state_fields.
      rewrite list_lookup_alter_eq, Hi. cbn [fmap option_fmap option_map].
      rewrite Hstate. cbn [negb].
      rewrite run_update_device_bind, run_ret. state_fields.
      now rewrite list_alter_alter_eq. }
    rewrite run_bind, Hinner. cbn [negb].
    rewrite run_bind, run_update_device_bind, run_update_device. cbv beta iota.
    rewrite run_ret. eexists. split; [reflexivity|]. state_fields. split; [|reflexivity].
    rewrite !list_alter_alter_eq, list_lookup_alter_eq, Hi. reflexivity.
Qed.

End Reconnection.

Section ReconnectionSamples.

Import BleXim Samples.

Lemma disconnection_reconnects_while_within_bound_witness :
  my_ble_evt_connection_disconnected EnableConnections_silent Connect_direct 0x0208 3
    st_linked
  = (EnableConnections_silent (scannedDeviceId dev_linked);;
     Connect_direct (address dev_linked);; mret true) (after_drop st_linked 0).
Proof.
  assert (Hfind :
    list_find (fun device => connection_handle device = Some 3) (peripheral_list st_linked)
    = Some (0%nat, dev_linked)) by (vm_compute; reflexivity).
  destruct (disconnection_reconnects_while_within_bound
              EnableConnections_silent Connect_direct st_linked 0x0208 3 0 dev_linked Hfind)
    as [Hunexpected _].
  destruct Hunexpected as (_ & Hwithin & _); [discriminate | discriminate |].
  apply Hwithin. vm_compute. discriminate.
Defined.

(** After three consecutive unexpected disconnections of a freshly linked
    device the handler has reconnected three times: the third one still
    returns with [reconnecting] set, the direct connection command sent last
    and the device Connecting. Only the fourth leaves it in Standby. *)
Lemma third_unexpected_disconnection_still_reconnects :
  let handler :=
    my_ble_evt_connection_disconnected EnableConnections_silent Connect_direct 0x0208 3 in
  let third := handler (drop_and_relink (drop_and_relink st_linked)) in
  let fourth := handler (link_restored 0 3 third.2) in
  third.1 = Some true
  /\ last (trace third.2) = Some (Sent (ble_cmd_gap_connect_direct [1; 2; 3; 4; 5; 6]))
  /\ connectionState <$> peripheral_list third.2 !! 0%nat = Some STATE_CONNECTING
  /\ unexpectedDisconnections <$> peripheral_list third.2 !! 0%nat = Some 3
  /\ fourth.1 = Some false
  /\ connectionState <$> peripheral_list fourth.2 !! 0%nat = Some STATE_STANDBY
  /\ trace fourth.2 = trace third.2 ++ [Sent ble_cmd_system_get_connections].
Proof. vm_compute. repeat split. Qed.

End ReconnectionSamples.

(** ** Chunked writes *)

Section Chunks.

Lemma chunk_count_spec txPacket k :
  (k < chunk_count txPacket)%nat <-> (18 * k < length txPacket)%nat.
Proof.
  unfold chunk_count.
  pose proof (Nat.div_mod_eq (length txPacket + 17) 18) as Hdiv.
  pose proof (Nat.mod_upper_bound (length txPacket + 17) 18) as Hmod.
  lia.
Qed.

Lemma chunk_length txPacket k :
  (k < chunk_count txPacket)%nat -> (1 <= length (chunk txPacket k) <= 18)%nat.
Proof.
  intros Hk%chunk_count_spec. unfold chunk. rewrite length_take, length_drop. lia.
Qed.

Lemma chunks_from_concat txPacket n k :
  (18 * k <= length txPacket)%nat ->
  (length txPacket <= 18 * (k + n))%nat ->
  concat (chunk txPacket <$> seq k n) = drop (18 * k) txPacket.
Proof.
  revert k. induction n as [|n IH]; intros k Hlo Hhi.
  - simpl. symmetry. apply drop_ge. lia.
  - cbn [seq fmap list_fmap concat].
    destruct (decide (18 * S k <= length txPacket)%nat) as [Hle|Hgt].
    + rewrite IH by lia. unfold chunk.
      replace (18 * S k)%nat with (18 * k + 18)%nat by lia.
      rewrite <- drop_drop. apply take_drop.
    + assert (Hnil : concat (chunk txPacket <$> seq (S k) n) = []).
      { clear IH Hhi. generalize (S k) Hgt. clear. intros j Hj.
        revert j Hj. induction n as [|n IH]; intros j Hj; [reflexivity|].
        cbn [seq fmap list_fmap concat]. rewrite IH by lia.
        unfold chunk. rewrite drop_ge by lia. reflexivity. }
      rewrite Hnil, app_nil_r. unfold chunk. apply take_ge. rewrite length_drop. lia.
Qed.

(** The chunks are at most 18 bytes each, none is empty, and together they
    are the payload. *)
Lemma chunk_commands_cover h handle_ txPacket :
  Forall (fun c => 1 <= Py.len (chunk_data c) <= BleXim.MAX_GATT_CHUNK_WRITE_SIZE)
         (chunk_commands h handle_ txPacket)
  /\ concat (chunk_data <$> chunk_commands h handle_ txPacket) = txPacket.
Proof.
  split.
  - unfold chunk_commands. apply Forall_fmap, Forall_forall. intros k Hk.
    apply elem_of_seq in Hk. cbn [chunk_command chunk_data compose].
    pose proof (chunk_length txPacket k ltac:(lia)) as Hlen.
    unfold Py.len, BleXim.MAX_GATT_CHUNK_WRITE_SIZE. simpl. lia.
  - unfold chunk_commands. rewrite <- list_fmap_compose.
    change (chunk_data ∘ chunk_command h handle_ txPacket) with (chunk txPacket).
    rewrite chunks_from_concat; [apply drop_0 | lia |].
    unfold chunk_count.
    pose proof (Nat.div_mod_eq (length txPacket + 17) 18) as Hdiv.
    pose proof (Nat.mod_upper_bound (length txPacket + 17) 18) as Hmod.
    lia.
Qed.

Lemma chunk_writes_prefix h chunks pending :
  let '(sent, ok, rest) := chunk_writes h chunks pending in
  sent `prefix_of` chunks /\ (ok = true -> sent = chunks).
Proof.
  revert pending. induction chunks as [|c chunks IH]; intros pending; cbn [chunk_writes].
  - split; reflexivity.
  - destruct (await h pending) as [[[|r|r]|] rest].
    1:{ specialize (IH rest).
        destruct (chunk_writes h chunks rest) as [[sent ok] rest'].
        destruct IH as (Hprefix & Hok). split.
        - now apply prefix_cons.
        - intros Hk. now rewrite Hok. }
    all: split; [apply prefix_cons, prefix_nil | discriminate].
Qed.

(** The commands a chunked write sends are the chunks in order, each once,
    up to the first one not acknowledged, and the commit after all of them;
    it succeeds only when all of them and the commit were sent, and the
    commit is sent only after every chunk. *)
Lemma chunked_write_prefix h chunks commit pending :
  let '(sent, ok, rest) := chunked_write h chunks commit pending in
  sent `prefix_of` chunks ++ [commit]
  /\ (ok = true -> sent = chunks ++ [commit])
  /\ (commit ∉ chunks -> commit ∈ sent -> sent = chunks ++ [commit]).
Proof.
  unfold chunked_write. pose proof (chunk_writes_prefix h chunks pending) as Hloop.
  destruct (chunk_writes h chunks pending) as [[sent ok] rest].
  destruct Hloop as (Hprefix & Hok). destruct ok.
  - rewrite Hok by reflexivity.
    destruct (await h rest) as [[[|r|r]|] rest']; repeat split; auto; discriminate.
  - split; [now apply prefix_app_r|]. split; [discriminate|].
    intros Hnotin Hin. destruct Hprefix as (more & ->).
    exfalso. apply Hnotin. apply elem_of_app. now left.
Qed.

End Chunks.

Lemma alter_insert_same {A} (f : A -> A) (l : list A) j x :
  alter f j (<[j := x]> l) = <[j := f x]> l.
Proof.
  revert j. induction l as [|y l IH]; intros [|j]; cbn; try reflexivity.
  f_equal. apply IH.
Qed.

Section Waiting.

Import BleXim.

Variable discovery_completed : nat -> Z -> M unit.

(** The registry [devices], in which the device at place [i] is the first
    one holding connection [h]. *)
Variables (devices : list BleDevice) (i : nat) (h : Z) (d0 : BleDevice).
Hypothesis Hfirst :
  list_find (fun device => connection_handle device = Some h) devices = Some (i, d0).

Lemma place_in_range : (i < length devices)%nat.
Proof using Hfirst.
  pose proof Hfirst as Hf. apply list_find_Some in Hf as (Hi & _).
  eapply lookup_lt_Some; eauto.
Qed.

Lemma linked_lookup st d : linked devices i h st d -> peripheral_list st !! i = Some d.
Proof using Hfirst. intros (-> & _). apply list_lookup_insert_eq, place_in_range. Qed.

Lemma linked_find st d :
  linked devices i h st d ->
  list_find (fun device => connection_handle device = Some h) (peripheral_list st)
  = Some (i, d).
Proof using Hfirst.
  intros (-> & Hh & _). pose proof Hfirst as Hf.
  apply list_find_Some in Hf as (Hi & _ & Hbefore).
  apply list_find_Some. split; [apply list_lookup_insert_eq, place_in_range|].
  split; [exact Hh|]. intros j y Hj Hlt.
  rewrite list_lookup_insert_ne in Hj by lia. eauto.
Qed.

Lemma linked_find_other st d c :
  linked devices i h st d -> c <> h ->
  list_find (fun device => connection_handle device = Some c) devices = None ->
  list_find (fun device => connection_handle device = Some c) (peripheral_list st) = None.
Proof using Hfirst.
  intros (-> & Hh & _) Hc Hnone. apply list_find_None. apply list_find_None in Hnone.
  apply Forall_insert; [exact Hnone|]. rewrite Hh. congruence.
Qed.

Lemma linked_update st d f :
  linked devices i h st d ->
  connection_handle (f d) = connection_handle d ->
  connectionState (f d) = connectionState d ->
  linked devices i h (with_peripheral_list (alter f i (peripheral_list st)) st) (f d).
Proof using Hfirst.
  intros (Hl & Hh & Hs) Hfh Hfs. split; [|split; congruence].
  cbn [peripheral_list with_peripheral_list]. rewrite Hl. apply alter_insert_same.
Qed.

(** A completion on connection [h] clears the busy flag and records the
    result with the device. *)
Lemma completed_on_link st d r :
  linked devices i h st d ->
  exists st' d',
    my_ble_evt_attclient_procedure_completed discovery_completed h r st = (Some tt, st')
    /\ linked devices i h st' d'
    /\ packetStatus d' = Some r /\ bulkPacketTransferred d' = true
    /\ pending_write st' = false /\ inbox st' = inbox st /\ trace st' = trace st.
Proof using Hfirst.
  intros Hl. unfold my_ble_evt_attclient_procedure_completed.
  rewrite run_modify_bind. unfold GetDeviceWithConnectionHandle. rewrite run_gets_bind.
  assert (Hl1 : linked devices i h (with_pending_write false st) d) by exact Hl.
  rewrite (linked_find _ _ Hl1). cbn [fmap option_fmap option_map fst].
  rewrite run_device_at_bind, (linked_lookup _ _ Hl1).
  destruct Hl as (Hpl & Hh & Hs). rewrite Hs.
  rewrite run_update_device_bind, run_device_at_bind.
  pose proof (linked_update _ d (set_packetStatus (Some r)) Hl1 eq_refl eq_refl) as Hl2.
  rewrite (linked_lookup _ _ Hl2).
  cbn [bulkPacketTransferred set_packetStatus].
  destruct (bulkPacketTransferred d) eqn:Hbulk; cbn [negb].
  - rewrite run_ret. do 2 eexists. split; [reflexivity|]. split; [exact Hl2|].
    repeat split; assumption || reflexivity.
  - rewrite run_update_device.
    pose proof (linked_update _ _ (set_bulkPacketTransferred true) Hl2 eq_refl eq_refl)
      as Hl3.
    do 2 eexists. split; [reflexivity|]. split; [exact Hl3|].
    repeat split; reflexivity.
Qed.

(** A completion on a connection no device holds only clears the busy
    flag. *)
Lemma completed_elsewhere st d c r :
  linked devices i h st d -> c <> h ->
  list_find (fun device => connection_handle device = Some c) devices = None ->
  my_ble_evt_attclient_procedure_completed discovery_completed c r st
  = (Some tt, with_pending_write false st).
Proof using Hfirst.
  intros Hl Hc Hnone. unfold my_ble_evt_attclient_procedure_completed.
  rewrite run_modify_bind. unfold GetDeviceWithConnectionHandle. rewrite run_gets_bind.
  assert (Hl1 : linked devices i h (with_pending_write false st) d) by exact Hl.
  rewrite (linked_find_other _ _ _ Hl1 Hc Hnone). reflexivity.
Qed.

Lemma poll_loop_over fuel condition st :
  condition st = false ->
  poll_loop discovery_completed fuel condition st = (Some tt, st).
Proof. intros Hc. destruct fuel; cbn [poll_loop]; [reflexivity|].
  rewrite run_gets_bind, Hc. reflexivity. Qed.

(** A wait for the acknowledgement of a command just sent ends at the first
    completion on the connection or at the time bound, and leaves whatever
    arrives later. *)
Lemma poll_loop_awaits pending :
  forall fuel st d,
    (length pending < fuel)%nat ->
    inbox st = pending ->
    linked devices i h st d ->
    bulkPacketTransferred d = false ->
    Forall (concerns h devices) pending ->
    exists st' d',
      poll_loop discovery_completed fuel (waiting i) st = (Some tt, st')
      /\ linked devices i h st' d'
      /\ inbox st' = (await h pending).2
      /\ trace st' = trace st
      /\ match (await h pending).1 with
         | Some r => bulkPacketTransferred d' = true /\ packetStatus d' = Some r
         | None => bulkPacketTransferred d' = false
         end.
Proof using Hfirst.
  induction pending as [|t pending IH]; intros fuel st d Hfuel Hinbox Hl Hbulk Hall.
  all: destruct fuel as [|fuel]; [simpl in Hfuel; lia|].
  all: assert (Hwaiting : (waiting i) st = true)
         by (unfold waiting, transferred; rewrite (linked_lookup _ _ Hl), Hbulk;
             apply orb_true_r).
  all: cbn [poll_loop]; rewrite run_gets_bind, Hwaiting, run_gets_bind, Hinbox.
  - exists st, d. cbn [await fst snd]. rewrite run_ret. repeat split; auto; apply Hl.
  - apply Forall_cons in Hall as [Ht Hall].
    destruct t as [[c r]|].
    + rewrite run_modify_bind. cbn [dispatch await].
      assert (Hl1 : linked devices i h (with_inbox pending st) d) by exact Hl.
      destruct (Z.eqb_spec c h) as [->|Hc].
      * destruct (completed_on_link _ _ r Hl1)
          as (st' & d' & Hrun & Hl' & Hstatus & Hdone & Hpending & Hinbox' & Htrace).
        erewrite run_bind_Some by exact Hrun.
        rewrite poll_loop_over.
        2:{ unfold waiting, transferred. rewrite (linked_lookup _ _ Hl'), Hdone, Hpending.
            reflexivity. }
        exists st', d'. cbn [fst snd]. cbn in Hinbox', Htrace.
        repeat split; auto; apply Hl'.
      * rewrite (run_bind_Some _ _ _ _ _ (completed_elsewhere _ _ c r Hl1 Hc (Ht Hc))).
        destruct (IH fuel (with_pending_write false (with_inbox pending st)) d)
          as (st' & d' & Hrun & Hl' & Hinbox' & Htrace & Hack);
          [simpl in Hfuel; lia | reflexivity | exact Hl | exact Hbulk | exact Hall |].
        exists st', d'. cbn in Htrace. repeat split; auto; apply Hl'.
    + exists (with_inbox pending st), d. cbn [await fst snd].
      repeat split; auto; apply Hl.
Qed.

Lemma await_rest_concerns pending :
  Forall (concerns h devices) pending -> Forall (concerns h devices) (await h pending).2.
Proof.
  induction 1 as [|t pending Ht Hall IH]; [constructor|].
  destruct t as [[c r]|]; cbn [await]; [|exact Hall].
  destruct (c =? h); [exact Hall | exact IH].
Qed.

Lemma poll_awaits st d :
  linked devices i h st d ->
  bulkPacketTransferred d = false ->
  Forall (concerns h devices) (inbox st) ->
  exists st' d',
    poll discovery_completed (waiting i) st = (Some tt, st')
    /\ linked devices i h st' d'
    /\ inbox st' = (await h (inbox st)).2
    /\ trace st' = trace st
    /\ match (await h (inbox st)).1 with
       | Some r => bulkPacketTransferred d' = true /\ packetStatus d' = Some r
       | None => bulkPacketTransferred d' = false
       end.
Proof using Hfirst.
  intros Hl Hbulk Hall. unfold poll. rewrite run_gets_bind.
  apply (poll_loop_awaits (inbox st) _ st d); auto.
Qed.

(** The slice the loop sends at the [k]-th pass is the [k]-th chunk. *)
Lemma slice_is_chunk (txPacket : list Z) (k : nat) :
  (18 * k < length txPacket)%nat ->
  let packetOffset := Z.of_nat (18 * k) in
  let chunkSize :=
    if MAX_GATT_CHUNK_WRITE_SIZE <=? Py.len txPacket - packetOffset
    then MAX_GATT_CHUNK_WRITE_SIZE
    else Py.len txPacket - packetOffset in
  Py.slice txPacket packetOffset (packetOffset + chunkSize) = chunk txPacket k
  /\ packetOffset + chunkSize = Z.min (Z.of_nat (18 * S k)) (Py.len txPacket).
Proof.
  intros Hk. cbv zeta. unfold MAX_GATT_CHUNK_WRITE_SIZE, Py.len, Py.slice, Py.norm, chunk.
  destruct (Z.leb_spec 18 (Z.of_nat (length txPacket) - Z.of_nat (18 * k))) as [Hfull|Hlast].
  - split; [|lia].
    rewrite !(proj2 (Z.ltb_ge _ 0)) by lia.
    rewrite !Z.min_l by lia.
    replace (Z.to_nat (Z.of_nat (18 * k) + 18) - Z.to_nat (Z.of_nat (18 * k)))%nat
      with 18%nat by lia.
    now rewrite Nat2Z.id.
  - split; [|lia].
    rewrite !(proj2 (Z.ltb_ge _ 0)) by lia.
    rewrite !Z.min_l by lia. rewrite Nat2Z.id.
    rewrite !take_ge by (rewrite length_drop; lia). reflexivity.
Qed.

(** The loop over the chunks does what the specification says of the
    chunks, for the chunks from the [k]-th on. *)
Lemma TransmitPacket_chunks_run (handle_ : Z) (txPacket : list Z) :
  forall n k fuel st d sent ok rest,
    (n < fuel)%nat ->
    (k + n = chunk_count txPacket)%nat ->
    linked devices i h st d ->
    Forall (concerns h devices) (inbox st) ->
    chunk_writes h (chunk_command h handle_ txPacket <$> seq k n) (inbox st)
    = (sent, ok, rest) ->
    exists st' d',
      TransmitPacket_chunks discovery_completed fuel i handle_ txPacket
        (Z.min (Z.of_nat (18 * k)) (Py.len txPacket)) st
      = (Some ok, st')
      /\ linked devices i h st' d'
      /\ inbox st' = rest
      /\ Forall (concerns h devices) rest
      /\ trace st' = trace st ++ (Sent <$> sent).
Proof using Hfirst.
  induction n as [|n IH]; intros k fuel st d sent ok rest Hfuel Hcount Hl Hall Hspec;
    (destruct fuel as [|fuel]; [lia|]); cbn [TransmitPacket_chunks].
  - assert (Hk : ~ (18 * k < length txPacket)%nat)
      by (rewrite <- chunk_count_spec; lia).
    rewrite Z.min_r by (unfold Py.len; lia).
    rewrite (proj2 (Z.ltb_ge _ _)) by lia.
    cbn in Hspec. injection Hspec as <- <- <-.
    exists st, d. rewrite run_ret, app_nil_r. repeat split; auto; apply Hl.
  - assert (Hk : (18 * k < length txPacket)%nat)
      by (rewrite <- chunk_count_spec; lia).
    rewrite Z.min_l by (unfold Py.len; lia).
    rewrite (proj2 (Z.ltb_lt _ _)) by (unfold Py.len; lia).
    destruct (slice_is_chunk txPacket k Hk) as [Hslice Hnext]. cbv zeta in Hslice, Hnext.
    rewrite Hslice, Hnext. clear Hslice Hnext.
    rewrite run_update_device_bind.
    pose proof (linked_update _ _ (set_bulkPacketTransferred false) Hl eq_refl eq_refl)
      as Hl1.
    rewrite run_device_at_bind, (linked_lookup _ _ Hl1).
    replace (connection_handle (set_bulkPacketTransferred false d)) with (Some h)
      by (symmetry; apply Hl1).
    unfold send_command, emit, SetBusyFlag. rewrite !run_modify_bind.
    match goal with
    | |- context [ (poll _ _ ≫= _) ?s ] =>
        destruct (poll_awaits s (set_bulkPacketTransferred false d))
          as (st4 & d4 & Hpoll & Hl4 & Hinbox4 & Htrace4 & Hack);
          [exact Hl1 | reflexivity | exact Hall |]
    end.
    erewrite run_bind_Some by exact Hpoll.
    rewrite run_device_at_bind, (linked_lookup _ _ Hl4).
    cbn [inbox with_pending_write with_trace with_peripheral_list] in Hinbox4, Hack.
    cbn [trace with_pending_write with_trace with_peripheral_list] in Htrace4.
    cbn [seq fmap list_fmap chunk_writes] in Hspec.
    fold (chunk_command h handle_ txPacket k) in *.
    pose proof (await_rest_concerns _ Hall) as Hall4.
    destruct (await h (inbox st)) as [[[|r|r]|] rest4]; cbn [fst snd] in *.
    + destruct Hack as [-> ->]. cbn [andb]. rewrite bool_decide_eq_true_2 by reflexivity.
      destruct (chunk_writes h (chunk_command h handle_ txPacket <$> seq (S k) n) rest4)
        as [[sent' ok'] rest'] eqn:Hrest.
      injection Hspec as <- <- <-.
      destruct (IH (S k) fuel st4 d4 sent' ok' rest')
        as (st' & d' & Hrun & Hl' & Hinbox' & Hall' & Htrace');
        [lia | lia | exact Hl4 | now rewrite Hinbox4 | now rewrite Hinbox4 |].
      exists st', d'. split; [exact Hrun|]. split; [exact Hl'|].
      split; [exact Hinbox'|]. split; [exact Hall'|].
      rewrite Htrace', Htrace4. cbn [fmap list_fmap]. now rewrite <- app_assoc.
    + destruct Hack as [-> ->]. cbn [andb]. rewrite bool_decide_eq_false_2 by discriminate.
      injection Hspec as <- <- <-. exists st4, d4. rewrite run_ret.
      repeat split; auto; apply Hl4.
    + destruct Hack as [-> ->]. cbn [andb]. rewrite bool_decide_eq_false_2 by discriminate.
      injection Hspec as <- <- <-. exists st4, d4. rewrite run_ret.
      repeat split; auto; apply Hl4.
    + rewrite Hack. cbn [andb].
      injection Hspec as <- <- <-. exists st4, d4. rewrite run_ret.
      repeat split; auto; apply Hl4.
Qed.

Lemma chunk_count_le (txPacket : list Z) : (chunk_count txPacket <= length txPacket)%nat.
Proof.
  unfold chunk_count.
  pose proof (Nat.div_mod_eq (length txPacket + 17) 18) as Hdiv.
  pose proof (Nat.mod_upper_bound (length txPacket + 17) 18) as Hmod.
  lia.
Qed.

(** [TransmitPacket] on a payload beyond the single-write limit, for a
    listening device with a resolved characteristic and an idle controller,
    returns, and does what the specification says of a chunked write. *)
Lemma TransmitPacket_run st addressValue txPacket uuid_ handle_ sent ok rest :
  peripheral_list st = devices ->
  list_find (fun device => address device = addressValue) devices = Some (i, d0) ->
  connectionState d0 = STATE_LISTENING_DATA ->
  GetHandle d0 uuid_ = Some handle_ ->
  handle_ <> 0 ->
  pending_write st = false ->
  MAX_GATT_WRITE_SIZE < Py.len txPacket ->
  Forall (concerns h devices) (inbox st) ->
  chunked_write h (chunk_commands h handle_ txPacket)
    (ble_cmd_attclient_execute_write (Some h) 1) (inbox st) = (sent, ok, rest) ->
  exists st',
    TransmitPacket discovery_completed addressValue txPacket uuid_ st = (Some ok, st')
    /\ inbox st' = rest
    /\ trace st' = trace st ++ (Sent <$> sent).
Proof using Hfirst.
  intros Hpl Haddr Hstate Hhandle Hnz Hidle Hlong Hall Hspec.
  pose proof Hfirst as Hf. apply list_find_Some in Hf as (Hi & Hh & _).
  assert (Hl : linked devices i h st d0).
  { split; [|split; assumption]. rewrite Hpl. symmetry. now apply list_insert_id. }
  unfold TransmitPacket, GetDeviceWithAddress. rewrite run_gets_bind, Hpl, Haddr.
  cbn [fmap option_fmap option_map fst].
  rewrite run_device_at_bind, (linked_lookup _ _ Hl).
  assert (Hconnected : IsConnected d0 = true).
  { unfold IsConnected. rewrite Hstate, Hh. reflexivity. }
  rewrite Hconnected. cbn [orb].
  assert (Hpoll : poll discovery_completed pending_write st = (Some tt, st)).
  { unfold poll. rewrite run_gets_bind. now apply poll_loop_over. }
  erewrite run_bind_Some by exact Hpoll.
  rewrite run_device_at_bind, (linked_lookup _ _ Hl). cbv zeta.
  rewrite run_gets_bind, Hidle, Hhandle, Hh.
  rewrite (proj2 (Z.eqb_neq _ _) Hnz). cbn [negb andb].
  rewrite bool_decide_eq_true_2 by discriminate.
  rewrite (proj2 (Z.leb_gt _ _) Hlong).
  unfold chunked_write in Hspec.
  destruct (chunk_writes h (chunk_commands h handle_ txPacket) (inbox st))
    as [[sent1 ok1] rest1] eqn:Hloop.
  destruct (TransmitPacket_chunks_run handle_ txPacket (chunk_count txPacket) 0
              (S (length txPacket)) st d0 sent1 ok1 rest1)
    as (st1 & d1 & Hrun & Hl1 & Hinbox1 & Hall1 & Htrace1);
    [pose proof (chunk_count_le txPacket); lia | lia | exact Hl | exact Hall | exact Hloop |].
  change (Z.min (Z.of_nat (18 * 0)) (Py.len txPacket)) with (Z.min 0 (Py.len txPacket))
    in Hrun.
  rewrite Z.min_l in Hrun by (unfold Py.len; lia).
  erewrite run_bind_Some by exact Hrun.
  destruct ok1.
  2:{ injection Hspec as <- <- <-. exists st1. rewrite run_ret. auto. }
  rewrite run_update_device_bind.
  pose proof (linked_update _ _ (set_bulkPacketTransferred false) Hl1 eq_refl eq_refl)
    as Hl2.
  rewrite run_device_at_bind, (linked_lookup _ _ Hl2).
  replace (connection_handle (set_bulkPacketTransferred false d1)) with (Some h)
    by (symmetry; apply Hl2).
  unfold send_command, emit, SetBusyFlag. rewrite !run_modify_bind.
  match goal with
  | |- context [ (poll _ _ ≫= _) ?s ] =>
      destruct (poll_awaits s (set_bulkPacketTransferred false d1))
        as (st4 & d4 & Hwait & Hl4 & Hinbox4 & Htrace4 & Hack);
        [exact Hl2 | reflexivity | now rewrite <- Hinbox1 in Hall1 |]
  end.
  erewrite run_bind_Some by exact Hwait.
  rewrite run_device_at_bind, (linked_lookup _ _ Hl4).
  cbn [inbox with_pending_write with_trace with_peripheral_list] in Hinbox4, Hack.
  cbn [trace with_pending_write with_trace with_peripheral_list] in Htrace4.
  rewrite Hinbox1 in Hinbox4, Hack.
  exists st4.
  destruct (await h rest1) as [[[|r|r]|] rest4]; cbn [fst snd] in *;
    injection Hspec as <- <- <-.
  1-3: destruct Hack as [-> ->]; cbn [andb].
  - rewrite bool_decide_eq_true_2 by reflexivity. rewrite run_ret.
    rewrite Htrace4, Htrace1, fmap_app, <- app_assoc. auto.
  - rewrite bool_decide_eq_false_2 by discriminate. rewrite run_ret.
    rewrite Htrace4, Htrace1, fmap_app, <- app_assoc. auto.
  - rewrite bool_decide_eq_false_2 by discriminate. rewrite run_ret.
    rewrite Htrace4, Htrace1, fmap_app, <- app_assoc. auto.
  - rewrite Hack. cbn [andb]. rewrite run_ret.
    rewrite Htrace4, Htrace1, fmap_app, <- app_assoc. auto.
Qed.

End Waiting.

Section ChunkedWrite.

Import BleXim Samples.

(** C5. For a listening device holding connection [h], with the
    characteristic resolved to a non-zero handle, no write pending and a
    payload longer than [MAX_GATT_WRITE_SIZE] = 20 bytes, [TransmitPacket]
    returns, and what it sends and returns is what a chunked write is
    specified to: the chunks are the consecutive pieces of the payload at
    offsets 0, 18, 36, ..., each of 1 to 18 bytes, together the payload;
    each is sent once and its acknowledgement awaited before the next; the
    commands sent are a prefix of the chunks followed by the commit; the
    commit is sent only after every chunk was sent and acknowledged; the
    result is [True] only when all chunks and the commit were sent and
    acknowledged with result 0, and [False] as soon as one acknowledgement
    is a failure or does not arrive in time, nothing being sent again. *)
Theorem TransmitPacket_chunked_write
    (discovery_completed : nat -> Z -> M unit) (st : state)
    (addressValue txPacket uuid_ : list Z) (i : nat) (d : BleDevice) (h handle_ : Z) :
  list_find (fun device => address device = addressValue) (peripheral_list st)
  = Some (i, d) ->
  list_find (fun device => connection_handle device = Some h) (peripheral_list st)
  = Some (i, d) ->
  connectionState d = STATE_LISTENING_DATA ->
  GetHandle d uuid_ = Some handle_ ->
  handle_ <> 0 ->
  pending_write st = false ->
  MAX_GATT_WRITE_SIZE < Py.len txPacket ->
  Forall (concerns h (peripheral_list st)) (inbox st) ->
  let chunks := chunk_commands h handle_ txPacket in
  let commit := ble_cmd_attclient_execute_write (Some h) 1 in
  exists sent ok st',
    TransmitPacket discovery_completed addressValue txPacket uuid_ st = (Some ok, st')
    /\ chunked_write h chunks commit (inbox st) = (sent, ok, inbox st')
    /\ trace st' = trace st ++ (Sent <$> sent)
    /\ Forall (fun c => 1 <= Py.len (chunk_data c) <= MAX_GATT_CHUNK_WRITE_SIZE) chunks
    /\ concat (chunk_data <$> chunks) = txPacket
    /\ sent `prefix_of` chunks ++ [commit]
    /\ (ok = true -> sent = chunks ++ [commit])
    /\ (commit ∈ sent -> sent = chunks ++ [commit]).
Proof.
  intros Haddr Hfirst Hstate Hhandle Hnz Hidle Hlong Hall chunks commit.
  destruct (chunked_write h chunks commit (inbox st)) as [[sent ok] rest] eqn:Hspec.
  destruct (TransmitPacket_run discovery_completed (peripheral_list st) i h d Hfirst
              st addressValue txPacket uuid_ handle_ sent ok rest
              eq_refl Haddr Hstate Hhandle Hnz Hidle Hlong Hall Hspec)
    as (st' & Hrun & Hinbox & Htrace).
  exists sent, ok, st'. split; [exact Hrun|]. split; [now rewrite Hinbox|].
  split; [exact Htrace|].
  destruct (chunk_commands_cover h handle_ txPacket) as [Hsizes Hcover].
  split; [exact Hsizes|]. split; [exact Hcover|].
  pose proof (chunked_write_prefix h chunks commit (inbox st)) as Hprefix.
  rewrite Hspec in Hprefix. destruct Hprefix as (Hprefix & Hok & Hcommit).
  split; [exact Hprefix|]. split; [exact Hok|].
  apply Hcommit. unfold chunks, chunk_commands. intros Hin.
  apply list_elem_of_fmap in Hin as (k & Heq & _). discriminate.
Qed.

Lemma TransmitPacket_chunked_write_witness :
  exists sent ok st',
    TransmitPacket discovery_idle [1; 2; 3; 4; 5; 6] packet_a [0x2A; 0x19] st_acknowledged
    = (Some ok, st')
    /\ chunked_write 3 (chunk_commands 3 17 packet_a)
         (ble_cmd_attclient_execute_write (Some 3) 1) (inbox st_acknowledged)
       = (sent, ok, inbox st')
    /\ trace st' = trace st_acknowledged ++ (Sent <$> sent)
    /\ Forall (fun c => 1 <= Py.len (chunk_data c) <= MAX_GATT_CHUNK_WRITE_SIZE)
              (chunk_commands 3 17 packet_a)
    /\ concat (chunk_data <$> chunk_commands 3 17 packet_a) = packet_a
    /\ sent `prefix_of` chunk_commands 3 17 packet_a
                        ++ [ble_cmd_attclient_execute_write (Some 3) 1]
    /\ (ok = true ->
        sent = chunk_commands 3 17 packet_a ++ [ble_cmd_attclient_execute_write (Some 3) 1])
    /\ (ble_cmd_attclient_execute_write (Some 3) 1 ∈ sent ->
        sent = chunk_commands 3 17 packet_a ++ [ble_cmd_attclient_execute_write (Some 3) 1]).
Proof.
  apply (TransmitPacket_chunked_write discovery_idle st_acknowledged [1; 2; 3; 4; 5; 6]
           packet_a [0x2A; 0x19] 0 dev_linked 3 17).
  - vm_compute. reflexivity.
  - vm_compute. reflexivity.
  - reflexivity.
  - vm_compute. reflexivity.
  - discriminate.
  - reflexivity.
  - vm_compute. reflexivity.
  - repeat constructor; intros Hc; exfalso; apply Hc; reflexivity.
Defined.

(** Forty bytes, every command acknowledged: three chunks of 18, 18 and 4
    bytes at offsets 0, 18 and 36, then the commit, and [True]. *)
Example chunked_write_acknowledged :
  let r := TransmitPacket discovery_idle [1; 2; 3; 4; 5; 6] packet_a [0x2A; 0x19]
             st_acknowledged in
  r.1 = Some true
  /\ trace r.2
     = [Sent (ble_cmd_attclient_prepare_write (Some 3) 17 0 (Z.of_nat <$> seq 1 18));
        Sent (ble_cmd_attclient_prepare_write (Some 3) 17 18 (Z.of_nat <$> seq 19 18));
        Sent (ble_cmd_attclient_prepare_write (Some 3) 17 36 (Z.of_nat <$> seq 37 4));
        Sent (ble_cmd_attclient_execute_write (Some 3) 1)].
Proof. vm_compute. split; reflexivity. Qed.

(** The second chunk refused: nothing is sent after it, neither the chunk
    again nor the third chunk nor the commit, and the result is [False]. *)
Example chunked_write_refused :
  let r := TransmitPacket discovery_idle [1; 2; 3; 4; 5; 6] packet_a [0x2A; 0x19]
             st_refused in
  r.1 = Some false
  /\ trace r.2
     = [Sent (ble_cmd_attclient_prepare_write (Some 3) 17 0 (Z.of_nat <$> seq 1 18));
        Sent (ble_cmd_attclient_prepare_write (Some 3) 17 18 (Z.of_nat <$> seq 19 18))].
Proof. vm_compute. split; reflexivity. Qed.

End ChunkedWrite.

(** * Further properties of the code *)

(** ** Value conversion *)

Section Conversion.

Import BleXim.

Lemma ConvertListToInt_fold (l : list Z) (total multiplier : Z) :
  fst (foldl (fun '(total, multiplier) value =>
                (total + value * multiplier, multiplier * 256))
             (total, multiplier) l)
  = total + multiplier * ConvertListToInt l.
Proof.
  unfold ConvertListToInt. revert total multiplier.
  induction l as [|x l IH]; intros total multiplier; cbn [foldl].
  - cbn. ring.
  - rewrite IH. rewrite (IH (0 + x * 1) (1 * 256)). ring.
Qed.

Lemma ConvertListToInt_cons (x : Z) (l : list Z) :
  ConvertListToInt (x :: l) = x + 256 * ConvertListToInt l.
Proof.
  unfold ConvertListToInt at 1. cbn [foldl]. rewrite ConvertListToInt_fold. ring.
Qed.

Lemma ConvertListToInt_snoc (l : list Z) (x : Z) :
  ConvertListToInt (l ++ [x]) = ConvertListToInt l + 256 ^ Py.len l * x.
Proof.
  unfold Py.len. induction l as [|y l IH].
  - cbn [app length]. rewrite ConvertListToInt_cons.
    change (ConvertListToInt []) with 0. change (256 ^ Z.of_nat 0) with 1. ring.
  - cbn [app]. rewrite !ConvertListToInt_cons, IH.
    replace (Z.of_nat (length (y :: l))) with (Z.succ (Z.of_nat (length l)))
      by (cbn [length]; lia).
    rewrite Z.pow_succ_r by lia. ring.
Qed.

Lemma ConvertListToInt_bounds (l : list Z) :
  Forall Py.is_byte l -> 0 <= ConvertListToInt l < 256 ^ Py.len l.
Proof.
  unfold Py.len. induction 1 as [|x l [Hlo Hhi] _ IH].
  - cbn. lia.
  - rewrite ConvertListToInt_cons.
    replace (Z.of_nat (length (x :: l))) with (Z.succ (Z.of_nat (length l)))
      by (cbn [length]; lia).
    rewrite Z.pow_succ_r by lia. lia.
Qed.

Lemma pow_256_div (k : nat) : 256 ^ Z.of_nat k / 256 = 256 ^ (Z.of_nat k - 1).
Proof.
  destruct k as [|k].
  - reflexivity.
  - replace (Z.of_nat (S k) - 1) with (Z.of_nat k) by lia.
    replace (Z.of_nat (S k)) with (Z.succ (Z.of_nat k)) by lia.
    rewrite Z.pow_succ_r by lia. rewrite Z.mul_comm. apply Z.div_mul. lia.
Qed.

Lemma ConvertIntToList_loop_app (k : nat) (value divisor : Z) (outList : list Z) :
  ConvertIntToList_loop k value divisor outList
  = outList ++ ConvertIntToList_loop k value divisor [].
Proof.
  revert value divisor outList. induction k as [|k IH]; intros value divisor outList.
  - cbn. now rewrite app_nil_r.
  - cbn [ConvertIntToList_loop]. rewrite IH. rewrite (IH _ _ ([] ++ _)).
    cbn [app]. now rewrite <- app_assoc.
Qed.

(** One pass of the loop: the most significant item comes first. *)
Lemma ConvertIntToList_loop_step (k : nat) (value : Z) :
  ConvertIntToList_loop (S k) value (256 ^ Z.of_nat k) []
  = value / 256 ^ Z.of_nat k
    :: ConvertIntToList_loop k (value mod 256 ^ Z.of_nat k) (256 ^ (Z.of_nat k - 1)) [].
Proof.
  cbn [ConvertIntToList_loop]. rewrite ConvertIntToList_loop_app. cbn [app].
  rewrite pow_256_div. f_equal. f_equal.
  rewrite Z.mod_eq by (apply Z.pow_nonzero; lia). ring.
Qed.

Lemma ConvertIntToList_loop_length (k : nat) (value divisor : Z) :
  length (ConvertIntToList_loop k value divisor []) = k.
Proof.
  revert value divisor. induction k as [|k IH]; intros value divisor; [reflexivity|].
  cbn [ConvertIntToList_loop]. rewrite ConvertIntToList_loop_app. cbn. now rewrite IH.
Qed.

Lemma ConvertIntToList_loop_value (k : nat) (value : Z) :
  ConvertListToInt (rev (ConvertIntToList_loop (S k) value (256 ^ Z.of_nat k) [])) = value.
Proof.
  revert value. induction k as [|k IH]; intros value.
  - cbn. unfold ConvertListToInt. cbn. rewrite Z.div_1_r. lia.
  - rewrite ConvertIntToList_loop_step. cbn [rev].
    replace (Z.of_nat (S k) - 1) with (Z.of_nat k) by lia.
    rewrite ConvertListToInt_snoc, IH. unfold Py.len.
    rewrite length_rev, ConvertIntToList_loop_length.
    pose proof (Z.div_mod value (256 ^ Z.of_nat (S k))
                  ltac:(apply Z.pow_nonzero; lia)) as Hdm.
    lia.
Qed.

Lemma ConvertIntToList_loop_bytes (k : nat) (value : Z) :
  0 <= value < 256 ^ Z.of_nat (S k) ->
  Forall Py.is_byte (ConvertIntToList_loop (S k) value (256 ^ Z.of_nat k) []).
Proof.
  revert value. induction k as [|k IH]; intros value Hv.
  - cbn. rewrite Z.div_1_r. repeat constructor; cbn in Hv; lia.
  - rewrite ConvertIntToList_loop_step.
    replace (Z.of_nat (S k) - 1) with (Z.of_nat k) by lia.
    assert (Hpos : 0 < 256 ^ Z.of_nat (S k)) by (apply Z.pow_pos_nonneg; lia).
    constructor.
    + split; [apply Z.div_pos; lia|].
      apply Z.div_lt_upper_bound; [lia|].
      replace (Z.of_nat (S (S k))) with (Z.succ (Z.of_nat (S k))) in Hv by lia.
      rewrite Z.pow_succ_r in Hv by lia. lia.
    + apply IH. apply Z.mod_pos_bound. exact Hpos.
Qed.

(** [ConvertListToInt] undoes [ConvertIntToList]: for a length of at least
    one, the list [ConvertIntToList] gives has that length and
    [ConvertListToInt] reads the value back from it, whatever the value; the
    items are bytes exactly when the value fits the length, a value too
    large ending up whole in the last item. *)
Theorem ConvertListToInt_ConvertIntToList (value length_ : Z) :
  1 <= length_ ->
  Py.len (ConvertIntToList value length_) = length_
  /\ ConvertListToInt (ConvertIntToList value length_) = value
  /\ (0 <= value < 256 ^ length_ -> Forall Py.is_byte (ConvertIntToList value length_))
  /\ last (ConvertIntToList value length_) = Some (value / 256 ^ (length_ - 1)).
Proof.
  intros Hn. unfold ConvertIntToList.
  destruct (Z.to_nat length_) as [|k] eqn:Hk; [lia|].
  assert (Hlen : length_ = Z.of_nat (S k)) by lia.
  replace (length_ - 1) with (Z.of_nat k) by lia.
  split; [|split; [|split]].
  - unfold Py.len. rewrite length_rev, ConvertIntToList_loop_length. lia.
  - apply ConvertIntToList_loop_value.
  - intros Hv. apply Forall_rev, ConvertIntToList_loop_bytes. now rewrite <- Hlen.
  - rewrite ConvertIntToList_loop_step. cbn [rev]. apply last_snoc.
Qed.

Lemma ConvertListToInt_ConvertIntToList_witness :
  Py.len (ConvertIntToList 0x12345 2) = 2
  /\ ConvertListToInt (ConvertIntToList 0x12345 2) = 0x12345
  /\ (0 <= 0x12345 < 256 ^ 2 -> Forall Py.is_byte (ConvertIntToList 0x12345 2))
  /\ last (ConvertIntToList 0x12345 2) = Some (0x12345 / 256 ^ (2 - 1)).
Proof. apply (ConvertListToInt_ConvertIntToList 0x12345 2). lia. Defined.

(** [ConvertIntToList] undoes [ConvertListToInt] on a list of bytes, at the
    length of the list. *)
Theorem ConvertIntToList_ConvertListToInt (thisList : list Z) :
  Forall Py.is_byte thisList ->
  ConvertIntToList (ConvertListToInt thisList) (Py.len thisList) = thisList.
Proof.
  unfold ConvertIntToList, Py.len. rewrite Nat2Z.id.
  induction thisList as [|x l IH] using rev_ind; intros Hbytes; [reflexivity|].
  apply Forall_app in Hbytes as [Hl Hx]. apply Forall_cons in Hx as [[Hlo Hhi] _].
  rewrite length_app. cbn [length].
  replace (length l + 1)%nat with (S (length l)) by lia.
  replace (Z.of_nat (S (length l)) - 1) with (Z.of_nat (length l)) by lia.
  rewrite ConvertIntToList_loop_step, ConvertListToInt_snoc. unfold Py.len.
  pose proof (ConvertListToInt_bounds l Hl) as Hb. unfold Py.len in Hb.
  assert (Hpos : 0 < 256 ^ Z.of_nat (length l)) by (apply Z.pow_pos_nonneg; lia).
  assert (Hdiv : (ConvertListToInt l + 256 ^ Z.of_nat (length l) * x)
                 / 256 ^ Z.of_nat (length l) = x).
  { rewrite Z.mul_comm, Z.div_add by lia. rewrite Z.div_small by lia. lia. }
  assert (Hmod : (ConvertListToInt l + 256 ^ Z.of_nat (length l) * x)
                 mod 256 ^ Z.of_nat (length l) = ConvertListToInt l).
  { rewrite Z.mul_comm, Z.mod_add by lia. apply Z.mod_small. lia. }
  rewrite Hdiv, Hmod. cbn [rev]. now rewrite IH.
Qed.

Lemma ConvertIntToList_ConvertListToInt_witness :
  ConvertIntToList (ConvertListToInt [0x34; 0x12; 0; 7]) (Py.len [0x34; 0x12; 0; 7])
  = [0x34; 0x12; 0; 7].
Proof.
  apply (ConvertIntToList_ConvertListToInt [0x34; 0x12; 0; 7]).
  repeat (constructor; [unfold Py.is_byte; lia|]); constructor.
Defined.

End Conversion.
(** ** The tag check of [AesCcmDecrypt] *)

Section TagCheck.

Import BleXim.

Lemma StringToBytes_inj (s1 s2 : list byte) :
  StringToBytes s1 = StringToBytes s2 -> s1 = s2.
Proof.
  intros H. apply (f_equal BytesToString) in H.
  rewrite !BytesToString_StringToBytes in H. now injection H.
Qed.

Lemma BytesToString_back (bytes : list Z) (str : list byte) :
  BytesToString bytes = Some str -> StringToBytes str = bytes.
Proof.
  unfold BytesToString, StringToBytes. revert str.
  induction bytes as [|val bytes IH]; intros str H; cbn [mapM] in H.
  - cbn in H. injection H as <-. reflexivity.
  - destruct ((0 <=? val) && (val <? 256)) eqn:Hrange; [|discriminate].
    apply andb_true_iff in Hrange as [Hlo%Z.leb_le Hhi%Z.ltb_lt].
    destruct (Byte.of_N (Z.to_N val)) as [b|] eqn:Hb; [|discriminate].
    cbn [mbind option_bind] in H.
    destruct (mapM _ bytes) as [rest|] eqn:Hrest; [|discriminate].
    cbn in H. injection H as <-. cbn [map]. rewrite (IH rest eq_refl). f_equal.
    unfold CCM.Z_of_byte. apply Byte.to_of_N in Hb. rewrite Hb. lia.
Qed.

Lemma AesCcmDecrypt_after_encrypt (key nonce plaintext : list Z) :
  length key = 16%nat -> length nonce = 13%nat ->
  Forall Py.is_byte key -> Forall Py.is_byte nonce -> Forall Py.is_byte plaintext ->
  Py.len plaintext < 65536 ->
  exists ciphertext tag,
    AesCcmEncrypt key nonce plaintext = Some (ciphertext, tag)
    /\ length ciphertext = length plaintext /\ length tag = 4%nat
    /\ Forall Py.is_byte ciphertext /\ Forall Py.is_byte tag
    /\ forall mac,
         AesCcmDecrypt key nonce ciphertext mac
         = Some (plaintext, bool_decide (mac = tag)).
Proof.
  intros Hklen Hnlen Hk Hn Hp Hplen.
  destruct (BytesToString_in_range _ Hk) as (k & Hks & Hkl & _).
  destruct (BytesToString_in_range _ Hn) as (n & Hns & Hnl & _).
  destruct (BytesToString_in_range _ Hp) as (d & Hds & Hdl & Hdback).
  assert (HE : forall b, length (CCM.aes k b) = 16%nat)
    by (intros b; apply aes_block_length; congruence).
  assert (Hnew : CCM.new k n 4 =
                 Some {| CCM.block_fn := CCM.aes k; CCM.c_nonce := n; CCM.c_mac_len := 4;
                         CCM.c_assoc := []; CCM.c_msg := [] |}).
  { unfold CCM.new. rewrite Hkl, Hklen, Hnl, Hnlen. reflexivity. }
  assert (Hfits : forall x c, length x = length d -> CCM.c_nonce c = n ->
                              CCM.fits c x = true).
  { intros x c Hx Hc. unfold CCM.fits, CCM.q, Py.len. rewrite Hc, Hnl, Hnlen, Hx, Hdl.
    apply Z.ltb_lt. exact Hplen. }
  assert (Hbytes : forall str, Forall Py.is_byte (StringToBytes str)).
  { intros str. unfold StringToBytes. apply Forall_forall. intros z Hz.
    apply list_elem_of_In, in_map_iff in Hz as (b & <- & _).
    unfold Py.is_byte, CCM.Z_of_byte. pose proof (Byte.to_N_bounded b). lia. }
  exists (StringToBytes (CCM.ctr (CCM.aes k) n d)).
  exists (StringToBytes (CCM.tag (CCM.aes k) n 4 [x01] d)).
  split.
  { unfold AesCcmEncrypt. rewrite Hks, Hns. cbn [mbind option_bind]. rewrite Hnew.
    cbn [mbind option_bind]. change (BytesToString [1]) with (Some [x01]).
    cbn [mbind option_bind]. rewrite Hds. cbn [mbind option_bind].
    unfold CCM.encrypt. rewrite Hfits by reflexivity. reflexivity. }
  split; [rewrite StringToBytes_length, ctr_length by exact HE; exact Hdl|].
  split; [rewrite StringToBytes_length, tag_length by (exact HE || lia); reflexivity|].
  split; [apply Hbytes|]. split; [apply Hbytes|].
  intros mac.
  unfold AesCcmDecrypt. rewrite Hks, Hns. cbn [mbind option_bind]. rewrite Hnew.
  cbn [mbind option_bind]. change (BytesToString [1]) with (Some [x01]).
  cbn [mbind option_bind]. rewrite !BytesToString_StringToBytes.
  cbn [mbind option_bind]. unfold CCM.decrypt.
  rewrite Hfits by (first [apply ctr_length; exact HE | reflexivity]).
  cbn [CCM.block_fn CCM.c_nonce CCM.update]. rewrite ctr_involutive by exact HE.
  cbn [mbind option_bind]. rewrite Hdback.
  apply (f_equal (fun isValid : bool => Some (plaintext, isValid))).
  unfold CCM.verify, CCM.digest.
  cbn [CCM.with_msg CCM.update CCM.block_fn CCM.c_nonce CCM.c_mac_len CCM.c_assoc
       CCM.c_msg app].
  destruct (BytesToString mac) as [m|] eqn:Hm.
  - apply BytesToString_back in Hm. subst mac.
    destruct (decide (CCM.tag (CCM.aes k) n 4 [x01] d = m)) as [->|Hne].
    + now rewrite !bool_decide_eq_true_2.
    + rewrite !bool_decide_eq_false_2; [reflexivity| |exact Hne].
      intros Heq. apply StringToBytes_inj in Heq. congruence.
  - symmetry. apply bool_decide_eq_false_2. intros ->.
    rewrite BytesToString_StringToBytes in Hm. discriminate.
Qed.

(** [AesCcmDecrypt] hands back the decrypted data whatever tag it is given:
    a tag that is not the one [AesCcmEncrypt] produced makes it answer
    [isValid = False] beside the plaintext, it raises nothing; [isValid] is
    [True] exactly for the tag produced. *)
Theorem AesCcmDecrypt_checks_tag (key nonce plaintext ciphertext tag mac : list Z) :
  length key = 16%nat -> length nonce = 13%nat ->
  Forall Py.is_byte key -> Forall Py.is_byte nonce -> Forall Py.is_byte plaintext ->
  Py.len plaintext < 65536 ->
  AesCcmEncrypt key nonce plaintext = Some (ciphertext, tag) ->
  AesCcmDecrypt key nonce ciphertext mac = Some (plaintext, bool_decide (mac = tag)).
Proof.
  intros Hklen Hnlen Hk Hn Hp Hplen Henc.
  destruct (AesCcmDecrypt_after_encrypt key nonce plaintext Hklen Hnlen Hk Hn Hp Hplen)
    as (ciphertext' & tag' & Henc' & _ & _ & _ & _ & Hdec).
  rewrite Henc' in Henc. apply (inj Some) in Henc. apply pair_equal_spec in Henc.
  destruct Henc as [<- <-]. apply Hdec.
Qed.


Lemma AesCcmDecrypt_checks_tag_witness :
  AesCcmDecrypt [0; 1; 2; 3; 4; 5; 6; 7; 8; 9; 10; 11; 12; 13; 14; 15]
                [0x34; 0x12; 7; 0; 0; 0; 0; 0; 0; 0; 0; 0; 0] [253; 14; 167; 40]
                [57; 70; 109; 146]
  = Some ([0x10; 1; 0; 50], bool_decide ([57; 70; 109; 146] = [57; 70; 109; 145])).
Proof.
  apply (AesCcmDecrypt_checks_tag
           [0; 1; 2; 3; 4; 5; 6; 7; 8; 9; 10; 11; 12; 13; 14; 15]
           [0x34; 0x12; 7; 0; 0; 0; 0; 0; 0; 0; 0; 0; 0] [0x10; 1; 0; 50]);
    try reflexivity;
    repeat (constructor; [unfold Py.is_byte; lia|]); constructor.
Defined.

End TagCheck.

(** ** Replacing a file *)

Section Replacing.

Import BleXim.

Lemma run_isfile_bind {B} name (f : bool -> M B) st :
  (isfile name ≫= f) st = f (bool_decide (is_Some (files st !! name))) st.
Proof. reflexivity. Qed.

Lemma run_remove_bind {B} name (f : unit -> M B) st :
  (remove name ≫= f) st
  = f tt (with_files (delete name (files st))
            (with_trace (trace st ++ [File (Remove name)]) st)).
Proof. reflexivity. Qed.

Lemma run_rename src dst st :
  rename src dst st
  = match files st !! src with
    | Some content =>
        (Some tt, with_files (<[dst := content]> (delete src (files st)))
                    (with_trace (trace st ++ [File (Rename src dst)]) st))
    | None => (None, with_trace (trace st ++ [File (Rename src dst)]) st)
    end.
Proof.
  unfold rename, emit. rewrite run_modify_bind, run_bind.
  cbn [files with_trace]. destruct (files st !! src); reflexivity.
Qed.

Lemma RenameSafely_attempts_new_missing budget newFileName oldFileName st :
  files st !! newFileName = None ->
  RenameSafely_attempts budget newFileName oldFileName st = (Some tt, st).
Proof.
  intros Hnew. destruct budget as [|budget]; [reflexivity|].
  cbn [RenameSafely_attempts]. rewrite !run_isfile_bind, Hnew.
  rewrite (bool_decide_eq_false_2 (is_Some None)) by (intros [? ?]; discriminate).
  rewrite andb_false_r. reflexivity.
Qed.

Lemma RenameSafely_attempts_old_missing budget newFileName oldFileName st :
  files st !! oldFileName = None ->
  RenameSafely_attempts budget newFileName oldFileName st = (Some tt, st).
Proof.
  intros Hold. destruct budget as [|budget]; [reflexivity|].
  cbn [RenameSafely_attempts]. rewrite !run_isfile_bind, Hold.
  rewrite (bool_decide_eq_false_2 (is_Some None)) by (intros [? ?]; discriminate).
  reflexivity.
Qed.

Lemma RenameSafely_attempts_removes budget newFileName oldFileName st :
  is_Some (files st !! oldFileName) -> is_Some (files st !! newFileName) ->
  RenameSafely_attempts (S budget) newFileName oldFileName st
  = (Some tt, with_files (delete oldFileName (files st))
                (with_trace (trace st ++ [File (Remove oldFileName)]) st)).
Proof.
  intros Hold Hnew. cbn [RenameSafely_attempts]. rewrite !run_isfile_bind.
  rewrite !bool_decide_eq_true_2 by assumption. cbn [andb].
  rewrite run_remove_bind. apply RenameSafely_attempts_old_missing.
  cbn [files with_files with_trace]. apply lookup_delete_eq.
Qed.

Lemma RenameSafely_new_present newFileName oldFileName content st :
  newFileName <> oldFileName ->
  files st !! newFileName = Some content ->
  exists st',
    RenameSafely newFileName oldFileName st = (Some tt, st')
    /\ files st' = <[oldFileName := content]> (delete newFileName (files st))
    /\ exists more, trace st' = trace st ++ more.
Proof.
  intros Hne Hnew. unfold RenameSafely.
  assert (Hloop : exists s1,
            RenameSafely_attempts 3 newFileName oldFileName st = (Some tt, s1)
            /\ files s1 = delete oldFileName (files st)
            /\ exists more, trace s1 = trace st ++ more).
  { destruct (files st !! oldFileName) as [previous|] eqn:Hold.
    - eexists. split; [apply RenameSafely_attempts_removes; eauto|].
      split; [reflexivity|]. eexists. reflexivity.
    - exists st. split; [now apply RenameSafely_attempts_old_missing|].
      split; [symmetry; now apply delete_id|]. exists []. now rewrite app_nil_r. }
  destruct Hloop as (s1 & Hloop & Hfiles1 & more1 & Htrace1).
  erewrite run_bind_Some by exact Hloop.
  rewrite !run_isfile_bind, Hfiles1, lookup_delete_eq, lookup_delete_ne, Hnew by congruence.
  rewrite (bool_decide_eq_false_2 (is_Some None)) by (intros [? ?]; discriminate).
  rewrite bool_decide_eq_true_2 by eauto. cbn [negb andb].
  rewrite run_rename, Hfiles1, lookup_delete_ne, Hnew by congruence.
  eexists. split; [reflexivity|]. cbn [files trace with_files with_trace]. split.
  - apply map_eq. intros name.
    destruct (decide (name = oldFileName)) as [->|Hn1].
    + now rewrite !lookup_insert_eq.
    + rewrite !lookup_insert_ne by congruence.
      destruct (decide (name = newFileName)) as [->|Hn2].
      * now rewrite !lookup_delete_eq.
      * now rewrite !lookup_delete_ne by congruence.
  - eexists. rewrite Htrace1, <- app_assoc. reflexivity.
Qed.

Lemma RenameSafely_new_missing newFileName oldFileName st :
  files st !! newFileName = None ->
  RenameSafely newFileName oldFileName st = (Some tt, st).
Proof.
  intros Hnew. unfold RenameSafely.
  rewrite (run_bind_Some _ _ _ _ _
             (RenameSafely_attempts_new_missing 3 newFileName oldFileName st Hnew)).
  rewrite !run_isfile_bind, Hnew.
  rewrite (bool_decide_eq_false_2 (is_Some None)) by (intros [? ?]; discriminate).
  rewrite andb_false_r. reflexivity.
Qed.

(** [RenameSafely(newFileName, oldFileName)] with two different names: when
    the new file exists, the old name ends up holding what the new file
    held and the new name is gone, whether or not the old file existed, and
    no other file is touched; when the new file does not exist nothing is
    done, so the old file is kept. It raises in neither case. *)
Theorem RenameSafely_replaces (newFileName oldFileName : string) (st : state) :
  newFileName <> oldFileName ->
  match files st !! newFileName with
  | Some content =>
      exists st',
        RenameSafely newFileName oldFileName st = (Some tt, st')
        /\ files st' = <[oldFileName := content]> (delete newFileName (files st))
  | None => RenameSafely newFileName oldFileName st = (Some tt, st)
  end.
Proof.
  intros Hne. destruct (files st !! newFileName) as [content|] eqn:Hnew.
  - destruct (RenameSafely_new_present _ _ _ _ Hne Hnew) as (st' & Hrun & Hfiles & _).
    eauto.
  - now apply RenameSafely_new_missing.
Qed.

Lemma RenameSafely_replaces_witness :
  exists st',
    RenameSafely "map.tmp" "map.csv"
      (with_files (<["map.tmp" := ["new"]]> (<["map.csv" := ["old"]]> ∅)) Samples.st_a)
    = (Some tt, st')
    /\ files st' = <["map.csv" := ["new"]]>
                     (delete "map.tmp" (<["map.tmp" := ["new"]]> (<["map.csv" := ["old"]]> ∅))).
Proof.
  pose proof (RenameSafely_replaces "map.tmp" "map.csv"
                (with_files (<["map.tmp" := ["new"]]> (<["map.csv" := ["old"]]> ∅))
                            Samples.st_a) ltac:(discriminate)) as H.
  cbn [files with_files] in H. rewrite lookup_insert_eq in H. exact H.
Defined.

Lemma append_inj_r (prefix s1 s2 : string) : prefix +:+ s1 = prefix +:+ s2 -> s1 = s2.
Proof.
  induction prefix as [|c prefix IH]; cbn; [trivial|]. intros H. injection H as H. auto.
Qed.

Lemma run_open_w_bind {B} name (f : unit -> M B) st :
  (open_w name ≫= f) st
  = f tt (with_files (<[name := []]> (files st))
            (with_trace (trace st ++ [File (OpenWrite name)]) st)).
Proof. reflexivity. Qed.

Lemma write_line_run name line st :
  write_line name line st
  = (Some tt,
     with_files (<[name := default [] (files st !! name) ++ [line]]> (files st))
       (with_trace (trace st ++ [File (WriteLine name line)]) st)).
Proof. reflexivity. Qed.

Lemma write_lines_run name (lines : list string) :
  forall (acc : M unit) st s1 written,
    acc st = (Some tt, s1) ->
    files s1 !! name = Some written ->
    exists s2,
      foldl (fun (acc : M unit) line => acc;; write_line name line) acc lines st
      = (Some tt, s2)
      /\ files s2 = <[name := written ++ lines]> (files s1)
      /\ exists more, trace s2 = trace s1 ++ more.
Proof.
  induction lines as [|line lines IH]; intros acc st s1 written Hacc Hname; cbn [foldl].
  - exists s1. split; [exact Hacc|]. rewrite app_nil_r. split.
    + symmetry. now apply insert_id.
    + exists []. now rewrite app_nil_r.
  - edestruct (IH (acc;; write_line name line) st) as (s2 & Hrun & Hfiles & more & Htrace).
    + erewrite run_bind_Some by exact Hacc. apply write_line_run.
    + cbn [files with_files with_trace]. apply lookup_insert_eq.
    + exists s2. split; [exact Hrun|]. split.
      * rewrite Hfiles. cbn [files with_files with_trace]. rewrite Hname. cbn [default].
        rewrite insert_insert_eq, <- app_assoc. reflexivity.
      * rewrite Htrace. cbn [trace with_files with_trace]. eexists.
        rewrite <- app_assoc. reflexivity.
Qed.

(** [UpdateAttributeInfoFile(device)] only ever adds to the handle cache:
    for a device whose handles are all resolved, the cache file ends up
    holding the lines it held, in order, followed by the line of the device,
    and the temporary file is gone; for a device with a handle missing it
    writes nothing; when there is no cache file to read it raises before
    writing anything. *)
Theorem UpdateAttributeInfoFile_appends (device : BleDevice) (st : state) :
  let thisList := if bootloaderMode device then blAttributeList device
                  else attributeList device in
  let fileName := if deviceType device =? DEVICE_TYPE_XIM
                  then uuidHandleMapFileName st else sensorUuidHandleMapFileName st in
  let fileNameTemp := if deviceType device =? DEVICE_TYPE_XIM
                      then uuidHandleMapFileNameTemp st
                      else sensorUuidHandleMapFileNameTemp st in
  match files st !! fileName, attribute_info_line device thisList with
  | Some lines, Some (newLine, false) =>
      exists st',
        UpdateAttributeInfoFile device st = (Some tt, st')
        /\ files st' = <[fileName := lines ++ [newLine]]> (delete fileNameTemp (files st))
  | Some lines, Some (newLine, true) => UpdateAttributeInfoFile device st = (Some tt, st)
  | Some lines, None => UpdateAttributeInfoFile device st = (None, st)
  | None, _ => UpdateAttributeInfoFile device st = (None, st)
  end.
Proof.
  cbv zeta. unfold UpdateAttributeInfoFile. rewrite !run_gets_bind.
  set (thisList := if bootloaderMode device then _ else _).
  set (fileName := (if deviceType device =? DEVICE_TYPE_XIM
                    then uuidHandleMapFileName else sensorUuidHandleMapFileName) st).
  set (fileNameTemp := (if deviceType device =? DEVICE_TYPE_XIM
                        then uuidHandleMapFileNameTemp
                        else sensorUuidHandleMapFileNameTemp) st).
  assert (Hne : fileNameTemp <> fileName).
  { unfold fileNameTemp, fileName, uuidHandleMapFileName, uuidHandleMapFileNameTemp,
      sensorUuidHandleMapFileName, sensorUuidHandleMapFileNameTemp.
    destruct (deviceType device =? DEVICE_TYPE_XIM); intros H%append_inj_r; discriminate. }
  replace (if deviceType device =? DEVICE_TYPE_XIM
           then uuidHandleMapFileName st else sensorUuidHandleMapFileName st)
    with fileName by (unfold fileName; now destruct (deviceType device =? DEVICE_TYPE_XIM)).
  replace (if deviceType device =? DEVICE_TYPE_XIM
           then uuidHandleMapFileNameTemp st else sensorUuidHandleMapFileNameTemp st)
    with fileNameTemp
    by (unfold fileNameTemp; now destruct (deviceType device =? DEVICE_TYPE_XIM)).
  rewrite run_bind. unfold readlines.
  destruct (files st !! fileName) as [lines|] eqn:Hlines; [|reflexivity].
  rewrite run_lift_bind.
  destruct (attribute_info_line device thisList) as [[newLine [|]]|]; [reflexivity| |reflexivity].
  cbn [negb]. rewrite run_open_w_bind, run_bind.
  match goal with
  | |- context [ foldl _ (mret tt) _ ?s ] =>
      destruct (write_lines_run fileNameTemp (lines ++ [newLine]) (mret tt) s s []
                  (run_ret tt s))
        as (s2 & Hrun & Hfiles & more & Htrace); [apply lookup_insert_eq|]
  end.
  rewrite Hrun.
  cbn [files with_files with_trace app] in Hfiles.
  rewrite insert_insert_eq in Hfiles.
  destruct (RenameSafely_new_present fileNameTemp fileName (lines ++ [newLine]) s2 Hne)
    as (st' & Hrename & Hfiles' & _).
  { rewrite Hfiles. apply lookup_insert_eq. }
  exists st'. split; [exact Hrename|]. rewrite Hfiles', Hfiles.
  now rewrite delete_insert_eq.
Qed.

End Replacing.

(** ** Serving the command queue *)

Section QueueOrder.

Import XimGateway XimGatewayRun.

Context {V T : Type}.

Lemma GetDeviceByDevIndex_SetIntensity (g : gateway V T) index intensity other :
  GetDeviceByDevIndex (SetIntensity index intensity g) other = GetDeviceByDevIndex g other.
Proof.
  unfold SetIntensity. now destruct (GetDeviceByDevIndex g index).
Qed.

(** The command queue is served first in, first out. [GetCommandFromQueue]
    hands out the oldest command, with index 0, exactly when the queue is
    not empty; [RemoveCommandFromQueue] at the index handed out removes that
    command and keeps the others in order; a command [SetIntensity] or
    [SetIndicate] queues behind others never changes which command is
    handed out next. *)
Theorem command_queue_first_in_first_out
    (low high : V) (g : gateway V T) (index : Z) (intensity : V) :
  (GetCommandFromQueue g = None <-> commandQueue g = [])
  /\ (forall commandInfo i,
        GetCommandFromQueue g = Some (commandInfo, i) ->
        exists g',
          RemoveCommandFromQueue (Z.of_nat i) g = Some g'
          /\ commandQueue g = commandInfo :: commandQueue g'
          /\ ximList g' = ximList g)
  /\ (commandQueue g <> [] ->
      GetCommandFromQueue (SetIntensity index intensity g) = GetCommandFromQueue g
      /\ GetCommandFromQueue (SetIndicate low high index g) = GetCommandFromQueue g).
Proof.
  split; [|split].
  - unfold GetCommandFromQueue. destruct (commandQueue g); split; congruence.
  - intros commandInfo i. unfold GetCommandFromQueue, RemoveCommandFromQueue.
    destruct (commandQueue g) as [|c q] eqn:Hq; [discriminate|].
    intros H. injection H as <- <-. eexists. split; [|split].
    + unfold Py.len. change (Z.of_nat 0) with 0. change (0 <? 0) with false.
      cbv iota. change (0 <=? 0) with true.
      rewrite (proj2 (Z.ltb_lt 0 _)) by (cbn [length]; lia). reflexivity.
    + reflexivity.
    + reflexivity.
  - intros Hq. unfold GetCommandFromQueue, SetIntensity, SetIndicate.
    destruct (GetDeviceByDevIndex g index); cbn [commandQueue];
      destruct (commandQueue g); try congruence; split; reflexivity.
Qed.

End QueueOrder.

Section BigEndian.

Import XimGatewayRun.

Lemma ConvertBytesToValue_loop_spec (bytes : list Z) :
  forall (n : nat) (value factor : Z),
    (n <= length bytes)%nat ->
    ConvertBytesToValue_loop n bytes value factor
    = Some (value + factor * BleXim.ConvertListToInt (rev (take n bytes))).
Proof.
  induction bytes as [|b bytes IH] using rev_ind; intros n value factor Hn.
  - destruct n; [|cbn in Hn; lia]. cbn. f_equal. unfold BleXim.ConvertListToInt. cbn. ring.
  - rewrite length_app in Hn. cbn [length] in Hn.
    destruct (decide (n = S (length bytes))) as [->|Hlt].
    + cbn [ConvertBytesToValue_loop].
      rewrite lookup_app_r, Nat.sub_diag by lia. cbn [lookup list_lookup mbind option_bind].
      assert (Hloop : forall m v f, (m <= length bytes)%nat ->
                ConvertBytesToValue_loop m (bytes ++ [b]) v f
                = ConvertBytesToValue_loop m bytes v f).
      { clear. induction m as [|m IHm]; intros v f Hm; [reflexivity|].
        cbn [ConvertBytesToValue_loop]. rewrite lookup_app_l by lia.
        destruct (bytes !! m); [|reflexivity]. cbn [mbind option_bind]. apply IHm. lia. }
      rewrite Hloop, IH by lia. f_equal.
      rewrite !take_ge by (rewrite ?length_app; cbn [length]; lia). rewrite rev_app_distr. cbn [rev app].
      rewrite ConvertListToInt_cons. ring.
    + assert (Hle : (n <= length bytes)%nat) by lia.
      assert (Hloop : forall m v f, (m <= length bytes)%nat ->
                ConvertBytesToValue_loop m (bytes ++ [b]) v f
                = ConvertBytesToValue_loop m bytes v f).
      { clear. induction m as [|m IHm]; intros v f Hm; [reflexivity|].
        cbn [ConvertBytesToValue_loop]. rewrite lookup_app_l by lia.
        destruct (bytes !! m); [|reflexivity]. cbn [mbind option_bind]. apply IHm. lia. }
      rewrite Hloop, IH by lia. rewrite take_app_le by lia. reflexivity.
Qed.

(** [ximGateway.ConvertBytesToValue] never fails and reads its list
    big-endian: it gives what [ble_xim.ConvertListToInt] gives for the list
    reversed, the last item counting once and each item before it 256 times
    the next; for a list of bytes the value lies below 256 to the power of
    the length. *)
Theorem ConvertBytesToValue_big_endian (bytes : list Z) (b : Z) :
  ConvertBytesToValue bytes = Some (BleXim.ConvertListToInt (rev bytes))
  /\ ConvertBytesToValue (bytes ++ [b])
     = Some (256 * BleXim.ConvertListToInt (rev bytes) + b)
  /\ (Forall Py.is_byte bytes ->
      0 <= BleXim.ConvertListToInt (rev bytes) < 256 ^ Py.len bytes).
Proof.
  assert (Hvalue : forall l, ConvertBytesToValue l = Some (BleXim.ConvertListToInt (rev l))).
  { intros l. unfold ConvertBytesToValue.
    rewrite ConvertBytesToValue_loop_spec by lia. rewrite take_ge by lia. f_equal. ring. }
  split; [apply Hvalue|]. split.
  - rewrite Hvalue, rev_app_distr. cbn [rev app]. rewrite ConvertListToInt_cons.
    f_equal. ring.
  - intros Hbytes. pose proof (ConvertListToInt_bounds (rev bytes)) as Hb.
    unfold Py.len in *. rewrite length_rev in Hb. apply Hb. now apply Forall_rev.
Qed.

End BigEndian.

(** ** Single writes and refusals *)

Section SingleWrite.

Import BleXim.

Variable discovery_completed : nat -> Z -> M unit.

Variables (devices : list BleDevice) (i : nat) (h : Z) (d0 : BleDevice).
Hypothesis Hfirst :
  list_find (fun device => connection_handle device = Some h) devices = Some (i, d0).

Lemma poll_loop_awaits_status pending :
  forall fuel st d,
    (length pending < fuel)%nat ->
    inbox st = pending ->
    linked devices i h st d ->
    packetStatus d = None ->
    Forall (concerns h devices) pending ->
    exists st' d',
      poll_loop discovery_completed fuel (unanswered i) st = (Some tt, st')
      /\ linked devices i h st' d'
      /\ inbox st' = (await h pending).2
      /\ trace st' = trace st
      /\ packetStatus d' = (await h pending).1.
Proof using Hfirst.
  induction pending as [|t pending IH]; intros fuel st d Hfuel Hinbox Hl Hstatus Hall.
  all: destruct fuel as [|fuel]; [simpl in Hfuel; lia|].
  all: assert (Hwaiting : (unanswered i) st = true)
         by (unfold unanswered;
             rewrite (linked_lookup devices i h d0 Hfirst _ _ Hl), Hstatus;
             reflexivity).
  all: cbn [poll_loop]; rewrite run_gets_bind, Hwaiting, run_gets_bind, Hinbox.
  - exists st, d. cbn [await fst snd]. rewrite run_ret. repeat split; auto; apply Hl.
  - apply Forall_cons in Hall as [Ht Hall].
    destruct t as [[c r]|].
    + rewrite run_modify_bind. cbn [dispatch await].
      assert (Hl1 : linked devices i h (with_inbox pending st) d) by exact Hl.
      destruct (Z.eqb_spec c h) as [->|Hc].
      * destruct (completed_on_link discovery_completed devices i h d0 Hfirst _ _ r Hl1)
          as (st' & d' & Hrun & Hl' & Hstatus' & Hdone & Hpending & Hinbox' & Htrace).
        erewrite run_bind_Some by exact Hrun.
        rewrite poll_loop_over.
        2:{ unfold unanswered.
            rewrite (linked_lookup devices i h d0 Hfirst _ _ Hl'), Hstatus'.
            reflexivity. }
        exists st', d'. cbn [fst snd]. cbn in Hinbox', Htrace.
        repeat split; auto; apply Hl'.
      * rewrite (run_bind_Some _ _ _ _ _
                   (completed_elsewhere discovery_completed devices i h d0 Hfirst
                      _ _ c r Hl1 Hc (Ht Hc))).
        destruct (IH fuel (with_pending_write false (with_inbox pending st)) d)
          as (st' & d' & Hrun & Hl' & Hinbox' & Htrace & Hack);
          [simpl in Hfuel; lia | reflexivity | exact Hl | exact Hstatus | exact Hall |].
        exists st', d'. cbn in Htrace. repeat split; auto; apply Hl'.
    + exists (with_inbox pending st), d. cbn [await fst snd].
      repeat split; auto; apply Hl.
Qed.

Lemma TransmitPacket_single_run st addressValue txPacket uuid_ handle_ :
  peripheral_list st = devices ->
  list_find (fun device => address device = addressValue) devices = Some (i, d0) ->
  connectionState d0 = STATE_LISTENING_DATA ->
  GetHandle d0 uuid_ = Some handle_ ->
  handle_ <> 0 ->
  pending_write st = false ->
  Py.len txPacket <= MAX_GATT_WRITE_SIZE ->
  Forall (concerns h devices) (inbox st) ->
  exists st',
    TransmitPacket discovery_completed addressValue txPacket uuid_ st
    = (Some (bool_decide ((await h (inbox st)).1 = Some 0)), st')
    /\ inbox st' = (await h (inbox st)).2
    /\ trace st'
       = trace st ++ [Sent (ble_cmd_attclient_attribute_write (Some h) handle_ txPacket)].
Proof using Hfirst.
  intros Hpl Haddr Hstate Hhandle Hnz Hidle Hshort Hall.
  pose proof Hfirst as Hf. apply list_find_Some in Hf as (Hi & Hh & _).
  assert (Hl : linked devices i h st d0).
  { split; [|split; assumption]. rewrite Hpl. symmetry. now apply list_insert_id. }
  unfold TransmitPacket, GetDeviceWithAddress. rewrite run_gets_bind, Hpl, Haddr.
  cbn [fmap option_fmap option_map fst].
  rewrite run_device_at_bind, (linked_lookup devices i h d0 Hfirst _ _ Hl).
  assert (Hconnected : IsConnected d0 = true).
  { unfold IsConnected. rewrite Hstate, Hh. reflexivity. }
  rewrite Hconnected. cbn [orb].
  assert (Hpoll : poll discovery_completed pending_write st = (Some tt, st)).
  { unfold poll. rewrite run_gets_bind. now apply poll_loop_over. }
  erewrite run_bind_Some by exact Hpoll.
  rewrite run_device_at_bind, (linked_lookup devices i h d0 Hfirst _ _ Hl). cbv zeta.
  rewrite run_gets_bind, Hidle, Hhandle, Hh.
  rewrite (proj2 (Z.eqb_neq _ _) Hnz). cbn [negb andb].
  rewrite bool_decide_eq_true_2 by discriminate.
  rewrite (proj2 (Z.leb_le _ _) Hshort).
  rewrite run_update_device_bind.
  pose proof (linked_update devices i h d0 Hfirst _ _ (set_packetStatus None) Hl eq_refl eq_refl)
    as Hl1.
  rewrite run_device_at_bind, (linked_lookup devices i h d0 Hfirst _ _ Hl1).
  replace (connection_handle (set_packetStatus None d0)) with (Some h)
    by (symmetry; apply Hl1).
  unfold send_command, emit, SetBusyFlag. rewrite !run_modify_bind.
  unfold poll. rewrite run_bind, run_gets_bind.
  match goal with
  | |- context [ poll_loop _ ?fuel _ ?s ] =>
      destruct (poll_loop_awaits_status (inbox s) fuel s (set_packetStatus None d0))
        as (st4 & d4 & Hwait & Hl4 & Hinbox4 & Htrace4 & Hack);
        [lia | reflexivity | exact Hl1 | reflexivity | exact Hall |]
  end.
  change (unanswered i)
    with (fun st : state => match peripheral_list st !! i with
                            | Some d => bool_decide (packetStatus d = None)
                            | None => false
                            end) in Hwait.
  rewrite Hwait.
  rewrite run_device_at_bind, (linked_lookup devices i h d0 Hfirst _ _ Hl4), run_ret.
  cbn [inbox with_pending_write with_trace with_peripheral_list] in Hinbox4, Hack.
  cbn [trace with_pending_write with_trace with_peripheral_list] in Htrace4.
  exists st4. rewrite Hack. auto.
Qed.

End SingleWrite.

Section Refusals.

Import BleXim Samples.

(** [TransmitPacket] on a payload within the single-write limit, for a
    listening device with the characteristic resolved to a non-zero handle
    and no write pending: it sends one attribute write carrying the whole
    payload, waits for the completion on the device's connection, and
    returns [True] exactly when that completion arrives before the time
    bound with result 0; nothing is sent a second time. *)
Theorem TransmitPacket_single_write
    (discovery_completed : nat -> Z -> M unit) (st : state)
    (addressValue txPacket uuid_ : list Z) (i : nat) (d : BleDevice) (h handle_ : Z) :
  list_find (fun device => address device = addressValue) (peripheral_list st)
  = Some (i, d) ->
  list_find (fun device => connection_handle device = Some h) (peripheral_list st)
  = Some (i, d) ->
  connectionState d = STATE_LISTENING_DATA ->
  GetHandle d uuid_ = Some handle_ ->
  handle_ <> 0 ->
  pending_write st = false ->
  Py.len txPacket <= MAX_GATT_WRITE_SIZE ->
  Forall (concerns h (peripheral_list st)) (inbox st) ->
  exists st',
    TransmitPacket discovery_completed addressValue txPacket uuid_ st
    = (Some (bool_decide ((await h (inbox st)).1 = Some 0)), st')
    /\ inbox st' = (await h (inbox st)).2
    /\ trace st'
       = trace st ++ [Sent (ble_cmd_attclient_attribute_write (Some h) handle_ txPacket)].
Proof.
  intros Haddr Hfirst Hstate Hhandle Hnz Hidle Hshort Hall.
  exact (TransmitPacket_single_run discovery_completed (peripheral_list st) i h d Hfirst
           st addressValue txPacket uuid_ handle_
           eq_refl Haddr Hstate Hhandle Hnz Hidle Hshort Hall).
Qed.

Lemma TransmitPacket_single_write_witness :
  exists st',
    TransmitPacket discovery_idle [1; 2; 3; 4; 5; 6] [7; 8; 9] [0x2A; 0x19] st_refused
    = (Some (bool_decide ((await 3 (inbox st_refused)).1 = Some 0)), st')
    /\ inbox st' = (await 3 (inbox st_refused)).2
    /\ trace st'
       = trace st_refused ++ [Sent (ble_cmd_attclient_attribute_write (Some 3) 17 [7; 8; 9])].
Proof.
  apply (TransmitPacket_single_write discovery_idle st_refused [1; 2; 3; 4; 5; 6]
           [7; 8; 9] [0x2A; 0x19] 0 dev_linked 3 17).
  - vm_compute. reflexivity.
  - vm_compute. reflexivity.
  - reflexivity.
  - vm_compute. reflexivity.
  - discriminate.
  - reflexivity.
  - vm_compute. discriminate.
  - repeat constructor; intros Hc; exfalso; apply Hc; reflexivity.
Defined.

(** [TransmitPacket] refuses without touching anything: when no device of
    the registry has the address, or the device that has it is neither
    connected nor discovering, it returns [False] at once; no command is
    sent, no event is consumed and no field of the device is changed. *)
Theorem TransmitPacket_refuses
    (discovery_completed : nat -> Z -> M unit) (st : state)
    (addressValue txPacket uuid_ : list Z) :
  (forall i d,
     list_find (fun device => address device = addressValue) (peripheral_list st)
     = Some (i, d) ->
     IsConnected d = false /\ IsDiscovering d = false) ->
  TransmitPacket discovery_completed addressValue txPacket uuid_ st = (Some false, st).
Proof.
  intros Hrefused. unfold TransmitPacket, GetDeviceWithAddress. rewrite run_gets_bind.
  destruct (list_find _ (peripheral_list st)) as [[i d]|] eqn:Hfind; [|reflexivity].
  cbn [fmap option_fmap option_map fst].
  apply list_find_Some in Hfind as Hfound. destruct Hfound as (Hi & _).
  rewrite run_device_at_bind, Hi.
  destruct (Hrefused i d eq_refl) as [-> ->]. reflexivity.
Qed.

Lemma TransmitPacket_refuses_witness :
  TransmitPacket discovery_idle [1; 2; 3; 4; 5; 6] packet_a [0x2A; 0x19] st_a
  = (Some false, st_a).
Proof.
  apply (TransmitPacket_refuses discovery_idle st_a [1; 2; 3; 4; 5; 6] packet_a [0x2A; 0x19]).
  intros i d H. vm_compute in H. injection H as <- <-. split; reflexivity.
Defined.



End Refusals.

(** ** Choosing the packet layout *)

Section PacketLayout.

Import BleXim BleXimFurther.

(** [SetXBPacket] chooses the layout by the length of the destination. A
    destination of three values or more is cut to three and goes out in the
    unassigned layout: the call returns, the packet it advertises is the
    unassigned frame for the three values, no sequence number is issued,
    nothing is encrypted and no file is written. A destination of one value
    is handled by [SetXBAssignedPacket]. An empty destination or one of two
    values makes it raise before a sequence number is issued or anything is
    advertised. *)
Theorem SetXBPacket_layout (destination : list Z) (payloadType : Z) (payload : list Z)
    (st : state) :
  (forall d0 d1 d2 more, destination = d0 :: d1 :: d2 :: more ->
   exists st',
     SetXBPacket destination payloadType payload st = (Some tt, st')
     /\ networkConfigs st' = networkConfigs st
     /\ files st' = files st
     /\ trace st'
        = trace st
          ++ [Advertised ([2; 1; 6; 14 + Py.len payload; 0xFF; 0x53; 0x02; 0x04]
                          ++ ConvertIntToList (bleLocalDeviceId st) 2
                          ++ [d0; 0; 0; 0; 0; payloadType; d1; d2] ++ payload)])
  /\ (Py.len destination = 1 ->
      SetXBPacket destination payloadType payload st
      = SetXBAssignedPacket destination payloadType payload st)
  /\ (Py.len destination = 0 \/ Py.len destination = 2 ->
      SetXBPacket destination payloadType payload st = (None, st)).
Proof.
  split; [|split].
  - intros d0 d1 d2 more ->. unfold SetXBPacket.
    assert (Hcut : (if 3 <? Py.len (d0 :: d1 :: d2 :: more)
                    then Py.slice_to (d0 :: d1 :: d2 :: more) 3
                    else d0 :: d1 :: d2 :: more) = [d0; d1; d2]).
    { unfold Py.len, Py.slice_to, Py.norm. cbn [length].
      destruct (Z.ltb_spec 3 (Z.of_nat (S (S (S (length more)))))) as [Hlong|Hshort].
      - rewrite (proj2 (Z.ltb_ge 3 0)) by lia. rewrite Z.min_l by lia. reflexivity.
      - destruct more; [reflexivity|cbn [length] in Hshort; lia]. }
    cbv zeta. rewrite Hcut. change (Py.len [d0; d1; d2] =? 3) with true. cbv iota.
    unfold SetXBUnassignedPacket. rewrite run_gets_bind, run_lift_bind.
    change (item [d0; d1; d2] 0) with (Some d0). cbv iota.
    replace (11 + Py.len payload + Py.len [d0; d1; d2]) with (14 + Py.len payload)
      by (unfold Py.len; cbn [length]; lia).
    eexists. split; [reflexivity|]. repeat split.
  - intros Hlen. unfold SetXBPacket. cbv zeta.
    rewrite (proj2 (Z.ltb_ge 3 _)) by lia.
    rewrite Hlen. reflexivity.
  - intros Hlen. unfold SetXBPacket. cbv zeta.
    rewrite (proj2 (Z.ltb_ge 3 _)) by lia.
    rewrite (proj2 (Z.eqb_neq _ 3)) by lia.
    unfold SetXBAssignedPacket. rewrite run_lift_bind.
    rewrite (proj2 (Z.eqb_neq _ 1)) by lia. reflexivity.
Qed.

End PacketLayout.

(** ** Addressing devices *)

Section Addressing.

Import BleXim Samples.

(** [GetDevicesInGroup] picks devices of the registry, in registry order,
    and invents none. The broadcast address selects every device; a group
    address [0xC000 + g] selects the devices whose group table holds [g]
    or whose scanned identifier is the address itself; a plain address
    selects the devices scanned under it; an identifier of a length other
    than 1, 3 or 4 selects nothing. *)
Theorem GetDevicesInGroup_selects (peripherals : list BleDevice) (groupId : list Z) :
  sublist (GetDevicesInGroup peripherals groupId) peripherals
  /\ GetDevicesInGroup peripherals [BLEX_BROADCAST_ADDRESS] = peripherals
  /\ (forall g device,
        0 <= g <= BLEX_GROUP_ADDRESS_MAX - BLEX_GROUP_ADDRESS_MIN ->
        device ∈ GetDevicesInGroup peripherals [BLEX_GROUP_ADDRESS_MIN + g]
        <-> device ∈ peripherals
            /\ (scannedDeviceId device = Some [BLEX_GROUP_ADDRESS_MIN + g]
                \/ Some g ∈ groups device))
  /\ (forall a device,
        a < BLEX_GROUP_ADDRESS_MIN ->
        device ∈ GetDevicesInGroup peripherals [a]
        <-> device ∈ peripherals /\ scannedDeviceId device = Some [a])
  /\ (Py.len groupId <> 1 -> Py.len groupId <> 3 -> Py.len groupId <> 4 ->
      GetDevicesInGroup peripherals groupId = []).
Proof.
  assert (Hsub : forall (f : BleDevice -> bool) l, sublist (List.filter f l) l).
  { intros f l. induction l as [|x l IH]; cbn [List.filter]; [constructor|].
    destruct (f x); [now apply sublist_skip|now apply sublist_cons]. }
  assert (Hin : forall (f : BleDevice -> bool) l x,
            x ∈ List.filter f l <-> x ∈ l /\ f x = true).
  { intros f l x. rewrite !list_elem_of_In. apply filter_In. }
  split; [|split; [|split; [|split]]].
  - unfold GetDevicesInGroup.
    destruct (Py.len groupId =? 1); [apply Hsub|].
    destruct (Py.len groupId =? 3); [apply Hsub|].
    destruct (Py.len groupId =? 4); [apply Hsub|]. apply sublist_nil_l.
  - unfold GetDevicesInGroup.
    change (Py.len [BLEX_BROADCAST_ADDRESS] =? 1) with true. cbv iota.
    change (default 0 ([BLEX_BROADCAST_ADDRESS] !! 0%nat)) with BLEX_BROADCAST_ADDRESS.
    change (BLEX_BROADCAST_ADDRESS =? BLEX_BROADCAST_ADDRESS) with true.
    cbn [orb]. induction peripherals as [|x l IH]; [reflexivity|].
    cbn [List.filter]. now rewrite IH.
  - intros g device Hg. unfold GetDevicesInGroup.
    change (Py.len [BLEX_GROUP_ADDRESS_MIN + g] =? 1) with true. cbv iota.
    rewrite Hin.
    change (default 0 ([BLEX_GROUP_ADDRESS_MIN + g] !! 0%nat))
      with (BLEX_GROUP_ADDRESS_MIN + g).
    unfold BLEX_GROUP_ADDRESS_MAX, BLEX_GROUP_ADDRESS_MIN, BLEX_BROADCAST_ADDRESS in *.
    rewrite (proj2 (Z.eqb_neq _ 65535)) by lia. cbn [orb].
    rewrite (proj2 (Z.leb_le 49152 _)) by lia.
    rewrite (proj2 (Z.leb_le _ 65534)) by lia. cbn [andb].
    replace (49152 + g - 49152) with g by lia. unfold in_groups.
    rewrite orb_true_iff, !bool_decide_eq_true. reflexivity.
  - intros a device Ha. unfold GetDevicesInGroup.
    change (Py.len [a] =? 1) with true. cbv iota.
    rewrite Hin. change (default 0 ([a] !! 0%nat)) with a.
    unfold BLEX_GROUP_ADDRESS_MAX, BLEX_GROUP_ADDRESS_MIN, BLEX_BROADCAST_ADDRESS in *.
    rewrite (proj2 (Z.eqb_neq _ 65535)) by lia. cbn [orb].
    rewrite (proj2 (Z.leb_gt 49152 _)) by lia. cbn [andb].
    rewrite orb_false_r, bool_decide_eq_true. reflexivity.
  - intros H1 H3 H4. unfold GetDevicesInGroup.
    rewrite (proj2 (Z.eqb_neq _ 1)), (proj2 (Z.eqb_neq _ 3)), (proj2 (Z.eqb_neq _ 4))
      by assumption. reflexivity.
Qed.

(** A frame flagged encrypted whose network bits are not those of the
    receive slot is dropped before any decryption: the handler calls
    neither [XDecrypt] nor the cipher, and leaves the nonce, the counters
    and the trace as they were. *)
Theorem scan_response_drops_foreign_network
    (st : state) (this_field : list Z) (t id0 : Z) (c : NetworkConfig) :
  item this_field XBX_NETWORK_ID_OFFSET = Some t ->
  Z.land t XB_TYPE_ENCRYPTED_FLAG <> 0 ->
  networkConfigs st !! selectedRxNetworkIndex st = Some c ->
  item (id c) 0 = Some id0 ->
  Z.land t XBX_NETWORK_ID_PARTIAL_ID_MASK <> Z.land id0 XBX_NETWORK_ID_PARTIAL_ID_MASK ->
  my_ble_evt_gap_scan_response_encrypted this_field st = (Some None, st).
Proof.
  intros Ht Hflag Hc Hid Hforeign. unfold my_ble_evt_gap_scan_response_encrypted.
  rewrite run_lift_bind, Ht. rewrite (proj2 (Z.eqb_neq _ 0)) by exact Hflag. cbn [negb].
  rewrite run_gets_bind, run_config_at_bind, Hc, run_lift_bind, Hid.
  rewrite (proj2 (Z.eqb_neq _ _)) by exact Hforeign. reflexivity.
Qed.

Lemma scan_response_drops_foreign_network_witness :
  my_ble_evt_gap_scan_response_encrypted
    [83; 2; 0x86; 251; 103; 255; 169; 238; 191; 149; 12; 240; 249; 99; 151; 6; 34; 184;
     172; 172] st_b
  = (Some None, st_b).
Proof.
  apply (scan_response_drops_foreign_network st_b _ 0x86 0x25 cfg_a);
    try reflexivity; vm_compute; discriminate.
Defined.

End Addressing.

(** ** The credential file as written *)

Section CredentialFile.

Import BleXim.

Lemma write_configs_failed name (configs : list NetworkConfig) :
  forall (acc : M unit) st s1,
    acc st = (None, s1) ->
    foldl (fun (acc : M unit) netConfig =>
             acc;; line ← lift (network_config_line netConfig); write_line name line)
          acc configs st
    = (None, s1).
Proof.
  induction configs as [|c configs IH]; intros acc st s1 Hacc; cbn [foldl]; [exact Hacc|].
  apply IH. now apply run_bind_None.
Qed.

Lemma write_configs_run name (configs : list NetworkConfig) :
  forall (acc : M unit) st s1 written,
    acc st = (Some tt, s1) ->
    files s1 !! name = Some written ->
    let run := foldl (fun (acc : M unit) netConfig =>
                        acc;; line ← lift (network_config_line netConfig);
                        write_line name line)
                     acc configs st in
    (forall lines,
       mapM network_config_line configs = Some lines ->
       exists s2, run = (Some tt, s2)
                  /\ files s2 = <[name := written ++ lines]> (files s1))
    /\ (forall good bad rest lines,
          configs = good ++ bad :: rest ->
          mapM network_config_line good = Some lines ->
          network_config_line bad = None ->
          exists s2, run = (None, s2)
                     /\ files s2 = <[name := written ++ lines]> (files s1)).
Proof.
  induction configs as [|c configs IH]; intros acc st s1 written Hacc Hname; cbv zeta.
  - cbn [foldl]. split.
    + intros lines Hlines. cbn in Hlines. injection Hlines as <-.
      exists s1. split; [exact Hacc|]. rewrite app_nil_r. symmetry. now apply insert_id.
    + intros [|? ?] bad rest lines Heq; discriminate Heq.
  - cbn [foldl].
    destruct (network_config_line c) as [line|] eqn:Hline.
    + assert (Hstep : (acc;; line ← lift (Some line); write_line name line) st
                      = (Some tt,
                         with_files (<[name := written ++ [line]]> (files s1))
                           (with_trace (trace s1 ++ [File (WriteLine name line)]) s1))).
      { erewrite run_bind_Some by exact Hacc. rewrite run_lift_bind.
        rewrite write_line_run, Hname. reflexivity. }
      destruct (IH _ st _ (written ++ [line]) Hstep) as [Hgood Hbad].
      { cbn [files with_files with_trace]. apply lookup_insert_eq. }
      cbv zeta in Hgood, Hbad. cbn [files with_files with_trace] in Hgood, Hbad. split.
      * intros lines Hlines. cbn [mapM] in Hlines. rewrite Hline in Hlines.
        cbn [mbind option_bind] in Hlines.
        destruct (mapM network_config_line configs) as [lines'|]; [|discriminate].
        cbn in Hlines. injection Hlines as <-.
        destruct (Hgood lines' eq_refl) as (s2 & Hrun & Hfiles).
        exists s2. split; [exact Hrun|]. rewrite Hfiles, insert_insert_eq, <- app_assoc.
        reflexivity.
      * intros good bad rest lines Heq Hlines Hbadline.
        destruct good as [|g good].
        { cbn [app] in Heq. injection Heq as -> ->. congruence. }
        cbn [app] in Heq. injection Heq as -> ->.
        cbn [mapM] in Hlines. rewrite Hline in Hlines. cbn [mbind option_bind] in Hlines.
        destruct (mapM network_config_line good) as [lines'|] eqn:Hgoodlines;
          [|discriminate].
        cbn in Hlines. injection Hlines as <-.
        destruct (Hbad good bad rest lines' eq_refl Hgoodlines Hbadline)
          as (s2 & Hrun & Hfiles).
        exists s2. split; [exact Hrun|]. rewrite Hfiles, insert_insert_eq, <- app_assoc.
        reflexivity.
    + split.
      * intros lines Hlines. cbn [mapM] in Hlines. rewrite Hline in Hlines. discriminate.
      * intros good bad rest lines Heq Hlines Hbadline.
        destruct good as [|g good].
        -- cbn in Hlines. injection Hlines as <-. exists s1. split.
           ++ apply write_configs_failed. erewrite run_bind_Some by exact Hacc.
              rewrite run_lift_bind. reflexivity.
           ++ rewrite app_nil_r. symmetry. now apply insert_id.
        -- cbn [app] in Heq. injection Heq as -> ->.
           cbn [mapM] in Hlines. rewrite Hline in Hlines. discriminate.
Qed.

(** [UpdateNetworkConfigFile] writes one line per credential slot, in slot
    order, into the credential file it has just emptied, and touches no
    other file. When a slot holds a value that is not a byte the call
    raises at that slot, and the file is left holding only the lines of the
    slots before it: what the file held before the call is lost. *)
Theorem UpdateNetworkConfigFile_content (st : state) :
  let name := bleNetworkConfigFileName st in
  let r := UpdateNetworkConfigFile st in
  (forall lines,
     mapM network_config_line (networkConfigs st) = Some lines ->
     r.1 = Some tt /\ files r.2 = <[name := lines]> (files st))
  /\ (forall good bad rest lines,
        networkConfigs st = good ++ bad :: rest ->
        mapM network_config_line good = Some lines ->
        network_config_line bad = None ->
        r.1 = None /\ files r.2 = <[name := lines]> (files st)).
Proof.
  cbv zeta. unfold UpdateNetworkConfigFile.
  rewrite run_gets_bind, run_open_w_bind, run_gets_bind.
  cbn [networkConfigs with_files with_trace].
  match goal with
  | |- context [ foldl _ (mret tt) _ ?s ] =>
      destruct (write_configs_run (bleNetworkConfigFileName st) (networkConfigs st)
                  (mret tt) s s [] (run_ret tt s)) as [Hgood Hbad];
        [apply lookup_insert_eq|]
  end.
  cbv zeta in Hgood, Hbad. cbn [files with_files with_trace app] in Hgood, Hbad. split.
  - intros lines Hlines. destruct (Hgood lines Hlines) as (s2 & Hrun & Hfiles).
    rewrite Hrun. cbn [fst snd]. split; [reflexivity|]. rewrite Hfiles.
    apply insert_insert_eq.
  - intros good bad rest lines Heq Hlines Hbadline.
    destruct (Hbad good bad rest lines Heq Hlines Hbadline) as (s2 & Hrun & Hfiles).
    rewrite Hrun. cbn [fst snd]. split; [reflexivity|]. rewrite Hfiles.
    apply insert_insert_eq.
Qed.

End CredentialFile.

(** ** From the advertiser to the scanner *)

Section RoundTrip.

Import BleXim BleXimFurther Samples.

Lemma call_AesCcmEncrypt_run k n d st :
  call_AesCcmEncrypt k n d st
  = (AesCcmEncrypt k n d, with_trace (trace st ++ [Encrypted k n d]) st).
Proof. reflexivity. Qed.

Lemma ConvertIntToList_bytes (value length_ : Z) :
  1 <= length_ -> 0 <= value < 256 ^ length_ ->
  length (ConvertIntToList value length_) = Z.to_nat length_
  /\ Forall Py.is_byte (ConvertIntToList value length_).
Proof.
  intros Hn Hv. unfold ConvertIntToList.
  destruct (Z.to_nat length_) as [|k] eqn:Hk; [lia|].
  assert (Hlen : length_ = Z.of_nat (S k)) by lia.
  replace (length_ - 1) with (Z.of_nat k) by lia. split.
  - now rewrite length_rev, ConvertIntToList_loop_length.
  - apply Forall_rev, ConvertIntToList_loop_bytes. now rewrite <- Hlen.
Qed.

Lemma nonce_assigned (A L2 L4 : list Z) :
  length A = 13%nat -> length L2 = 2%nat -> length L4 = 4%nat ->
  Py.slice_assign
    (Py.slice_assign A NONCE_SOURCE_ADDR_OFFSET
                     (NONCE_SOURCE_ADDR_OFFSET + XBX_SOURCE_ADDR_LENGTH) L2)
    NONCE_SQN_OFFSET (NONCE_SQN_OFFSET + XBX_SEQUENCE_ID_LENGTH) L4
  = L2 ++ L4 ++ drop 6 A.
Proof.
  intros HA H2 H4.
  do 14 (destruct A as [|? A]; try discriminate HA).
  do 3 (destruct L2 as [|? L2]; try discriminate H2).
  do 5 (destruct L4 as [|? L4]; try discriminate H4).
  reflexivity.
Qed.

Lemma nonce_restored (A H : list Z) :
  length A = 13%nat -> length H = 7%nat ->
  Py.slice_assign_to A (Py.len H - XBX_RFU_LENGTH) (Py.slice_to H (Py.len H - XBX_RFU_LENGTH))
  = take 6 H ++ drop 6 A.
Proof.
  intros HA HH.
  do 14 (destruct A as [|? A]; try discriminate HA).
  do 8 (destruct H as [|? H]; try discriminate HH).
  reflexivity.
Qed.

Lemma header_pieces_app (H more : list Z) :
  length H = 7%nat ->
  Py.slice_to H 2 ++ Py.slice H 2 6 ++ Py.slice H 6 7 ++ more = H ++ more.
Proof.
  intros HH. do 8 (destruct H as [|? H]; try discriminate HH). reflexivity.
Qed.

Lemma grows_trace_UpdateNetworkConfigFile : grows_trace UpdateNetworkConfigFile.
Proof. unfold UpdateNetworkConfigFile, open_w, write_line. respects. Qed.

(** What [SetXBAssignedPacket] does on its encrypted path. *)
Lemma SetXBAssignedPacket_encrypted_run
    (st : state) (d0 payloadType : Z) (payload : list Z) (c0 : NetworkConfig)
    (id0 : Z) (eMsg eMic header unusedMic : list Z) :
  networkConfigs st !! selectedTxNetworkIndex st = Some c0 ->
  encrypted_adv_enabled [d0] st = Some true ->
  adminMode st = false ->
  item (id c0) 0 = Some id0 ->
  length (aesNonce st) = 13%nat ->
  let sqn := if XBX_SEQUENCE_ID_MAX_VALUE <=? txSqn c0 + 1 then 1 else txSqn c0 + 1 in
  let source := ConvertIntToList (bleLocalDeviceId st) 2 in
  let number := ConvertIntToList sqn XBX_SEQUENCE_ID_LENGTH in
  let nonce := source ++ number ++ drop 6 (aesNonce st) in
  let plain := [payloadType] ++ ConvertIntToList d0 2 ++ payload in
  length source = 2%nat -> length number = 4%nat ->
  AesCcmEncrypt (key c0) nonce plain = Some (eMsg, eMic) ->
  AesCcmEncrypt (headerKey c0) (header_nonce_of (eMsg ++ eMic)) (source ++ number ++ [0])
  = Some (header, unusedMic) ->
  exists more,
    trace (SetXBAssignedPacket [d0] payloadType payload st).2
    = trace st
      ++ [Encrypted (key c0) nonce plain;
          Encrypted (headerKey c0) (header_nonce_of (eMsg ++ eMic)) (source ++ number ++ [0]);
          Advertised
            ([AD1_LENGTH; AD1_TYPE; AD1_VALUE; 15 + Py.len plain; 0xFF; 0x53; 0x02]
             ++ [XB_TYPE_ENCRYPTED_FLAG + Z.land id0 XBX_NETWORK_ID_PARTIAL_ID_MASK]
             ++ Py.slice_to header 2 ++ Py.slice header 2 6 ++ Py.slice header 6 7
             ++ eMsg ++ eMic)]
      ++ more.
Proof.
  intros Hc0 Henabled Hadmin Hid Hnonce sqn source number nonce plain Hsource Hnumber
    Henc Hhdr.
  unfold SetXBAssignedPacket. rewrite run_lift_bind.
  change (Py.len [d0] =? 1) with true. cbv iota.
  change (item [d0] 0) with (Some d0). cbn [mbind option_bind]. cbv zeta.
  destruct (issue_txSqn_run st c0 Hc0) as [Hissue Hstored].
  fold sqn in Hstored. set (c := set_txSqn sqn c0) in Hstored.
  erewrite run_bind_Some by exact Hissue.
  rewrite run_gets_bind.
  erewrite run_bind_Some
    by (rewrite IsEncryptedAdvEnabled_run, encrypted_adv_enabled_issued, Henabled
          by exact Hc0; reflexivity).
  change (selectedTxNetworkIndex (issued st c0)) with (selectedTxNetworkIndex st).
  rewrite run_config_at_bind, Hstored, run_gets_bind.
  change (adminMode (issued st c0)) with (adminMode st). rewrite Hadmin.
  assert (Hkey : bool_decide (key c = NETWORK_KEY_NONE) = false).
  { unfold encrypted_adv_enabled in Henabled. rewrite Hc0 in Henabled.
    cbn [mbind option_bind] in Henabled. change (key c) with (key c0).
    destruct (bool_decide (key c0 = NETWORK_KEY_NONE)); [discriminate|reflexivity]. }
  rewrite Hkey. cbn [orb andb negb].
  rewrite run_bind.
  rewrite (run_bind (mret (key c))), run_ret.
  rewrite run_gets_bind, !run_modify_bind, run_gets_bind.
  cbn [aesNonce with_aesNonce bleLocalDeviceId].
  change (bleLocalDeviceId (issued st c0)) with (bleLocalDeviceId st).
  change (aesNonce (issued st c0)) with (aesNonce st).
  change (txSqn c) with sqn. change (key c) with (key c0).
  change (headerKey c) with (headerKey c0). change (id c) with (id c0).
  fold source. fold number.
  rewrite (nonce_assigned (aesNonce st) source number Hnonce Hsource Hnumber).
  fold nonce. fold plain.
  rewrite (run_bind (call_AesCcmEncrypt _ _ _)), call_AesCcmEncrypt_run, Henc.
  rewrite run_lift_bind, Hid.
  replace (Py.repeat 0 XBX_RFU_LENGTH) with [0] by reflexivity.
  rewrite fill_headerNonce_spec, run_lift_bind.
  rewrite (run_bind (call_AesCcmEncrypt _ _ _)), call_AesCcmEncrypt_run, Hhdr.
  rewrite run_ret.
  unfold TransmitAdvertisement, emit. rewrite run_modify_bind.
  match goal with
  | |- context [ UpdateNetworkConfigFile ?s ] =>
      destruct (grows_trace_UpdateNetworkConfigFile s) as [more Hmore]
  end.
  exists more. rewrite Hmore. cbn [trace with_trace with_aesNonce].
  change (trace (issued st c0)) with (trace st).
  rewrite <- !app_assoc. reflexivity.
Qed.

Lemma slice_to_app (a b : list Z) : Py.slice_to (a ++ b) (Py.len a) = a.
Proof.
  unfold Py.slice_to, Py.norm, Py.len. rewrite (proj2 (Z.ltb_ge _ 0)) by lia.
  rewrite Z.min_l by (rewrite length_app; lia). rewrite Nat2Z.id. apply take_app_length.
Qed.

Lemma slice_from_app (a b : list Z) : Py.slice_from (a ++ b) (Py.len a) = b.
Proof.
  unfold Py.slice_from, Py.norm, Py.len. rewrite (proj2 (Z.ltb_ge _ 0)) by lia.
  rewrite Z.min_l by (rewrite length_app; lia). rewrite Nat2Z.id. apply drop_app_length.
Qed.

Lemma slice_app_middle (a b c : list Z) :
  Py.slice (a ++ b ++ c) (Py.len a) (Py.len a + Py.len b) = b.
Proof.
  unfold Py.slice, Py.norm, Py.len. rewrite !(proj2 (Z.ltb_ge _ 0)) by lia.
  rewrite !Z.min_l by (rewrite !length_app; lia).
  replace (Z.to_nat (Z.of_nat (length a) + Z.of_nat (length b)) - Z.to_nat (Z.of_nat (length a)))%nat
    with (length b) by lia.
  rewrite Nat2Z.id, drop_app_length. apply take_app_length.
Qed.

(** What [XDecrypt] does when the receive slot's key authenticates. *)
Lemma XDecrypt_authentic_run
    (str : state) (rxHeader eMsg eMic header plain : list Z) (crx : NetworkConfig)
    (headerValid : bool) :
  networkConfigs str !! selectedRxNetworkIndex str = Some crx ->
  length (aesNonce str) = 13%nat -> length rxHeader = 7%nat -> length header = 7%nat ->
  length eMic = 4%nat ->
  AesCcmDecrypt (headerKey crx) (header_nonce_of (eMsg ++ eMic)) rxHeader [0; 0; 0; 0]
  = Some (header, headerValid) ->
  AesCcmDecrypt (key crx) (take 6 header ++ drop 6 (aesNonce str)) eMsg eMic
  = Some (plain, true) ->
  exists str',
    XDecrypt rxHeader (eMsg ++ eMic) str = (Some (header, plain, true), str')
    /\ configs_kept str str'.
Proof.
  intros Hcrx Hnonce Hrx Hheader Hmic Hhdr Hpayload.
  pose proof (keeps_configs_XDecrypt rxHeader (eMsg ++ eMic) str) as Hkept.
  unfold XDecrypt in *. cbv zeta in *.
  replace (Z.min NONCE_LENGTH (Py.len (eMsg ++ eMic) - XBX_MIC_LENGTH + XBX_MIC_LENGTH))
    with (Z.min NONCE_LENGTH (Py.len (eMsg ++ eMic))) in * by (f_equal; lia).
  rewrite fill_headerNonce_spec in *.
  assert (Hlen : Py.len (eMsg ++ eMic) - XBX_MIC_LENGTH = Py.len eMsg)
    by (unfold Py.len, XBX_MIC_LENGTH; rewrite length_app; lia).
  rewrite Hlen in *.
  assert (Hct : Py.slice_to (eMsg ++ eMic) (Py.len eMsg) = eMsg) by apply slice_to_app.
  assert (Hmac : Py.slice (eMsg ++ eMic) (Py.len eMsg) (Py.len eMsg + XBX_MIC_LENGTH) = eMic).
  { replace XBX_MIC_LENGTH with (Py.len eMic) by (unfold Py.len; rewrite Hmic; reflexivity).
    rewrite <- (app_nil_r eMic) at 1. apply slice_app_middle. }
  rewrite Hct, Hmac in *.
  revert Hkept.
  rewrite run_lift_bind, run_gets_bind, run_config_at_bind, Hcrx.
  rewrite (run_bind (call_AesCcmDecrypt _ _ _ _)), call_AesCcmDecrypt_run.
  change (Py.repeat 0 XBX_MIC_LENGTH) with [0; 0; 0; 0]. rewrite Hhdr.
  rewrite run_modify_bind, run_gets_bind, run_config_at_bind.
  cbn [networkConfigs selectedRxNetworkIndex with_aesNonce with_trace aesNonce].
  rewrite Hcrx.
  replace (Py.len rxHeader) with (Py.len header) by (unfold Py.len; congruence).
  rewrite (nonce_restored (aesNonce str) header Hnonce Hheader).
  rewrite (run_bind (call_AesCcmDecrypt _ _ _ _)), call_AesCcmDecrypt_run, Hpayload.
  cbn [negb]. rewrite run_bind, run_ret, run_ret.
  intros Hkept. eexists. split; [reflexivity|]. exact Hkept.
Qed.

Lemma ConvertListToInt_back (value length_ : Z) :
  1 <= length_ -> ConvertListToInt (ConvertIntToList value length_) = value.
Proof.
  intros Hn. unfold ConvertIntToList.
  destruct (Z.to_nat length_) as [|k] eqn:Hk; [lia|].
  replace (length_ - 1) with (Z.of_nat k) by lia. apply ConvertIntToList_loop_value.
Qed.

Lemma scan_fields_stale (data acc : list Z) : scan_fields data 0 acc = scan_fields data 0 [].
Proof. destruct data; reflexivity. Qed.

Lemma scan_fields_field (f : list Z) :
  forall (acc more : list Z),
    f <> [] ->
    scan_fields (f ++ more) (Py.len f) acc = (acc ++ f) :: scan_fields more 0 [].
Proof.
  unfold Py.len. induction f as [|b f IH]; intros acc more Hf; [congruence|].
  cbn [app scan_fields length].
  rewrite (proj2 (Z.eqb_neq _ 0)) by lia. cbv zeta.
  replace (Z.of_nat (S (length f)) - 1) with (Z.of_nat (length f)) by lia.
  destruct f as [|b' f].
  - cbn [length app]. change (Z.of_nat 0 =? 0) with true. cbv iota.
    now rewrite scan_fields_stale.
  - rewrite (proj2 (Z.eqb_neq _ 0)) by (cbn [length]; lia).
    rewrite IH by discriminate. now rewrite <- app_assoc.
Qed.

Lemma scan_fields_last (f acc : list Z) :
  f <> [] -> scan_fields f (Py.len f) acc = [acc ++ f].
Proof.
  intros Hf. rewrite <- (app_nil_r f) at 1. now rewrite scan_fields_field.
Qed.

Lemma header_nonce_of_bytes pm : Forall Py.is_byte pm -> Forall Py.is_byte (header_nonce_of pm).
Proof.
  intros H. unfold header_nonce_of. apply Forall_take, Forall_app. split; [exact H|].
  apply Forall_replicate. unfold Py.is_byte. lia.
Qed.

(** An encrypted frame is read back by a scanner that shares the
    credentials. For an advertiser whose transmit slot holds 16-byte keys
    and whose destination has encrypted advertising enabled (admin mode
    off), and a scanner whose receive slot holds the same two keys and
    whose nonce agrees with the advertiser's beyond the first six bytes:
    [SetXBAssignedPacket] advertises a packet; the field loop of the scan
    handler cuts it into the flags field and one manufacturer field; and
    [XDecrypt], given the header and the rest of that field as the handler
    slices them, returns the clear header, the inner payload (type,
    destination, payload) and [isValid = True]. The byte the handler tests
    carries the encrypted flag and the low five bits of the network id, and
    the clear header reads back as the advertiser's address and the
    sequence number it issued. *)
Theorem advertised_frame_is_read
    (st str : state) (c0 crx : NetworkConfig) (d0 payloadType id0 : Z) (payload : list Z) :
  networkConfigs st !! selectedTxNetworkIndex st = Some c0 ->
  encrypted_adv_enabled [d0] st = Some true ->
  adminMode st = false ->
  item (id c0) 0 = Some id0 ->
  length (key c0) = 16%nat -> Forall Py.is_byte (key c0) ->
  length (headerKey c0) = 16%nat -> Forall Py.is_byte (headerKey c0) ->
  length (aesNonce st) = 13%nat -> Forall Py.is_byte (aesNonce st) ->
  0 <= bleLocalDeviceId st < 65536 -> 0 <= txSqn c0 ->
  0 <= payloadType < 256 -> 0 <= d0 < 65536 -> Forall Py.is_byte payload ->
  Py.len payload < 65000 ->
  networkConfigs str !! selectedRxNetworkIndex str = Some crx ->
  key crx = key c0 -> headerKey crx = headerKey c0 ->
  length (aesNonce str) = 13%nat -> drop 6 (aesNonce str) = drop 6 (aesNonce st) ->
  let sqn := if XBX_SEQUENCE_ID_MAX_VALUE <=? txSqn c0 + 1 then 1 else txSqn c0 + 1 in
  let clearHeader :=
    ConvertIntToList (bleLocalDeviceId st) 2 ++ ConvertIntToList sqn 4 ++ [0] in
  let plain := [payloadType] ++ ConvertIntToList d0 2 ++ payload in
  exists packet field str',
    Advertised packet ∈ trace (SetXBAssignedPacket [d0] payloadType payload st).2
    /\ advertisement_fields packet = [[AD1_TYPE; AD1_VALUE]; 0xFF :: field]
    /\ item field XBX_NETWORK_ID_OFFSET
       = Some (XB_TYPE_ENCRYPTED_FLAG + Z.land id0 XBX_NETWORK_ID_PARTIAL_ID_MASK)
    /\ XDecrypt
         (Py.slice field XBX_SOURCE_ADDR_OFFSET
            (XBX_SOURCE_ADDR_OFFSET
             + (XBX_SOURCE_ADDR_LENGTH + XBX_SEQUENCE_ID_LENGTH + XBX_RFU_LENGTH)))
         (Py.slice_from field XBX_PAYLOAD_AND_MIC_OFFSET) str
       = (Some (clearHeader, plain, true), str')
    /\ ConvertListToInt (Py.slice_to clearHeader XBX_SOURCE_ADDR_LENGTH)
       = bleLocalDeviceId st
    /\ ConvertListToInt
         (Py.slice clearHeader XBX_SOURCE_ADDR_LENGTH
            (XBX_SOURCE_ADDR_LENGTH + XBX_SEQUENCE_ID_LENGTH))
       = sqn.
Proof.
  intros Hc0 Henabled Hadmin Hid Hklen Hkbytes Hhklen Hhkbytes Hnlen Hnbytes Hlocal Hsqn0
    Htype Hd0 Hpayload Hplen Hcrx Hkey Hhkey Hrlen Htail sqn clearHeader plain.
  assert (Hsqn : 0 <= sqn < 256 ^ 4).
  { unfold sqn, XBX_SEQUENCE_ID_MAX_VALUE.
    destruct (Z.leb_spec (2 ^ 32) (txSqn c0 + 1)); change (256 ^ 4) with (2 ^ 32); lia. }
  destruct (ConvertIntToList_bytes (bleLocalDeviceId st) 2 ltac:(lia) ltac:(exact Hlocal))
    as [Hsrclen Hsrcbytes].
  destruct (ConvertIntToList_bytes sqn 4 ltac:(lia) Hsqn) as [Hnumlen Hnumbytes].
  destruct (ConvertIntToList_bytes d0 2 ltac:(lia) ltac:(exact Hd0)) as [Hdstlen Hdstbytes].
  set (source := ConvertIntToList (bleLocalDeviceId st) 2) in *.
  set (number := ConvertIntToList sqn 4) in *.
  change (Z.to_nat 2) with 2%nat in *. change (Z.to_nat 4) with 4%nat in *.
  set (nonce := source ++ number ++ drop 6 (aesNonce st)).
  assert (Hnoncelen : length nonce = 13%nat).
  { unfold nonce. rewrite !length_app, length_drop. lia. }
  assert (Hnoncebytes : Forall Py.is_byte nonce).
  { unfold nonce. rewrite !Forall_app. repeat split; auto. now apply Forall_drop. }
  assert (Hplainbytes : Forall Py.is_byte plain).
  { unfold plain. rewrite !Forall_app. repeat split; auto. }
  assert (Hplainlen : Py.len plain < 65536).
  { unfold plain, Py.len in *. rewrite !length_app. cbn [length]. lia. }
  destruct (AesCcmDecrypt_after_encrypt (key c0) nonce plain
              Hklen Hnoncelen Hkbytes Hnoncebytes Hplainbytes Hplainlen)
    as (eMsg & eMic & Henc & HlenMsg & HlenMic & HbMsg & HbMic & Hdec).
  assert (Hclearbytes : Forall Py.is_byte clearHeader).
  { unfold clearHeader. rewrite !Forall_app. repeat split; auto.
    repeat constructor; unfold Py.is_byte; lia. }
  assert (Hclearlen : length clearHeader = 7%nat).
  { unfold clearHeader. rewrite !length_app. cbn [length]. lia. }
  assert (Hpmbytes : Forall Py.is_byte (eMsg ++ eMic)) by (apply Forall_app; auto).
  assert (Hclearshort : Py.len clearHeader < 65536)
    by (unfold Py.len; rewrite Hclearlen; lia).
  destruct (AesCcmDecrypt_after_encrypt (headerKey c0) (header_nonce_of (eMsg ++ eMic))
              clearHeader Hhklen (header_nonce_of_length _) Hhkbytes
              (header_nonce_of_bytes _ Hpmbytes) Hclearbytes Hclearshort)
    as (encH & unusedMic & Hhdr & HlenH & _ & _ & _ & HdecH).
  rewrite Hclearlen in HlenH.
  destruct (SetXBAssignedPacket_encrypted_run st d0 payloadType payload c0 id0
              eMsg eMic encH unusedMic Hc0 Henabled Hadmin Hid Hnlen Hsrclen Hnumlen
              Henc Hhdr) as [more Htrace].
  fold plain in Htrace. rewrite (header_pieces_app encH _ HlenH) in Htrace.
  set (headerByte := XB_TYPE_ENCRYPTED_FLAG + Z.land id0 XBX_NETWORK_ID_PARTIAL_ID_MASK)
    in Htrace.
  set (field := [0x53; 0x02; headerByte] ++ encH ++ eMsg ++ eMic).
  destruct (XDecrypt_authentic_run str encH eMsg eMic clearHeader plain crx
              (bool_decide ([0; 0; 0; 0] = unusedMic)) Hcrx Hrlen HlenH Hclearlen HlenMic)
    as (str' & Hrun & _).
  { rewrite Hhkey. apply HdecH. }
  { rewrite Hkey, Htail.
    replace (take 6 clearHeader) with (source ++ number).
    - rewrite <- app_assoc. fold nonce. rewrite Hdec.
      now rewrite bool_decide_eq_true_2.
    - unfold clearHeader. rewrite app_assoc. symmetry.
      rewrite take_app_le by (rewrite length_app; lia).
      apply take_ge. rewrite length_app. lia. }
  change XBX_SOURCE_ADDR_OFFSET with 3. change XBX_PAYLOAD_AND_MIC_OFFSET with 10.
  change (3 + (XBX_SOURCE_ADDR_LENGTH + XBX_SEQUENCE_ID_LENGTH + XBX_RFU_LENGTH)) with 10.
  change (XBX_SOURCE_ADDR_LENGTH + XBX_SEQUENCE_ID_LENGTH) with 6.
  change XBX_SOURCE_ADDR_LENGTH with 2.
  eexists _, field, str'. split; [|split; [|split; [|split; [|split]]]].
  - rewrite Htrace. rewrite !elem_of_app. right. left.
    rewrite !elem_of_cons. right. right. left. reflexivity.
  - unfold advertisement_fields.
    change ([AD1_LENGTH; AD1_TYPE; AD1_VALUE; 15 + Py.len plain; 255; 83; 2]
            ++ [headerByte] ++ encH ++ eMsg ++ eMic)
      with (2 :: [AD1_TYPE; AD1_VALUE] ++ (15 + Py.len plain :: 0xFF :: field)).
    assert (Hrest : 0xFF :: field <> []) by discriminate.
    assert (Hrestlen : 15 + Py.len plain = Py.len (0xFF :: field)).
    { unfold field, Py.len. cbn [length app]. rewrite !length_app.
      rewrite HlenH, HlenMsg, HlenMic. lia. }
    revert Hrest Hrestlen. generalize (0xFF :: field). intros rest Hrest Hrestlen.
    cbn [scan_fields]. change (0 =? 0) with true. cbv iota.
    change 2 with (Py.len [AD1_TYPE; AD1_VALUE]) at 1.
    rewrite scan_fields_field by discriminate. cbn [app].
    cbn [scan_fields]. change (0 =? 0) with true. cbv iota.
    rewrite Hrestlen, scan_fields_last by exact Hrest. reflexivity.
  - reflexivity.
  - replace (Py.slice field 3 10) with encH.
    + replace (Py.slice_from field 10) with (eMsg ++ eMic); [exact Hrun|].
      unfold field. rewrite app_assoc. symmetry.
      replace 10 with (Py.len ([83; 2; headerByte] ++ encH))
        by (unfold Py.len; rewrite length_app, HlenH; reflexivity).
      apply slice_from_app.
    + unfold field. symmetry.
      change 3 with (Py.len [83; 2; headerByte]).
      replace 10 with (Py.len [83; 2; headerByte] + Py.len encH)
        by (unfold Py.len; rewrite HlenH; reflexivity).
      apply slice_app_middle.
  - unfold clearHeader. fold source.
    change 2 with (Py.len source) at 1
      || replace 2 with (Py.len source) by (unfold Py.len; rewrite Hsrclen; reflexivity).
    rewrite slice_to_app. unfold source. apply ConvertListToInt_back. lia.
  - unfold clearHeader. fold source. fold number.
    replace 2 with (Py.len source) by (unfold Py.len; rewrite Hsrclen; reflexivity).
    replace 6 with (Py.len source + Py.len number)
      by (unfold Py.len; rewrite Hsrclen, Hnumlen; reflexivity).
    rewrite slice_app_middle. unfold number. apply ConvertListToInt_back. lia.
Qed.

Lemma advertised_frame_is_read_witness :
  exists packet field str',
    Advertised packet ∈ trace (SetXBAssignedPacket [5] 0x10 [1; 2; 3] st_a).2
    /\ advertisement_fields packet = [[AD1_TYPE; AD1_VALUE]; 0xFF :: field]
    /\ item field XBX_NETWORK_ID_OFFSET = Some 0x85
    /\ XDecrypt (Py.slice field 3 10) (Py.slice_from field 10) st_b
       = (Some ([0x34; 0x12; 42; 0; 0; 0; 0], [0x10; 5; 0; 1; 2; 3], true), str')
    /\ ConvertListToInt (Py.slice_to [0x34; 0x12; 42; 0; 0; 0; 0] 2) = 0x1234
    /\ ConvertListToInt (Py.slice [0x34; 0x12; 42; 0; 0; 0; 0] 2 6) = 42.
Proof.
  apply (advertised_frame_is_read st_a st_b cfg_a cfg_a 5 0x10 0x25 [1; 2; 3]);
    try reflexivity; try (cbn; lia);
    repeat constructor; unfold Py.is_byte; lia.
Defined.

End RoundTrip.

(** ** The nearest entry of a table *)

Section Nearest.

Import BleXim BleXimFurther.

Lemma item_Some {A} (l : list A) (i : Z) :
  0 <= i < Py.len l -> exists x, item l i = Some x.
Proof.
  intros Hi. unfold item, Py.len in *. rewrite (proj2 (Z.ltb_ge _ _)) by lia.
  destruct (lookup_lt_is_Some_2 l (Z.to_nat i)) as [x Hx]; [lia|]. eauto.
Qed.

Lemma item_range {A} (l : list A) (i : Z) (x : A) :
  item l i = Some x -> 0 <= i < Py.len l.
Proof.
  unfold item, Py.len. destruct (Z.ltb_spec i 0); [discriminate|].
  intros Hx. apply lookup_lt_Some in Hx. lia.
Qed.

Lemma ascending_lookup (l : list Z) :
  ascending l = true ->
  forall (i j : nat) (x y : Z), (i <= j)%nat -> l !! i = Some x -> l !! j = Some y -> x <= y.
Proof.
  induction l as [|a l IH]; intros Hs i j x y Hij Hx Hy; [discriminate|].
  assert (Hrest : ascending l = true).
  { destruct l; [reflexivity|]. cbn [ascending] in Hs. now apply andb_prop in Hs. }
  assert (Hhead : forall k z, l !! k = Some z -> a <= z).
  { clear i j x y Hij Hx Hy. intros k. revert a Hs Hrest IH.
    induction k as [|k IHk]; intros a Hs Hrest IH z Hz.
    - destruct l as [|b l]; [discriminate|]. cbn in Hz. injection Hz as <-.
      cbn [ascending] in Hs. apply andb_prop in Hs as [Hab _]. lia.
    - destruct l as [|b l]; [discriminate|].
      cbn [ascending] in Hs. apply andb_prop in Hs as [Hab _].
      apply Z.leb_le in Hab. transitivity b; [exact Hab|].
      apply (IH Hrest 0%nat (S k) b z); [lia|reflexivity|exact Hz]. }
  destruct i as [|i], j as [|j]; cbn in Hx, Hy.
  - injection Hx as <-. injection Hy as <-. lia.
  - injection Hx as <-. eauto.
  - lia.
  - apply (IH Hrest i j); [lia|assumption..].
Qed.

Lemma item_ascending (l : list Z) (i j x y : Z) :
  ascending l = true -> i <= j -> item l i = Some x -> item l j = Some y -> x <= y.
Proof.
  intros Hs Hij Hx Hy.
  pose proof (item_range _ _ _ Hx). pose proof (item_range _ _ _ Hy).
  unfold item in *.
  rewrite (proj2 (Z.ltb_ge i 0)) in Hx by lia. rewrite (proj2 (Z.ltb_ge j 0)) in Hy by lia.
  apply (ascending_lookup l Hs (Z.to_nat i) (Z.to_nat j)); [lia|assumption..].
Qed.

(** The search ends within its turns, between its bounds. *)
Lemma bisect_left_loop_returns (a : list Z) (x : Z) :
  forall (turns : nat) (lo hi : Z),
    0 <= lo -> hi <= Py.len a -> hi - lo <= Z.of_nat turns ->
    exists pos, bisect_left_loop turns a x lo hi = Some pos
                /\ (lo <= hi -> lo <= pos <= hi).
Proof.
  intros turns. induction turns as [|turns IH]; intros lo hi Hlo Hhi Hturns.
  - cbn [bisect_left_loop]. destruct (Z.ltb_spec lo hi); [lia|].
    exists lo. split; [reflexivity|lia].
  - cbn [bisect_left_loop]. destruct (Z.ltb_spec lo hi) as [Hlt|Hge].
    + cbv zeta.
      assert (Hmid : lo <= (lo + hi) / 2 < hi).
      { split; [apply Z.div_le_lower_bound; lia|apply Z.div_lt_upper_bound; lia]. }
      destruct (item_Some a ((lo + hi) / 2) ltac:(lia)) as [a_mid Hitem].
      rewrite Hitem. cbn [mbind option_bind].
      destruct (a_mid <? x).
      * destruct (IH ((lo + hi) / 2 + 1) hi ltac:(lia) Hhi ltac:(lia)) as (pos & -> & Hpos).
        exists pos. split; [reflexivity|]. lia.
      * destruct (IH lo ((lo + hi) / 2) Hlo ltac:(lia) ltac:(lia)) as (pos & -> & Hpos).
        exists pos. split; [reflexivity|]. lia.
    + exists lo. split; [reflexivity|lia].
Qed.

(** On an ascending table it ends at the first entry that is not below
    [x]. *)
Lemma bisect_left_loop_parts (a : list Z) (x : Z) :
  ascending a = true ->
  forall (turns : nat) (lo hi pos : Z),
    0 <= lo <= hi -> hi <= Py.len a ->
    (forall i t, i < lo -> item a i = Some t -> t < x) ->
    (forall i t, hi <= i -> item a i = Some t -> x <= t) ->
    bisect_left_loop turns a x lo hi = Some pos ->
    (forall i t, i < pos -> item a i = Some t -> t < x)
    /\ (forall i t, pos <= i -> item a i = Some t -> x <= t).
Proof.
  intros Hs turns. induction turns as [|turns IH]; intros lo hi pos Hlo Hhi Hbelow Habove Hrun.
  - cbn [bisect_left_loop] in Hrun. destruct (Z.ltb_spec lo hi); [discriminate|].
    injection Hrun as <-. split; [exact Hbelow|].
    intros i t Hi. apply Habove. lia.
  - cbn [bisect_left_loop] in Hrun. destruct (Z.ltb_spec lo hi) as [Hlt|Hge].
    + cbv zeta in Hrun.
      assert (Hmid : lo <= (lo + hi) / 2 < hi).
      { split; [apply Z.div_le_lower_bound; lia|apply Z.div_lt_upper_bound; lia]. }
      destruct (item a ((lo + hi) / 2)) as [a_mid|] eqn:Hitem; [|discriminate].
      cbn [mbind option_bind] in Hrun.
      destruct (Z.ltb_spec a_mid x) as [Hless|Hmore].
      * apply (IH ((lo + hi) / 2 + 1) hi pos ltac:(lia) Hhi) in Hrun;
          [exact Hrun| |exact Habove].
        intros i t Hi Ht.
        pose proof (item_ascending a i ((lo + hi) / 2) t a_mid Hs ltac:(lia) Ht Hitem). lia.
      * apply (IH lo ((lo + hi) / 2) pos ltac:(lia) ltac:(lia)) in Hrun;
          [exact Hrun|exact Hbelow|].
        intros i t Hi Ht.
        pose proof (item_ascending a ((lo + hi) / 2) i a_mid t Hs ltac:(lia) Hitem Ht). lia.
    + injection Hrun as <-. split; [exact Hbelow|].
      intros i t Hi. apply Habove. lia.
Qed.

(** [TableIndexLookup] returns on every table: [0] on an empty one, an
    index of the table otherwise. On a table whose entries do not decrease,
    the entry at the index returned is as near to [value] as any entry of
    the table. *)
Theorem TableIndexLookup_nearest (table : list Z) (value : Z) :
  exists index,
    TableIndexLookup table value = Some index
    /\ (table = [] -> index = 0)
    /\ (table <> [] -> 0 <= index < Py.len table)
    /\ (ascending table = true ->
        forall nearest, item table index = Some nearest ->
        forall i t, item table i = Some t -> Z.abs (nearest - value) <= Z.abs (t - value)).
Proof.
  unfold TableIndexLookup, bisect_left.
  destruct (bisect_left_loop_returns table value (length table) 0 (Py.len table)
              ltac:(lia) ltac:(lia) ltac:(unfold Py.len; lia)) as (pos & Hrun & Hpos).
  specialize (Hpos ltac:(unfold Py.len; lia)).
  assert (Hparts : ascending table = true ->
                   (forall i t, i < pos -> item table i = Some t -> t < value)
                   /\ (forall i t, pos <= i -> item table i = Some t -> value <= t)).
  { intros Hs.
    apply (bisect_left_loop_parts table value Hs (length table) 0 (Py.len table) pos);
      [unfold Py.len; lia|lia| | |exact Hrun].
    - intros i t Hi Ht. apply item_range in Ht. lia.
    - intros i t Hi Ht. apply item_range in Ht. lia. }
  rewrite Hrun. cbn [mbind option_bind].
  assert (Hlen : table = [] <-> Py.len table = 0).
  { unfold Py.len. destruct table; cbn [length]; split; intros; try congruence; lia. }
  destruct (Z.eqb_spec pos 0) as [->|Hpos0].
  { exists 0. split; [reflexivity|]. split; [reflexivity|]. split.
    - intros Hne. rewrite Hlen in Hne. unfold Py.len in *. lia.
    - intros Hs nearest Hn i t Ht. destruct (Hparts Hs) as [_ Habove].
      pose proof (item_range _ _ _ Ht). pose proof (Habove 0 nearest ltac:(lia) Hn).
      pose proof (Habove i t ltac:(lia) Ht).
      pose proof (item_ascending table 0 i nearest t Hs ltac:(lia) Hn Ht). lia. }
  destruct (Z.eqb_spec pos (Py.len table)) as [->|Hposlen].
  { exists (Py.len table - 1). split; [reflexivity|]. split.
    { intros He. rewrite Hlen in He. lia. }
    split; [lia|].
    intros Hs nearest Hn i t Ht. destruct (Hparts Hs) as [Hbelow _].
    pose proof (item_range _ _ _ Ht).
    pose proof (Hbelow (Py.len table - 1) nearest ltac:(lia) Hn).
    pose proof (Hbelow i t ltac:(lia) Ht).
    pose proof (item_ascending table i (Py.len table - 1) t nearest Hs ltac:(lia) Ht Hn).
    lia. }
  destruct (item_Some table (pos - 1) ltac:(lia)) as [before Hbefore].
  destruct (item_Some table pos ltac:(lia)) as [after Hafter].
  rewrite Hbefore, Hafter. cbn [mbind option_bind].
  assert (Hne : table = [] -> False) by (rewrite Hlen; lia).
  destruct (Z.ltb_spec (after - value) (value - before)) as [Hnear|Hnear].
  - exists pos. split; [reflexivity|]. split; [tauto|]. split; [lia|].
    intros Hs nearest Hn i t Ht. destruct (Hparts Hs) as [Hbelow Habove].
    assert (nearest = after) as -> by congruence.
    pose proof (Hbelow (pos - 1) before ltac:(lia) Hbefore).
    pose proof (Habove pos after ltac:(lia) Hafter).
    destruct (Z.lt_ge_cases i pos) as [Hi|Hi].
    + pose proof (item_ascending table i (pos - 1) t before Hs ltac:(lia) Ht Hbefore). lia.
    + pose proof (item_ascending table pos i after t Hs ltac:(lia) Hafter Ht). lia.
  - exists (pos - 1). split; [reflexivity|]. split; [tauto|]. split; [lia|].
    intros Hs nearest Hn i t Ht. destruct (Hparts Hs) as [Hbelow Habove].
    assert (nearest = before) as -> by congruence.
    pose proof (Hbelow (pos - 1) before ltac:(lia) Hbefore).
    pose proof (Habove pos after ltac:(lia) Hafter).
    destruct (Z.lt_ge_cases i pos) as [Hi|Hi].
    + pose proof (item_ascending table i (pos - 1) t before Hs ltac:(lia) Ht Hbefore). lia.
    + pose proof (item_ascending table pos i after t Hs ltac:(lia) Hafter Ht). lia.
Qed.

Lemma TableIndexLookup_nearest_witness :
  ascending overrideMap = true
  /\ exists index,
       TableIndexLookup overrideMap 45 = Some index
       /\ (overrideMap = [] -> index = 0)
       /\ (overrideMap <> [] -> 0 <= index < Py.len overrideMap)
       /\ (ascending overrideMap = true ->
           forall nearest, item overrideMap index = Some nearest ->
           forall i t, item overrideMap i = Some t -> Z.abs (nearest - 45) <= Z.abs (t - 45)).
Proof. split; [reflexivity|apply (TableIndexLookup_nearest overrideMap 45)]. Defined.

End Nearest.

(** ** The log files kept *)

Section OldFiles.

Import LogHandler.

Context {T : Type}.

Lemma RemoveOldFiles_loop_removes (turns : nat) :
  forall (self : LogHandler T) (files : gmap string (list string)),
    NoDup (fileTimeList self).*1 ->
    (forall name, name ∈ (fileTimeList self).*1 -> is_Some (files !! name)) ->
    let after := RemoveOldFiles_loop turns (self, files) in
    fileTimeList after.1 = drop turns (fileTimeList self)
    /\ maxFiles after.1 = maxFiles self
    /\ forall name,
         after.2 !! name
         = if decide (name ∈ (take turns (fileTimeList self)).*1) then None
           else files !! name.
Proof.
  induction turns as [|turns IH]; intros self files Hdistinct Hpresent; cbv zeta.
  - cbn [RemoveOldFiles_loop fst snd]. rewrite drop_0, take_0. repeat split.
  - cbn [RemoveOldFiles_loop]. unfold RemoveOldFiles_turn.
    destruct (fileTimeList self) as [|[fullName time] rest] eqn:Hlist.
    + destruct (IH self files) as (Hl & Hm & Hf);
        [rewrite Hlist; constructor|rewrite Hlist; intros ? H; now apply not_elem_of_nil in H|].
      rewrite Hlist in *. rewrite Hl, Hm. rewrite !drop_nil. repeat split.
      intros name. rewrite Hf. rewrite !take_nil. reflexivity.
    + cbn [fmap list_fmap fst] in Hdistinct, Hpresent.
      apply NoDup_cons in Hdistinct as [Hfresh Hdistinct].
      destruct (Hpresent fullName ltac:(left)) as [content Hcontent]. rewrite Hcontent.
      destruct (IH (set_fileTimeList rest self) (delete fullName files)) as (Hl & Hm & Hf).
      * exact Hdistinct.
      * intros name Hin. cbn [set_fileTimeList fileTimeList] in Hin.
        rewrite lookup_delete_ne by (intros ->; contradiction).
        apply Hpresent. now right.
      * cbn [set_fileTimeList fileTimeList maxFiles] in Hl, Hm, Hf.
        rewrite Hl, Hm. cbn [drop]. repeat split.
        intros name. rewrite Hf. cbn [take fmap list_fmap fst].
        destruct (decide (name = fullName)) as [->|Hne].
        -- rewrite lookup_delete_eq.
           rewrite (decide_True (P := fullName ∈ fullName :: _)) by left.
           now destruct (decide _).
        -- rewrite lookup_delete_ne by congruence.
           destruct (decide (name ∈ (take turns rest).*1)) as [Hin|Hout].
           ++ rewrite decide_True; [reflexivity|now right].
           ++ rewrite decide_False; [reflexivity|].
              intros Hin. apply elem_of_cons in Hin as [?|?]; contradiction.
Qed.

(** When every listed file is there and no name is listed twice,
    [RemoveOldFiles] with a positive [maxFiles] keeps the last [maxFiles]
    entries of the list (all of them when there are no more): the entries
    before them leave the list and their files are removed, and no other
    file is touched. *)
Theorem RemoveOldFiles_keeps_newest
    (self : LogHandler T) (files : gmap string (list string)) :
  0 < maxFiles self ->
  NoDup (fileTimeList self).*1 ->
  (forall name, name ∈ (fileTimeList self).*1 -> is_Some (files !! name)) ->
  let excess := Z.to_nat (Py.len (fileTimeList self) - maxFiles self) in
  let after := RemoveOldFiles self files in
  fileTimeList after.1 = drop excess (fileTimeList self)
  /\ Py.len (fileTimeList after.1) = Z.min (maxFiles self) (Py.len (fileTimeList self))
  /\ forall name,
       after.2 !! name
       = if decide (name ∈ (take excess (fileTimeList self)).*1) then None
         else files !! name.
Proof.
  intros Hmax Hdistinct Hpresent excess after. subst after. unfold RemoveOldFiles.
  rewrite (proj2 (Z.ltb_lt _ _) Hmax). cbv zeta. fold excess.
  destruct (RemoveOldFiles_loop_removes excess self files Hdistinct Hpresent)
    as (Hl & _ & Hf).
  split; [exact Hl|]. split; [|exact Hf].
  rewrite Hl. unfold Py.len in *. rewrite length_drop. lia.
Qed.

Lemma RemoveOldFiles_loop_stuck (turns : nat) (self : LogHandler T)
    (files : gmap string (list string)) (fullName : string) (time : T)
    (rest : list (string * T)) :
  fileTimeList self = (fullName, time) :: rest ->
  files !! fullName = None ->
  RemoveOldFiles_loop turns (self, files) = (self, files).
Proof.
  intros Hlist Hmissing. induction turns as [|turns IH]; [reflexivity|].
  cbn [RemoveOldFiles_loop]. unfold RemoveOldFiles_turn at 1.
  now rewrite Hlist, Hmissing.
Qed.

(** When the file of the oldest entry is not there, [RemoveOldFiles]
    removes nothing and leaves the list as it is, however many entries
    exceed [maxFiles]. *)
Theorem RemoveOldFiles_missing_oldest
    (self : LogHandler T) (files : gmap string (list string)) (fullName : string) (time : T)
    (rest : list (string * T)) :
  fileTimeList self = (fullName, time) :: rest ->
  files !! fullName = None ->
  RemoveOldFiles self files = (self, files).
Proof.
  intros Hlist Hmissing. unfold RemoveOldFiles.
  destruct (0 <? maxFiles self); [|reflexivity].
  cbv zeta. now apply (RemoveOldFiles_loop_stuck _ _ _ _ _ _ Hlist Hmissing).
Qed.

End OldFiles.

Lemma RemoveOldFiles_keeps_newest_witness :
  LogHandler.fileTimeList (LogHandler.RemoveOldFiles LogSamples.log_a LogSamples.log_files_a).1
  = [("log/ble_2.txt", 200); ("log/ble.txt", 300)]
  /\ Py.len (LogHandler.fileTimeList (LogHandler.RemoveOldFiles LogSamples.log_a LogSamples.log_files_a).1)
     = Z.min 2 3
  /\ forall name,
       (LogHandler.RemoveOldFiles LogSamples.log_a LogSamples.log_files_a).2 !! name
       = if decide (name ∈ ["log/ble_1.txt"]) then None
         else LogSamples.log_files_a !! name.
Proof.
  apply (RemoveOldFiles_keeps_newest (T := Z) LogSamples.log_a LogSamples.log_files_a).
  - reflexivity.
  - cbn. repeat constructor; rewrite ?elem_of_cons, ?elem_of_nil; intuition discriminate.
  - intros name Hin. cbn in Hin. rewrite !elem_of_cons, elem_of_nil in Hin.
    destruct Hin as [->|[->|[->|[]]]]; eexists; reflexivity.
Defined.

Lemma RemoveOldFiles_missing_oldest_witness :
  LogHandler.RemoveOldFiles LogSamples.log_a LogSamples.log_files_b
  = (LogSamples.log_a, LogSamples.log_files_b).
Proof.
  apply (RemoveOldFiles_missing_oldest (T := Z) LogSamples.log_a LogSamples.log_files_b
           "log/ble_1.txt" 100 [("log/ble_2.txt", 200); ("log/ble.txt", 300)]);
    reflexivity.
Defined.
